(** * AI blog generator: a shallow embedding of the generation core

    The development follows the Python services of the repository:

    - [services/prompts.py]    : [PromptService] (Jinja template rendering),
    - [services/generation.py] : [BlogGenerationService] (circuit breaker,
      retry loops of the two providers, response parser, orchestration),
    - [services/engagement.py] : [EngagementService] (like / dislike toggle),
    - [models.py]              : the rows the services read and write.

    Text is modelled by [string]: sequences of characters with code points
    below 256.  Clock readings ([time.time()]) are exact rationals.  Library
    functions the services call ([re], [str] methods, [urllib.parse], the
    Jinja renderer, the ORM) are embedded as far as the services use them. *)

From Stdlib Require Import String Ascii List ZArith QArith Qround Lia Lqa Bool.
From Stdlib Require Import DecimalString.
From stdpp Require Import base gmap strings.

Import ListNotations.
Local Open Scope string_scope.
Local Open Scope Z_scope.

(* ===================================================================== *)
(** * Python text primitives                                              *)
(* ===================================================================== *)

Module Py.

(** The line feed and the double quote, which string literals of this
    file do not spell. *)
Definition LF : ascii := ascii_of_nat 10.
Definition nl : string := String LF EmptyString.
Definition dq : string := String (ascii_of_nat 34) EmptyString.

(** [str.isspace] on one character, for code points below 256. *)
Definition isspace (c : ascii) : bool :=
  let n := nat_of_ascii c in
  ((9 <=? n) && (n <=? 13) || (28 <=? n) && (n <=? 32)
   || (n =? 133) || (n =? 160))%nat.

(** [str.lower] on one character: A-Z and the Latin-1 capitals. *)
Definition lower_char (c : ascii) : ascii :=
  let n := nat_of_ascii c in
  if ((65 <=? n) && (n <=? 90)
      || (192 <=? n) && (n <=? 222) && negb (n =? 215))%nat
  then ascii_of_nat (n + 32) else c.

Fixpoint lower (s : string) : string :=
  match s with
  | EmptyString => EmptyString
  | String c s' => String (lower_char c) (lower s')
  end.

(** [s.startswith(p)] *)
Fixpoint startswith (p s : string) : bool :=
  match p, s with
  | EmptyString, _ => true
  | String a p', String b s' => Ascii.eqb a b && startswith p' s'
  | String _ _, EmptyString => false
  end.

(** [needle in s] *)
Fixpoint contains (needle s : string) : bool :=
  startswith needle s ||
  match s with
  | EmptyString => false
  | String _ s' => contains needle s'
  end.

(** [c in s] for a single character. *)
Fixpoint has_char (c : ascii) (s : string) : bool :=
  match s with
  | EmptyString => false
  | String x s' => Ascii.eqb c x || has_char c s'
  end.

(** [s[:n]] and [s[n:]] *)
Fixpoint take (n : nat) (s : string) : string :=
  match n, s with
  | S n', String c s' => String c (take n' s')
  | _, _ => EmptyString
  end.

Fixpoint drop (n : nat) (s : string) : string :=
  match n, s with
  | S n', String _ s' => drop n' s'
  | _, _ => s
  end.

(** [s.replace(old, new)]: every non-overlapping occurrence, left to
    right.  The fuel is the length of [s] plus one; each step consumes at
    least one character ([old] is never empty where the services call
    it). *)
Fixpoint replace_fuel (fuel : nat) (old new s : string) : string :=
  match fuel with
  | O => s
  | S fuel' =>
      match s with
      | EmptyString => EmptyString
      | String c s' =>
          if startswith old s && negb (String.eqb old EmptyString)
          then new ++ replace_fuel fuel' old new (drop (String.length old) s)
          else String c (replace_fuel fuel' old new s')
      end
  end.

Definition replace (old new s : string) : string :=
  replace_fuel (S (String.length s)) old new s.

(** [s.lstrip()], [s.rstrip()], [s.strip()] with the default whitespace. *)
Fixpoint lstrip (s : string) : string :=
  match s with
  | String c s' => if isspace c then lstrip s' else s
  | EmptyString => EmptyString
  end.

Fixpoint rstrip (s : string) : string :=
  match s with
  | EmptyString => EmptyString
  | String c s' =>
      match rstrip s' with
      | EmptyString => if isspace c then EmptyString else String c EmptyString
      | r => String c r
      end
  end.

Definition strip (s : string) : string := rstrip (lstrip s).

(** [s.split()]: the maximal runs of non-whitespace characters.  [cur] is
    the run being read, reversed. *)
Fixpoint rev_string (acc s : string) : string :=
  match s with
  | EmptyString => acc
  | String c s' => rev_string (String c acc) s'
  end.

Fixpoint split_ws (cur : string) (s : string) : list string :=
  match s with
  | EmptyString =>
      match cur with
      | EmptyString => []
      | _ => [rev_string EmptyString cur]
      end
  | String c s' =>
      if isspace c then
        match cur with
        | EmptyString => split_ws EmptyString s'
        | _ => rev_string EmptyString cur :: split_ws EmptyString s'
        end
      else split_ws (String c cur) s'
  end.

Definition split (s : string) : list string := split_ws EmptyString s.

(** [str(n)] for an integer. *)
Definition str_of_Z (z : Z) : string := NilZero.string_of_int (Z.to_int z).

(** [bool(s)] for a string: non-empty. *)
Definition truthy (s : string) : bool :=
  match s with EmptyString => false | _ => true end.

(** [repr(s)] for a string.  The quote is the apostrophe, or the double
    quote when the text has an apostrophe and no double quote; the quote,
    the backslash and the characters that are not printable (controls, 127
    to 160, and the soft hyphen 173) are escaped. *)
Definition hex_digit (d : nat) : ascii :=
  if (d <? 10)%nat then ascii_of_nat (48 + d) else ascii_of_nat (87 + d).

Definition hex2 (n : nat) : string :=
  String (hex_digit (n / 16)) (String (hex_digit (n mod 16)) EmptyString).

Definition repr_char (quote : ascii) (c : ascii) : string :=
  let n := nat_of_ascii c in
  if Ascii.eqb c quote || Ascii.eqb c "\" then String "\" (String c EmptyString)
  else if (n =? 9)%nat then "\t"
  else if (n =? 10)%nat then "\n"
  else if (n =? 13)%nat then "\r"
  else if (n <? 32)%nat || (127 <=? n)%nat && (n <=? 160)%nat || (n =? 173)%nat
  then "\x" ++ hex2 n
  else String c EmptyString.

Fixpoint repr_body (quote : ascii) (s : string) : string :=
  match s with
  | EmptyString => EmptyString
  | String c s' => repr_char quote c ++ repr_body quote s'
  end.

Definition repr (s : string) : string :=
  let quote :=
    if has_char "'" s && negb (has_char (ascii_of_nat 34) s)
    then ascii_of_nat 34 else "'"%char in
  String quote (repr_body quote s ++ String quote EmptyString).

End Py.

(* ===================================================================== *)
(** * The [re] patterns of the services                                   *)
(* ===================================================================== *)

(** A backtracking matcher with the priorities of Python's [re]: the
    leftmost start wins, alternatives are tried left to right, a greedy
    repetition tries the longest run first and a lazy one the shortest.
    Every repetition in the services' patterns repeats a single-character
    class, so [Rep] carries a class and recursion is on the input. *)

Module Re.

Record flags := {
  MULTILINE : bool;
  DOTALL : bool;
  IGNORECASE : bool
}.

Definition no_flags : flags :=
  {| MULTILINE := false; DOTALL := false; IGNORECASE := false |}.

Inductive cclass :=
| CChar (c : ascii)            (* a literal character *)
| CAny                         (* .     *)
| CSpace                       (* \s    *)
| CNot (cs : list ascii).      (* [^cs] *)

Inductive regex :=
| Eps
| Cls (c : cclass)
| Rep (c : cclass) (lo : nat) (hi : option nat) (greedy : bool)
| Cat (r1 r2 : regex)
| Alt (r1 r2 : regex)
| Group (n : nat) (r : regex)  (* capturing group number n *)
| Bol                          (* ^      *)
| Eol                          (* $      *)
| Look (r : regex).            (* (?=r)  *)

(** Abbreviations to write a pattern the way its source text reads. *)
Definition chr (c : ascii) : regex := Cls (CChar c).
Definition plus (c : cclass) : regex := Rep c 1 None true.        (* c+  *)
Definition star (c : cclass) : regex := Rep c 0 None true.        (* c*  *)
Definition star_lazy (c : cclass) : regex := Rep c 0 None false.  (* c*? *)
Definition seq (rs : list regex) : regex := fold_right Cat Eps rs.
Fixpoint lit (s : string) : regex :=
  match s with
  | EmptyString => Eps
  | String c s' => Cat (chr c) (lit s')
  end.

(** A position in the subject: the character before it, if any, and the
    text from it on. *)
Record cursor := { before : option ascii; rest : string }.

Definition caps := list (nat * string).

Definition cmatch (fl : flags) (c : cclass) (x : ascii) : bool :=
  match c with
  | CChar a =>
      if IGNORECASE fl
      then Ascii.eqb (Py.lower_char a) (Py.lower_char x)
      else Ascii.eqb a x
  | CAny => DOTALL fl || negb (Ascii.eqb x Py.LF)
  | CSpace => Py.isspace x
  | CNot cs => negb (existsb (Ascii.eqb x) cs)
  end.

Definition below (n : nat) (hi : option nat) : bool :=
  match hi with
  | None => true
  | Some h => (n <? h)%nat
  end.

Definition at_bol (fl : flags) (cu : cursor) : bool :=
  match before cu with
  | None => true
  | Some p => MULTILINE fl && Ascii.eqb p Py.LF
  end.

(** [$]: at the end, or before a final line feed; with [MULTILINE] before
    any line feed. *)
Definition at_eol (fl : flags) (cu : cursor) : bool :=
  match rest cu with
  | EmptyString => true
  | String x EmptyString => Ascii.eqb x Py.LF
  | String x _ => MULTILINE fl && Ascii.eqb x Py.LF
  end.

Section Matcher.
Variable fl : flags.

Definition K := cursor -> caps -> option (cursor * caps).

Fixpoint rep_greedy (c : cclass) (lo : nat) (hi : option nat) (n : nat)
    (prev : option ascii) (s : string) (g : caps) (k : K)
    : option (cursor * caps) :=
  let stop :=
    if (lo <=? n)%nat then k {| before := prev; rest := s |} g else None in
  match s with
  | String x s' =>
      if cmatch fl c x && below n hi then
        match rep_greedy c lo hi (S n) (Some x) s' g k with
        | Some r => Some r
        | None => stop
        end
      else stop
  | EmptyString => stop
  end.

Fixpoint rep_lazy (c : cclass) (lo : nat) (hi : option nat) (n : nat)
    (prev : option ascii) (s : string) (g : caps) (k : K)
    : option (cursor * caps) :=
  let more :=
    match s with
    | String x s' =>
        if cmatch fl c x && below n hi
        then rep_lazy c lo hi (S n) (Some x) s' g k
        else None
    | EmptyString => None
    end in
  if (lo <=? n)%nat then
    match k {| before := prev; rest := s |} g with
    | Some r => Some r
    | None => more
    end
  else more.

(** The text consumed between two cursors of one subject. *)
Definition between (a b : cursor) : string :=
  Py.take (String.length (rest a) - String.length (rest b)) (rest a).

Fixpoint run (r : regex) (cu : cursor) (g : caps) (k : K)
    : option (cursor * caps) :=
  match r with
  | Eps => k cu g
  | Cls c =>
      match rest cu with
      | String x s' =>
          if cmatch fl c x
          then k {| before := Some x; rest := s' |} g
          else None
      | EmptyString => None
      end
  | Rep c lo hi true => rep_greedy c lo hi 0 (before cu) (rest cu) g k
  | Rep c lo hi false => rep_lazy c lo hi 0 (before cu) (rest cu) g k
  | Cat r1 r2 => run r1 cu g (fun cu' g' => run r2 cu' g' k)
  | Alt r1 r2 =>
      match run r1 cu g k with
      | Some res => Some res
      | None => run r2 cu g k
      end
  | Group n r1 =>
      run r1 cu g (fun cu' g' => k cu' ((n, between cu cu') :: g'))
  | Bol => if at_bol fl cu then k cu g else None
  | Eol => if at_eol fl cu then k cu g else None
  | Look r1 =>
      match run r1 cu g (fun cu' g' => Some (cu', g')) with
      | Some (_, g') => k cu g'
      | None => None
      end
  end.

(** A match object: the text before the match, the matched text, the
    groups, and the cursor after the match. *)
Record rmatch := {
  m_prefix : string;
  m_text : string;
  m_groups : caps;
  m_end : cursor
}.

(** [m.group(n)]: the latest capture of group [n]. *)
Fixpoint group (n : nat) (g : caps) : option string :=
  match g with
  | [] => None
  | (i, s) :: g' => if (i =? n)%nat then Some s else group n g'
  end.

Definition match_at (r : regex) (cu : cursor) : option (cursor * caps) :=
  run r cu [] (fun cu' g' => Some (cu', g')).

(** The leftmost match at or after [cu]; [skipped] is the text passed
    over so far, reversed. *)
Fixpoint search_from (r : regex) (skipped : string)
    (prev : option ascii) (s : string) : option rmatch :=
  let cu := {| before := prev; rest := s |} in
  match match_at r cu with
  | Some (cu', g) =>
      Some {| m_prefix := Py.rev_string EmptyString skipped;
              m_text := between cu cu';
              m_groups := g;
              m_end := cu' |}
  | None =>
      match s with
      | String x s' => search_from r (String x skipped) (Some x) s'
      | EmptyString => None
      end
  end.

(** [re.search(r, s)] *)
Definition search (r : regex) (s : string) : option rmatch :=
  search_from r EmptyString None s.

(** The successive non-overlapping matches from [cu] on, each with the
    text skipped before it, and the text left after the last one.  After
    an empty match the scan moves one character on.  The fuel is the
    length of the subject plus one. *)
Fixpoint scan (fuel : nat) (r : regex) (cu : cursor)
    : list rmatch * string :=
  match fuel with
  | O => ([], rest cu)
  | S fuel' =>
      match search_from r EmptyString (before cu) (rest cu) with
      | None => ([], rest cu)
      | Some m =>
          match m_text m, rest (m_end m) with
          | EmptyString, EmptyString => ([m], EmptyString)
          | EmptyString, String x s' =>
              let '(ms, tail) :=
                scan fuel' r {| before := Some x; rest := s' |} in
              match ms with
              | [] => ([m], String x tail)
              | m' :: ms' =>
                  (m :: {| m_prefix := String x (m_prefix m');
                           m_text := m_text m';
                           m_groups := m_groups m';
                           m_end := m_end m' |} :: ms', tail)
              end
          | _, _ =>
              let '(ms, tail) := scan fuel' r (m_end m) in
              (m :: ms, tail)
          end
      end
  end.

Definition matches (r : regex) (s : string) : list rmatch * string :=
  scan (S (String.length s)) r {| before := None; rest := s |}.

(** [re.findall(r, s)] for a pattern with two groups: the pairs of
    group texts (an unset group reads as the empty string). *)
Definition group_or_empty (n : nat) (g : caps) : string :=
  match group n g with Some s => s | None => EmptyString end.

Definition findall2 (r : regex) (s : string) : list (string * string) :=
  map (fun m => (group_or_empty 1 (m_groups m),
                 group_or_empty 2 (m_groups m)))
      (fst (matches r s)).

(** [re.sub(r, repl, s)] for a replacement text without group
    references. *)
Definition sub (r : regex) (repl : string) (s : string) : string :=
  let '(ms, tail) := matches r s in
  fold_right (fun m acc => m_prefix m ++ repl ++ acc) tail ms.

End Matcher.

End Re.

(* ===================================================================== *)
(** * Values, dictionaries and exceptions                                 *)
(* ===================================================================== *)

(** The JSON-like values the services keep in dictionaries ([metadata],
    [content_structure], [sources], error [details]).  A dictionary is an
    association list in insertion order with one entry per key. *)
#[warnings="-register-all"] Inductive value :=
| VNone
| VBool (b : bool)
| VInt (z : Z)
| VNum (q : Q)
| VStr (s : string)
| VList (l : list value)
| VDict (d : list (string * value)).

Abbreviation dict := (list (string * value)).

(** [d.get(k)] *)
Fixpoint dict_get (k : string) (d : dict) : option value :=
  match d with
  | [] => None
  | (k', v) :: d' => if String.eqb k k' then Some v else dict_get k d'
  end.

(** [d[k] = v] *)
Fixpoint dict_set (k : string) (v : value) (d : dict) : dict :=
  match d with
  | [] => [(k, v)]
  | (k', v') :: d' =>
      if String.eqb k k' then (k, v) :: d' else (k', v') :: dict_set k v d'
  end.

(** [{**a, **b}] *)
Definition dict_merge (a b : dict) : dict :=
  fold_left (fun acc kv => dict_set (fst kv) (snd kv) acc) b a.

(** [bool(v)] *)
Definition value_truthy (v : value) : bool :=
  match v with
  | VNone => false
  | VBool b => b
  | VInt z => negb (z =? 0)
  | VNum q => negb (Qeq_bool q 0)
  | VStr s => Py.truthy s
  | VList l => match l with [] => false | _ => true end
  | VDict d => match d with [] => false | _ => true end
  end.

(** [ServiceError] of [core/services/base.py], and the other exceptions by
    class name and text. *)
Record ServiceError := {
  message : string;
  code : string;
  details : dict
}.

Inductive exn :=
| EService (e : ServiceError)
| EOther (cls : string) (msg : string).

(** [str(e)] *)
Definition str_exn (e : exn) : string :=
  match e with
  | EService s => message s
  | EOther _ msg => msg
  end.

Inductive result (A : Type) :=
| Ok (a : A)
| Raise (e : exn).
Arguments Ok {A} a.
Arguments Raise {A} e.

(* ===================================================================== *)
(** * [urllib.parse.urlparse(url).netloc]                                 *)
(* ===================================================================== *)

Module Url.

(** Leading C0 control characters and spaces are dropped, then tabs,
    carriage returns and line feeds anywhere. *)
Fixpoint lstrip_c0 (s : string) : string :=
  match s with
  | String c s' => if (nat_of_ascii c <=? 32)%nat then lstrip_c0 s' else s
  | EmptyString => EmptyString
  end.

Fixpoint remove_unsafe (s : string) : string :=
  match s with
  | EmptyString => EmptyString
  | String c s' =>
      let n := nat_of_ascii c in
      if ((n =? 9) || (n =? 10) || (n =? 13))%nat
      then remove_unsafe s'
      else String c (remove_unsafe s')
  end.

Definition is_alpha (c : ascii) : bool :=
  let n := nat_of_ascii c in
  ((65 <=? n) && (n <=? 90) || (97 <=? n) && (n <=? 122))%nat.

Definition is_digit (c : ascii) : bool :=
  let n := nat_of_ascii c in ((48 <=? n) && (n <=? 57))%nat.

(** [scheme_chars]: letters, digits and [+-.] *)
Definition scheme_char (c : ascii) : bool :=
  is_alpha c || is_digit c
  || Ascii.eqb c "+" || Ascii.eqb c "-" || Ascii.eqb c ".".

Fixpoint all_chars (p : ascii -> bool) (s : string) : bool :=
  match s with
  | EmptyString => true
  | String c s' => p c && all_chars p s'
  end.

(** [url.find(c)] *)
Fixpoint find (c : ascii) (s : string) : option nat :=
  match s with
  | EmptyString => None
  | String x s' =>
      if Ascii.eqb x c then Some O
      else match find c s' with Some i => Some (S i) | None => None end
  end.

(** [url[:i].lower(), url[i+1:]] when a scheme is present: the text after
    the scheme's colon. *)
Definition drop_scheme (url : string) : string :=
  match find ":" url, url with
  | Some (S i), String c0 _ =>
      if is_alpha c0 && all_chars scheme_char (Py.take (S i) url)
      then Py.drop (S (S i)) url
      else url
  | _, _ => url
  end.

(** [_splitnetloc(url, 2)]: up to the first of [/?#]. *)
Fixpoint until_delim (s : string) : string :=
  match s with
  | EmptyString => EmptyString
  | String c s' =>
      if Ascii.eqb c "/" || Ascii.eqb c "?" || Ascii.eqb c "#"
      then EmptyString
      else String c (until_delim s')
  end.

(** [s.partition(c)]: the text before the first [c], whether there is
    one, and the text after it. *)
Fixpoint partition (c : ascii) (s : string) : string * bool * string :=
  match s with
  | EmptyString => (EmptyString, false, EmptyString)
  | String x s' =>
      if Ascii.eqb x c then (EmptyString, true, s')
      else let '(a, found, b) := partition c s' in (String x a, found, b)
  end.

(** [s.rpartition(c)[2]]: the text after the last [c], or all of [s]. *)
Fixpoint after_last (c : ascii) (s : string) : string :=
  match s with
  | EmptyString => EmptyString
  | String x s' =>
      if Py.has_char c s' then after_last c s'
      else if Ascii.eqb x c then s' else s
  end.

(** [s.split(c)] *)
Fixpoint split_on (c : ascii) (s : string) : list string :=
  match s with
  | EmptyString => [EmptyString]
  | String x s' =>
      if Ascii.eqb x c then EmptyString :: split_on c s'
      else match split_on c s' with
           | h :: t => String x h :: t
           | [] => [String x EmptyString]
           end
  end.

(** [int(s, 10)] for a text of decimal digits. *)
Fixpoint decimal (acc : nat) (s : string) : nat :=
  match s with
  | EmptyString => acc
  | String c s' => decimal (10 * acc + (nat_of_ascii c - 48)) s'
  end.

(** [ipaddress.IPv4Address._parse_octet]: the octet, or [None] where it
    raises. *)
Definition _parse_octet (octet_str : string) : option nat :=
  if negb (Py.truthy octet_str) then None
  else if negb (all_chars is_digit octet_str) then None
  else if (3 <? String.length octet_str)%nat then None
  else if negb (String.eqb octet_str "0") && Py.startswith "0" octet_str
  then None
  else
    let octet_int := decimal 0 octet_str in
    if (255 <? octet_int)%nat then None else Some octet_int.

Fixpoint parse_octets (octets : list string) : option (list nat) :=
  match octets with
  | [] => Some []
  | o :: os =>
      match _parse_octet o, parse_octets os with
      | Some n, Some ns => Some (n :: ns)
      | _, _ => None
      end
  end.

(** [ipaddress.IPv4Address(address)]: the four octets, or [None] where it
    raises [AddressValueError]. *)
Definition IPv4Address (address : string) : option (list nat) :=
  if Py.has_char "/" address then None
  else if negb (Py.truthy address) then None
  else
    let octets := split_on "." address in
    if negb (length octets =? 4)%nat then None else parse_octets octets.

Definition is_hex (c : ascii) : bool :=
  let n := nat_of_ascii c in
  is_digit c || (97 <=? n)%nat && (n <=? 102)%nat
  || (65 <=? n)%nat && (n <=? 70)%nat.

(** Whether [IPv6Address._parse_hextet] returns: hexadecimal digits, at
    most four, and at least one for [int(s, 16)]. *)
Definition hextet_ok (hextet_str : string) : bool :=
  all_chars is_hex hextet_str
  && (String.length hextet_str <=? 4)%nat
  && Py.truthy hextet_str.

(** ['%x' % n] *)
Fixpoint hex_fuel (fuel n : nat) (acc : string) : string :=
  match fuel with
  | O => acc
  | S fuel' =>
      let acc' := String (Py.hex_digit (n mod 16)) acc in
      if (n / 16 =? 0)%nat then acc' else hex_fuel fuel' (n / 16) acc'
  end.

Definition hex (n : nat) : string := hex_fuel (S n) n EmptyString.

(** Whether [IPv6Address._ip_int_from_string] returns. *)
Definition _ip_int_from_string (ip_str : string) : bool :=
  if negb (Py.truthy ip_str) then false else
  let parts := split_on ":" ip_str in
  if (length parts <? 3)%nat then false else
  let last_part := List.last parts EmptyString in
  let with_suffix : option (list string) :=
    if Py.has_char "." last_part then
      match IPv4Address last_part with
      | Some [a; b; c; d] =>
          Some (removelast parts ++ [hex (a * 256 + b); hex (c * 256 + d)])%list
      | _ => None
      end
    else Some parts in
  match with_suffix with
  | None => false
  | Some parts =>
      let n := length parts in
      if (9 <? n)%nat then false else
      let empty i := negb (Py.truthy (nth i parts EmptyString)) in
      match List.filter empty (seq 1 (n - 2)) with
      | _ :: _ :: _ => false
      | [skip_index] =>
          let parts_hi := skip_index in
          let parts_lo := (n - skip_index - 1)%nat in
          if empty 0%nat && negb (parts_hi - 1 =? 0)%nat then false else
          if empty (n - 1)%nat && negb (parts_lo - 1 =? 0)%nat then false else
          let parts_hi := if empty 0%nat then (parts_hi - 1)%nat else parts_hi in
          let parts_lo :=
            if empty (n - 1)%nat then (parts_lo - 1)%nat else parts_lo in
          if (8 <=? parts_hi + parts_lo)%nat then false else
          forallb hextet_ok (firstn parts_hi parts)
          && forallb hextet_ok (skipn (n - parts_lo) parts)
      | [] =>
          (n =? 8)%nat && negb (empty 0%nat) && negb (empty (n - 1)%nat)
          && forallb hextet_ok parts
      end
  end.

(** Whether [ipaddress.IPv6Address(address)] returns. *)
Definition IPv6Address (address : string) : bool :=
  if Py.has_char "/" address then false else
  let '(addr, sep, scope_id) := partition "%" address in
  if sep && (negb (Py.truthy scope_id) || Py.has_char "%" scope_id)
  then false
  else _ip_int_from_string addr.

(** [re.match(r"\Av[a-fA-F0-9]+\..+\Z", hostname)] *)
Fixpoint after_hex (s : string) : string :=
  match s with
  | String c s' => if is_hex c then after_hex s' else s
  | EmptyString => EmptyString
  end.

Definition ipvfuture (hostname : string) : bool :=
  match hostname with
  | String "v" (String c r) =>
      is_hex c &&
      match after_hex r with
      | String "." t => Py.truthy t && negb (Py.has_char Py.LF t)
      | _ => false
      end
  | _ => false
  end.

Definition ValueError (msg : string) : exn := EOther "ValueError" msg.

(** [_check_bracketed_host] *)
Definition _check_bracketed_host (hostname : string) : result unit :=
  if Py.startswith "v" hostname then
    if ipvfuture hostname then Ok tt
    else Raise (ValueError "IPvFuture address is invalid")
  else
    match IPv4Address hostname with
    | Some _ => Raise (ValueError "An IPv4 address cannot be in brackets")
    | None =>
        if IPv6Address hostname then Ok tt
        else Raise (ValueError (Py.repr hostname ++
                      " does not appear to be an IPv4 or IPv6 address"))
    end.

(** [_check_bracketed_netloc] *)
Definition _check_bracketed_netloc (netloc : string) : result unit :=
  let hostname_and_port := after_last "@" netloc in
  let '(before_bracket, have_open_br, bracketed) :=
    partition "[" hostname_and_port in
  if have_open_br then
    if Py.truthy before_bracket then Raise (ValueError "Invalid IPv6 URL")
    else
      let '(hostname, _, port) := partition "]" bracketed in
      if Py.truthy port && negb (Py.startswith ":" port)
      then Raise (ValueError "Invalid IPv6 URL")
      else _check_bracketed_host hostname
  else
    let '(hostname, _, _) := partition ":" hostname_and_port in
    _check_bracketed_host hostname.

(** The text [urlsplit] takes for the network location: what follows the
    scheme and [//], up to the first of [/?#]; empty without [//]. *)
Definition location (url : string) : string :=
  let url := remove_unsafe (lstrip_c0 url) in
  let url := drop_scheme url in
  if Py.startswith "//" url then until_delim (Py.drop 2 url)
  else EmptyString.

(** [urlsplit(url).netloc].  A square bracket without its partner raises
    [ValueError], and so does a bracketed host that is not an IPv6 or
    IPvFuture literal.  The last check of [urlsplit], [_checknetloc],
    rejects a network location whose NFKC form has one of [/?#@:] that the
    location itself has not; no character with a code point below 256 has
    such a form, so it never raises on the text of this development. *)
Definition netloc (url : string) : result string :=
  let loc := location url in
  if Py.has_char "[" loc && negb (Py.has_char "]" loc)
     || Py.has_char "]" loc && negb (Py.has_char "[" loc)
  then Raise (ValueError "Invalid IPv6 URL")
  else if Py.has_char "[" loc && Py.has_char "]" loc then
    match _check_bracketed_netloc loc with
    | Raise e => Raise e
    | Ok _ => Ok loc
    end
  else Ok loc.

End Url.

(* ===================================================================== *)
(** * The response parser  ([BlogGenerationService._parse_response])      *)
(* ===================================================================== *)

Import Re.

Definition fl_multiline : flags :=
  {| MULTILINE := true; DOTALL := false; IGNORECASE := false |}.
Definition fl_dotall_ignorecase : flags :=
  {| MULTILINE := false; DOTALL := true; IGNORECASE := true |}.

(** [r'^#\s+(.+)$'] *)
Definition title_pattern : regex :=
  seq [Bol; chr "#"; plus CSpace; Group 1 (plus CAny); Eol].

(** [(?:Sources|References|Citations)] *)
Definition sources_words : regex :=
  Alt (lit "Sources") (Alt (lit "References") (lit "Citations")).

(** [(?=\n##|\n\n*$)] *)
Definition section_end : regex :=
  Look (Alt (seq [chr Py.LF; lit "##"])
            (seq [chr Py.LF; star (CChar Py.LF); Eol])).

(** [r'##\s*(?:Sources|References|Citations)\s*\n+(.*?)(?=\n##|\n\n*$)'] *)
Definition sources_section_pattern : regex :=
  seq [lit "##"; star CSpace; sources_words; star CSpace;
       plus (CChar Py.LF); Group 1 (star_lazy CAny); section_end].

(** [r'##\s*(?:Sources|References|Citations).*?(?=\n##|\n\n*$)'] *)
Definition sources_removal_pattern : regex :=
  seq [lit "##"; star CSpace; sources_words; star_lazy CAny; section_end].

(** [r'\[([^\]]+)\]\(([^\)]+)\)'] *)
Definition citation_pattern : regex :=
  seq [chr "["; Group 1 (plus (CNot ["]"%char])); chr "]"; chr "(";
       Group 2 (plus (CNot [")"%char])); chr ")"].

(** [r'^(#{1,3})\s+(.+)$'] *)
Definition heading_pattern : regex :=
  seq [Bol; Group 1 (Rep (CChar "#") 1 (Some 3%nat) true); plus CSpace;
       Group 2 (plus CAny); Eol].

(** One entry of the [sources] list. *)
Definition source_dict (title url domain : string) : value :=
  VDict [("title", VStr title); ("url", VStr url); ("domain", VStr domain);
         ("is_verified", VBool false); ("relevance_score", VNone)].

(** The loop of [_parse_sources] over the [(title, url)] pairs. *)
Fixpoint sources_of_matches (ms : list (string * string))
    : result (list value) :=
  match ms with
  | [] => Ok []
  | (title, url) :: ms' =>
      match Url.netloc url with
      | Raise e => Raise e
      | Ok loc =>
          let domain := Py.replace "www." EmptyString loc in
          match sources_of_matches ms' with
          | Raise e => Raise e
          | Ok rest =>
              Ok (source_dict (Py.strip title) (Py.strip url) domain :: rest)
          end
      end
  end.

Definition _parse_sources (sources_text : string) : result (list value) :=
  sources_of_matches (findall2 no_flags citation_pattern sources_text).

Definition heading_dict (h : string * string) : value :=
  VDict [("level", VStr (fst h)); ("text", VStr (snd h))].

Definition _analyze_structure (markdown : string) : dict :=
  let headings := findall2 fl_multiline heading_pattern markdown in
  let word_count := Z.of_nat (length (Py.split markdown)) in
  [("word_count", VInt word_count);
   ("heading_count", VInt (Z.of_nat (length headings)));
   ("reading_time_minutes", VInt (Z.max 1 (word_count / 200)));
   ("headings", VList (map heading_dict headings))].

(** The dictionary [_parse_response] returns, by its four keys. *)
Record ParsedContent := {
  markdown : string;
  sources : list value;
  title : option string;
  structure : dict
}.

Definition _parse_response (raw_content : string) : result ParsedContent :=
  let title_match := search fl_multiline title_pattern raw_content in
  let title :=
    match title_match with
    | Some m => Some (Py.strip (group_or_empty 1 (m_groups m)))
    | None => None
    end in
  let sources_section :=
    search fl_dotall_ignorecase sources_section_pattern raw_content in
  match sources_section with
  | Some m =>
      match _parse_sources (group_or_empty 1 (m_groups m)) with
      | Raise e => Raise e
      | Ok srcs =>
          let md :=
            Py.strip (sub fl_dotall_ignorecase sources_removal_pattern
                          EmptyString raw_content) in
          Ok {| markdown := md; sources := srcs; title := title;
                structure := _analyze_structure md |}
      end
  | None =>
      Ok {| markdown := raw_content; sources := []; title := title;
            structure := _analyze_structure raw_content |}
  end.

(* ===================================================================== *)
(** * Template rendering  ([jinja2.Template(...).render(...)])            *)
(* ===================================================================== *)

Module Jinja.

(** A parsed template: text, [{{ name }}], [{% if name %}] and
    [{% for key, value in name.items() %}]. *)
#[warnings="-register-all"] Inductive node :=
| Data (s : string)
| Var (name : string)
| If (name : string) (body : list node)
| ForItems (key val name : string) (body : list node).

(** The variables a template is rendered with. *)
Inductive jvalue :=
| JStr (s : string)
| JInt (z : Z)
| JBool (b : bool)
| JItems (items : list (string * string)).   (* a dictionary *)

Definition env := list (string * jvalue).

Fixpoint lookup (x : string) (e : env) : option jvalue :=
  match e with
  | [] => None
  | (y, v) :: e' => if String.eqb x y then Some v else lookup x e'
  end.

Definition truthy (v : jvalue) : bool :=
  match v with
  | JStr s => Py.truthy s
  | JInt z => negb (z =? 0)
  | JBool b => b
  | JItems items => match items with [] => false | _ => true end
  end.

Definition undefined (x : string) : exn :=
  EOther "UndefinedError" ("'" ++ x ++ "' is undefined").

(** [str(v)] of a printed variable; printing a dictionary is not needed
    by the templates here and is reported as an error. *)
Definition show (x : string) (v : jvalue) : result string :=
  match v with
  | JStr s => Ok s
  | JInt z => Ok (Py.str_of_Z z)
  | JBool true => Ok "True"
  | JBool false => Ok "False"
  | JItems _ => Raise (EOther "TypeError" x)
  end.

Definition cat (a b : result string) : result string :=
  match a with
  | Raise e => Raise e
  | Ok x => match b with Raise e => Raise e | Ok y => Ok (x ++ y) end
  end.

Fixpoint for_items (f : string -> string -> result string)
    (items : list (string * string)) : result string :=
  match items with
  | [] => Ok EmptyString
  | (k, v) :: items' => cat (f k v) (for_items f items')
  end.

(** With [StrictUndefined] a missing variable raises. *)
Fixpoint render_node (e : env) (n : node) {struct n} : result string :=
  let render_nodes :=
    fix go (e : env) (ns : list node) {struct ns} : result string :=
      match ns with
      | [] => Ok EmptyString
      | n' :: ns' => cat (render_node e n') (go e ns')
      end in
  match n with
  | Data s => Ok s
  | Var x =>
      match lookup x e with
      | Some v => show x v
      | None => Raise (undefined x)
      end
  | If x body =>
      match lookup x e with
      | Some v => if truthy v then render_nodes e body else Ok EmptyString
      | None => Raise (undefined x)
      end
  | ForItems key val x body =>
      match lookup x e with
      | Some (JItems items) =>
          for_items
            (fun k v => render_nodes ((key, JStr k) :: (val, JStr v) :: e) body)
            items
      | Some _ => Raise (EOther "TypeError" x)
      | None => Raise (undefined x)
      end
  end.

Fixpoint render (e : env) (ns : list node) : result string :=
  match ns with
  | [] => Ok EmptyString
  | n :: ns' => cat (render_node e n) (render e ns')
  end.

End Jinja.

(* ===================================================================== *)
(** * Rows of [models.py]                                                 *)
(* ===================================================================== *)

Record Persona := {
  persona_name : string;
  persona_slug : string;
  persona_type : string;
  system_prompt : string;
  temperature : Q;
  max_tokens : Z;
  is_active : bool
}.

(* ===================================================================== *)
(** * [PromptService]  (services/prompts.py)                              *)
(* ===================================================================== *)

(** The word ranges read from [settings], with the defaults of
    [_render_user_prompt]. *)
Record PromptSettings := {
  FAST_MIN_WORDS : Z;
  FAST_MAX_WORDS : Z;
  NORMAL_MIN_WORDS : Z;
  NORMAL_MAX_WORDS : Z
}.

Definition default_prompt_settings : PromptSettings :=
  {| FAST_MIN_WORDS := 180; FAST_MAX_WORDS := 260;
     NORMAL_MIN_WORDS := 800; NORMAL_MAX_WORDS := 1200 |}.

(** The sentence of the last block of the template. *)
Definition sources_directive : string :=
  "After the main content, include a " ++ Py.dq ++ "## Sources" ++ Py.dq ++
  " section listing all references.".

(** [USER_PROMPT_TEMPLATE], as Jinja reads it: the text between the tags is
    kept as it is, and the single line feed that ends the source is
    dropped. *)
Definition USER_PROMPT_TEMPLATE : list Jinja.node :=
  let nl := Py.nl in
  [ Jinja.Data (nl ++ "Write a comprehensive blog post about: ");
    Jinja.Var "topic";
    Jinja.Data (nl ++ nl);
    Jinja.If "context"
      [ Jinja.Data (nl ++ "Additional context to consider:" ++ nl);
        Jinja.ForItems "key" "value" "context"
          [ Jinja.Data (nl ++ "- "); Jinja.Var "key"; Jinja.Data ": ";
            Jinja.Var "value"; Jinja.Data nl ];
        Jinja.Data nl ];
    Jinja.Data (nl ++ nl ++ "Requirements:" ++ nl ++ "- Length: ");
    Jinja.Var "min_words";
    Jinja.Data "-";
    Jinja.Var "max_words";
    Jinja.Data (" words" ++ nl ++
      "- Include a compelling, descriptive headline" ++ nl ++
      "- Use markdown formatting (## for subheadings, ** for emphasis)" ++ nl ++
      "- End with a summary paragraph of key takeaways" ++ nl ++
      "- If specific sources are referenced, format as [Source Name](url)" ++ nl ++
      "- ");
    Jinja.Var "style_guidance";
    Jinja.Data nl;
    Jinja.If "is_fast"
      [ Jinja.Data (nl ++
          "- Optimize for speed: keep the response concise and focused." ++ nl) ];
    Jinja.Data (nl ++ nl);
    Jinja.If "include_sources"
      [ Jinja.Data (nl ++ sources_directive ++ nl) ] ].

(** [_get_persona_custom_variables(persona)['style_guidance']] *)
Definition style_guidance (p : Persona) : string :=
  let t := persona_type p in
  if String.eqb t "technical" then
    "Use code blocks for technical examples. " ++
    "Define technical terms on first use."
  else if String.eqb t "narrative" then
    "Use storytelling elements. Include personal anecdotes or hypothetical scenarios."
  else if String.eqb t "analyst" then
    "Include data points. Reference industry reports. " ++
    "Provide numerical comparisons."
  else if String.eqb t "educator" then
    "Explain terms simply. Use 'imagine' scenarios. " ++
    "Include learning checks."
  else "Write in a clear, engaging style.".

Definition _render_user_prompt (st : PromptSettings) (topic : string)
    (persona : Persona) (additional_context : list (string * string))
    (speed : string) : result string :=
  let is_fast := String.eqb speed "fast" in
  let min_words := if is_fast then FAST_MIN_WORDS st else NORMAL_MIN_WORDS st in
  let max_words := if is_fast then FAST_MAX_WORDS st else NORMAL_MAX_WORDS st in
  Jinja.render
    [ ("topic", Jinja.JStr topic);
      ("context", Jinja.JItems additional_context);
      ("min_words", Jinja.JInt min_words);
      ("max_words", Jinja.JInt max_words);
      ("style_guidance", Jinja.JStr (style_guidance persona));
      ("include_sources", Jinja.JBool (negb is_fast));
      ("is_fast", Jinja.JBool is_fast) ]
    USER_PROMPT_TEMPLATE.

(** [build_generation_prompt]: the user prompt.  The system prompt (the
    persona's base text with its custom instructions appended) is a string
    computation that cannot fail and is only handed to the provider. *)
Definition build_generation_prompt (st : PromptSettings) (topic : string)
    (persona : Persona) (additional_context : list (string * string))
    (speed : string) : result string :=
  _render_user_prompt st topic persona additional_context speed.

(* ===================================================================== *)
(** * The store: rows of [models.py] and the process-wide breaker state   *)
(* ===================================================================== *)

Inductive PostStatus := DRAFT | GENERATING | COMPLETED | FAILED.

(** [BlogPost].  The slug, SEO fields and row timestamps are not read by
    the functions embedded here and are left out. *)
Record BlogPost := {
  post_id : nat;
  post_title : string;
  topic_input : string;
  raw_prompt : string;
  generated_content : string;
  content_structure : dict;
  post_persona : option string;      (* the persona, by slug *)
  post_sources : list value;
  status : PostStatus;
  sentiment_score : Z;
  metadata : dict;
  published_at : option Q
}.

(** [Engagement]: one reaction of a session to a post. *)
Record Engagement := {
  engagement_id : nat;
  blog_post_id : nat;
  session_id : string;
  action : string;
  action_value : Z;
  engagement_metadata : dict
}.

(** [PostMetric]: the denormalised counters of a post. *)
Record PostMetric := {
  views_count : Z;
  likes_count : Z;
  dislikes_count : Z
}.

(** The tables.  [engagements] is kept newest first, the default ordering
    of the model ([-created_at]). *)
Record Database := {
  personas : list Persona;
  posts : gmap nat BlogPost;
  next_post_id : nat;
  engagements : list Engagement;
  next_engagement_id : nat;
  metrics : gmap nat PostMetric
}.

(** [_provider_state[provider]] *)
Record CircuitState := {
  failures : Z;
  open_until : Q
}.

Definition closed_state : CircuitState := {| failures := 0; open_until := 0 |}.

(** What a generation call does to the outside: provider requests and
    sleeps, in order. *)
Inductive Event :=
| EvCall (provider : string) (attempt : nat)
| EvSleep (seconds : Q).

Record World := {
  db : Database;
  provider_state : gmap string CircuitState;
  clock : Q;                          (* time.time() *)
  trace : list Event                  (* latest first *)
}.

Definition set_db (d : Database) (w : World) : World :=
  {| db := d; provider_state := provider_state w;
     clock := clock w; trace := trace w |}.

Definition set_provider_state (ps : gmap string CircuitState) (w : World)
    : World :=
  {| db := db w; provider_state := ps; clock := clock w; trace := trace w |}.

Definition emit (ev : Event) (w : World) : World :=
  {| db := db w; provider_state := provider_state w;
     clock := clock w; trace := ev :: trace w |}.

Definition advance (dt : Q) (w : World) : World :=
  {| db := db w; provider_state := provider_state w;
     clock := (clock w + dt)%Q; trace := trace w |}.

(** [time.sleep(d)] *)
Definition sleep (d : Q) (w : World) : World := advance d (emit (EvSleep d) w).

(* ===================================================================== *)
(** * [BlogGenerationService]: settings and the circuit breaker           *)
(* ===================================================================== *)

Record GenerationSettings := {
  MAX_RETRIES : Z;
  RETRY_DELAY : Q;
  GENERATION_TIMEOUT : Z;
  FAST_TIMEOUT : Z;
  FAST_MAX_TOKENS : Z;
  DEFAULT_MODEL : string;
  FAST_MODEL : string;
  GEMINI_MODEL : string;
  GEMINI_FAST_MODEL : string;
  CIRCUIT_FAILURE_THRESHOLD : Z;
  CIRCUIT_COOL_OFF_SECONDS : Z
}.

(** The class attributes under [ai_blog/settings.py] with an empty
    environment.  [CLAUDE_MAX_RETRIES] is 1 there; the fallback 2 of the
    [getattr] call applies only to a settings module without it. *)
Definition default_settings : GenerationSettings :=
  {| MAX_RETRIES := 1;
     RETRY_DELAY := 1;
     GENERATION_TIMEOUT := 60;
     FAST_TIMEOUT := 30;
     FAST_MAX_TOKENS := 650;
     DEFAULT_MODEL := "claude-3-5-sonnet-20241022";
     FAST_MODEL := "claude-3-5-sonnet-20241022";
     GEMINI_MODEL := "gemini-2.0-flash";
     GEMINI_FAST_MODEL := "gemini-2.0-flash";
     CIRCUIT_FAILURE_THRESHOLD := 3;
     CIRCUIT_COOL_OFF_SECONDS := 30 |}.

Definition Qlt_bool (x y : Q) : bool := negb (Qle_bool y x).

(** [int(x)] of a number: truncation towards zero. *)
Definition int_of_Q (q : Q) : Z :=
  if Qle_bool 0 q then Qfloor q else Qceiling q.

Definition service_error (msg code : string) (details : dict) : exn :=
  EService {| message := msg; code := code; details := details |}.

(** [_provider_state.get(provider, {'failures': 0, 'open_until': 0.0})] *)
Definition state_of (provider : string) (ps : gmap string CircuitState)
    : CircuitState :=
  default closed_state (ps !! provider).

(** [_check_circuit_state], at clock reading [now]. *)
Definition _check_circuit_state (provider : string) (now : Q)
    (ps : gmap string CircuitState) : result unit :=
  let state := state_of provider ps in
  if Qlt_bool now (open_until state) then
    let retry_after := int_of_Q (open_until state - now)%Q in
    Raise (service_error
      (provider ++ " provider temporarily unavailable. Retry in ~" ++
       Py.str_of_Z retry_after ++ "s.")
      "PROVIDER_UNAVAILABLE"
      [("provider", VStr provider);
       ("retry_after_seconds", VInt (Z.max retry_after 1))])
  else Ok tt.

(** [_record_success] *)
Definition _record_success (provider : string)
    (ps : gmap string CircuitState) : gmap string CircuitState :=
  match ps !! provider with
  | Some _ => <[provider := closed_state]> ps
  | None => ps
  end.

(** [_record_failure], at clock reading [now]. *)
Definition _record_failure (cfg : GenerationSettings) (provider : string)
    (now : Q) (ps : gmap string CircuitState) : gmap string CircuitState :=
  let state := state_of provider ps in
  let failures' := failures state + 1 in
  let open_until' :=
    if CIRCUIT_FAILURE_THRESHOLD cfg <=? failures'
    then (now + inject_Z (CIRCUIT_COOL_OFF_SECONDS cfg))%Q
    else open_until state in
  <[provider := {| failures := failures'; open_until := open_until' |}]> ps.

(** [_resolve_max_tokens], [_resolve_retry_count],
    [_resolve_timeout_seconds], [_resolve_model] *)
Definition _resolve_max_tokens (cfg : GenerationSettings)
    (persona_max_tokens : Z) (speed : string) : Z :=
  if String.eqb speed "fast"
  then Z.min persona_max_tokens (FAST_MAX_TOKENS cfg)
  else persona_max_tokens.

Definition _resolve_retry_count (cfg : GenerationSettings) (speed : string)
    : Z :=
  if String.eqb speed "fast" then 0 else MAX_RETRIES cfg.

Definition _resolve_timeout_seconds (cfg : GenerationSettings)
    (speed : string) : Z :=
  if String.eqb speed "fast"
  then Z.min (GENERATION_TIMEOUT cfg) (FAST_TIMEOUT cfg)
  else GENERATION_TIMEOUT cfg.

Definition _resolve_model (cfg : GenerationSettings) (provider speed : string)
    : string :=
  if String.eqb provider "anthropic" then
    if String.eqb speed "fast" then FAST_MODEL cfg else DEFAULT_MODEL cfg
  else if String.eqb provider "gemini" then
    if String.eqb speed "fast" then GEMINI_FAST_MODEL cfg else GEMINI_MODEL cfg
  else DEFAULT_MODEL cfg.

(* ===================================================================== *)
(** * The provider calls with retry                                       *)
(* ===================================================================== *)

(** What one request to the Anthropic client can do: answer with content
    blocks and token counts, raise an [AnthropicError] (with the
    [status_code] attribute when it has one), or raise anything else. *)
Inductive ClaudeOutcome :=
| ClaudeResponse (blocks : list string) (input_tokens output_tokens : Z)
| AnthropicError (status_code : option Z) (msg : string)
| ClaudeException (msg : string).

(** What one request to the Gemini endpoint can do.  A response is read as
    the parts of each candidate (a part may lack its text) and the
    [usageMetadata] object.  An [HTTPError] carries its status code and
    body, and what decoding the body as JSON yields: the error message and
    the [reason] entries of its details, or nothing when the body does not
    decode. *)
Inductive GeminiOutcome :=
| GeminiResponse (candidates : list (list (option string))) (usage : dict)
| HTTPError (http_code : Z) (body : string)
            (decoded : option (string * list string))
| GeminiException (msg : string).

(** A provider stub answers the [attempt]-th request of a call with the
    time the request took and its outcome. *)
Definition ClaudeApi := nat -> Q * ClaudeOutcome.
Definition GeminiApi := nat -> Q * GeminiOutcome.

(** The dictionary a provider call returns. *)
Record ModelResponse := {
  content : string;
  usage : dict
}.

(** [round(x, 2)], half to even. *)
Definition round2 (q : Q) : Q :=
  let x := (q * 100)%Q in
  let n := Qfloor x in
  let frac := (x - inject_Z n)%Q in
  let up :=
    if Qlt_bool (1 # 2) frac then true
    else if Qlt_bool frac (1 # 2) then false
    else Z.odd n in
  (inject_Z (if up then n + 1 else n) / 100)%Q.

(** How the retry loop of a provider call ends: with a response, with an
    error raised from inside the loop, or by leaving the loop. *)
Inductive LoopExit :=
| Returned (r : ModelResponse)
| Raised (e : exn)
| Exhausted.

(** [str(last_error)] *)
Definition str_last_error (last_error : option string) : string :=
  match last_error with
  | Some s => s
  | None => "None"
  end.

(** [time.sleep(RETRY_DELAY * (2 ** attempt))] when [attempt < max_retries] *)
Definition backoff (cfg : GenerationSettings) (attempt : nat)
    (max_retries : Z) (w : World) : World :=
  if Z.of_nat attempt <? max_retries
  then sleep (RETRY_DELAY cfg * inject_Z (2 ^ Z.of_nat attempt))%Q w
  else w.

(** The test of [_call_claude_with_retry] for an error that is not retried:
    [status_code and status_code < 500 and status_code != 429]. *)
Definition claude_fatal (status_code : option Z) : bool :=
  match status_code with
  | Some c => negb (c =? 0) && (c <? 500) && negb (c =? 429)
  | None => false
  end.

Definition claude_fatal_error (c : Z) (msg : string) : exn :=
  if Py.contains "credit balance is too low" (Py.lower msg) then
    service_error
      ("Anthropic billing issue: insufficient API credits. " ++
       "Please top up your Anthropic account and try again.")
      "BILLING_ERROR"
      [("provider", VStr "anthropic"); ("status_code", VInt c)]
  else
    service_error
      ("Anthropic request failed: " ++ msg)
      "API_REQUEST_ERROR"
      [("provider", VStr "anthropic"); ("status_code", VInt c)].

(** The [for attempt in range(max_retries + 1)] loop of
    [_call_claude_with_retry]: [n] iterations are left, [attempt] is the
    loop variable.  The result carries [last_error]. *)
Fixpoint claude_loop (cfg : GenerationSettings) (api : ClaudeApi)
    (model : string) (max_retries : Z) (n : nat) (attempt : nat)
    (last_error : option string) (w : World)
    : LoopExit * option string * World :=
  match n with
  | O => (Exhausted, last_error, w)
  | S n' =>
      let '(elapsed, outcome) := api attempt in
      let w1 := advance elapsed (emit (EvCall "anthropic" attempt) w) in
      match outcome with
      | ClaudeResponse blocks input_tokens output_tokens =>
          let text :=
            match blocks with
            | b :: _ => b
            | [] => EmptyString
            end in
          (Returned
             {| content := text;
                usage :=
                  [("model", VStr model);
                   ("input_tokens", VInt input_tokens);
                   ("output_tokens", VInt output_tokens);
                   ("total_tokens", VInt (input_tokens + output_tokens));
                   ("generation_time_seconds", VNum (round2 elapsed));
                   ("retry_count", VInt (Z.of_nat attempt))] |},
           last_error, w1)
      | AnthropicError status_code msg =>
          if claude_fatal status_code then
            (Raised (claude_fatal_error (default 0 status_code) msg),
             Some msg, w1)
          else
            claude_loop cfg api model max_retries n' (S attempt) (Some msg)
              (backoff cfg attempt max_retries w1)
      | ClaudeException msg =>
          (* break *)
          (Exhausted, Some msg, w1)
      end
  end.

Definition api_error (provider : string) (last_error : option string) : exn :=
  service_error
    "Failed to generate content after retry attempts. Please try again shortly."
    "API_ERROR"
    [("last_error", VStr (str_last_error last_error));
     ("provider", VStr provider)].

Definition record_failure_now (cfg : GenerationSettings) (provider : string)
    (w : World) : World :=
  set_provider_state
    (_record_failure cfg provider (clock w) (provider_state w)) w.

(** [_call_claude_with_retry] of a service whose [self.provider] is
    [provider]. *)
Definition _call_claude_with_retry (cfg : GenerationSettings)
    (provider : string) (api : ClaudeApi) (model : string) (max_retries : Z)
    (w : World) : result ModelResponse * World :=
  match claude_loop cfg api model max_retries
          (Z.to_nat (max_retries + 1)) 0 None w with
  | (Returned r, _, w') => (Ok r, w')
  | (Raised e, _, w') => (Raise e, w')
  | (Exhausted, last_error, w') =>
      (* All retries exhausted *)
      (Raise (api_error "anthropic" last_error),
       record_failure_now cfg provider w')
  end.

(** The first [reason] of the decoded details that is not empty. *)
Fixpoint first_reason (reasons : list string) : string :=
  match reasons with
  | [] => EmptyString
  | r :: rs => if Py.truthy r then r else first_reason rs
  end.

(** [x or y] on strings *)
Definition str_or (x y : string) : string := if Py.truthy x then x else y.

(** The [except urllib.error.HTTPError] handler of
    [_call_gemini_with_retry] up to its raises: the error it raises, if it
    raises one. *)
Definition gemini_fatal_error (code : Z) (body : string)
    (decoded : option (string * list string)) : option exn :=
  let lower_body := Py.lower body in
  let error_message :=
    match decoded with Some (m, _) => m | None => EmptyString end in
  let error_reason :=
    match decoded with Some (_, rs) => first_reason rs | None => EmptyString end in
  if (code =? 429) &&
     (Py.contains "resource_exhausted" lower_body
      || Py.contains "exceeded your current quota" lower_body
      || Py.contains "billing" lower_body)
  then Some (service_error
    ("Gemini quota/billing issue: current key has exhausted quota. " ++
     "Enable billing or use a key/project with available quota.")
    "BILLING_ERROR"
    [("provider", VStr "gemini"); ("status_code", VInt code)])
  else if (code <? 500) && negb (code =? 429) then
    if String.eqb error_reason "API_KEY_INVALID"
       || Py.contains "api key expired" lower_body
    then Some (service_error
      "Gemini API key is invalid or expired. Create/rotate a valid key and retry."
      "AUTH_ERROR"
      [("provider", VStr "gemini"); ("status_code", VInt code);
       ("reason", VStr (str_or error_reason "API_KEY_INVALID"))])
    else if Py.contains "quota" lower_body
            || Py.contains "billing" lower_body
            || Py.contains "resource_exhausted" lower_body
    then Some (service_error
      "Gemini billing/quota issue: please enable billing or increase quota."
      "BILLING_ERROR"
      [("provider", VStr "gemini"); ("status_code", VInt code)])
    else Some (service_error
      ("Gemini request failed: " ++
       str_or error_message "check API key, model name, and payload.")
      "API_REQUEST_ERROR"
      [("provider", VStr "gemini"); ("status_code", VInt code);
       ("reason", if Py.truthy error_reason then VStr error_reason else VNone)])
  else None.

(** [''.join(part.get('text', '') for part in parts)] *)
Definition join_parts (parts : list (option string)) : string :=
  fold_right (fun p acc => default EmptyString p ++ acc) EmptyString parts.

(** [usage.get(k, 0)] *)
Definition usage_get (k : string) (usage : dict) : value :=
  default (VInt 0) (dict_get k usage).

(** The loop of [_call_gemini_with_retry]. *)
Fixpoint gemini_loop (cfg : GenerationSettings) (api : GeminiApi)
    (model : string) (max_retries : Z) (n : nat) (attempt : nat)
    (last_error : option string) (w : World)
    : LoopExit * option string * World :=
  match n with
  | O => (Exhausted, last_error, w)
  | S n' =>
      let '(elapsed, outcome) := api attempt in
      let w1 := advance elapsed (emit (EvCall "gemini" attempt) w) in
      match outcome with
      | GeminiResponse candidates usage =>
          let parts :=
            match candidates with
            | c :: _ => c
            | [] => []
            end in
          (Returned
             {| content := join_parts parts;
                usage :=
                  [("model", VStr model);
                   ("input_tokens", usage_get "promptTokenCount" usage);
                   ("output_tokens", usage_get "candidatesTokenCount" usage);
                   ("total_tokens", usage_get "totalTokenCount" usage);
                   ("generation_time_seconds", VNum (round2 elapsed));
                   ("retry_count", VInt (Z.of_nat attempt));
                   ("provider", VStr "gemini")] |},
           last_error, w1)
      | HTTPError code body decoded =>
          let last_error' :=
            Some ("HTTP " ++ Py.str_of_Z code ++ ": " ++ body) in
          match gemini_fatal_error code body decoded with
          | Some e => (Raised e, last_error', w1)
          | None =>
              gemini_loop cfg api model max_retries n' (S attempt) last_error'
                (backoff cfg attempt max_retries w1)
          end
      | GeminiException msg =>
          gemini_loop cfg api model max_retries n' (S attempt) (Some msg)
            (backoff cfg attempt max_retries w1)
      end
  end.

Definition _call_gemini_with_retry (cfg : GenerationSettings)
    (provider : string) (api : GeminiApi) (model : string) (max_retries : Z)
    (w : World) : result ModelResponse * World :=
  match gemini_loop cfg api model max_retries
          (Z.to_nat (max_retries + 1)) 0 None w with
  | (Returned r, _, w') => (Ok r, w')
  | (Raised e, _, w') => (Raise e, w')
  | (Exhausted, last_error, w') =>
      (Raise (api_error "gemini" last_error),
       record_failure_now cfg provider w')
  end.

(** A service instance: its provider name and the two provider stubs. *)
Record Service := {
  cfg : GenerationSettings;
  prompt_cfg : PromptSettings;
  provider : string;
  claude : ClaudeApi;
  gemini : GeminiApi
}.

(** [_call_model_with_retry] *)
Definition _call_model_with_retry (self : Service) (speed : string)
    (w : World) : result ModelResponse * World :=
  let p := provider self in
  match _check_circuit_state p (clock w) (provider_state w) with
  | Raise e => (Raise e, w)
  | Ok _ =>
      let call_done (res : result ModelResponse * World) :=
        match res with
        | (Ok r, w') =>
            (Ok r, set_provider_state (_record_success p (provider_state w')) w')
        | (Raise e, w') => (Raise e, w')
        end in
      if String.eqb p "anthropic" then
        call_done
          (_call_claude_with_retry (cfg self) p (claude self)
             (_resolve_model (cfg self) p speed)
             (_resolve_retry_count (cfg self) speed) w)
      else if String.eqb p "gemini" then
        call_done
          (_call_gemini_with_retry (cfg self) p (gemini self)
             (_resolve_model (cfg self) p speed)
             (_resolve_retry_count (cfg self) speed) w)
      else
        (Raise (service_error ("Unsupported LLM provider '" ++ p ++ "'")
                  "INVALID_PROVIDER" []), w)
  end.

(* ===================================================================== *)
(** * The orchestrator  ([BlogGenerationService.generate_post])           *)
(* ===================================================================== *)

(** [_validate_generation_input] *)
Definition _validate_generation_input (topic persona_slug : string)
    : result unit :=
  if negb (Py.truthy topic) || (String.length (Py.strip topic) <? 5)%nat then
    Raise (service_error "Topic must be at least 5 characters long"
             "INVALID_TOPIC" [])
  else if negb (Py.truthy persona_slug) then
    Raise (service_error "Persona slug is required" "INVALID_PERSONA" [])
  else Ok tt.

(** [_get_persona]: [Persona.objects.get(slug=slug, is_active=True)]; the
    slug column is unique. *)
Definition _get_persona (slug : string) (d : Database) : result Persona :=
  match List.find (fun p => String.eqb (persona_slug p) slug && is_active p)
          (personas d) with
  | Some p => Ok p
  | None =>
      Raise (service_error ("Active persona '" ++ slug ++ "' not found")
               "PERSONA_NOT_FOUND" [])
  end.

(** [blog_post.save()].  The store of this development accepts every
    write; what the services do when the database refuses one is not
    modelled, and no statement below is about such a run. *)
Definition save_post (p : BlogPost) (d : Database) : Database :=
  {| personas := personas d;
     posts := <[post_id p := p]> (posts d);
     next_post_id := next_post_id d;
     engagements := engagements d;
     next_engagement_id := next_engagement_id d;
     metrics := metrics d |}.

(** [_create_post_record]: [BlogPost.objects.create(...)] with the column
    defaults of the model. *)
Definition _create_post_record (topic : string) (persona : Persona)
    (prompt : string) (d : Database) : BlogPost * Database :=
  let p :=
    {| post_id := next_post_id d;
       post_title := "Draft: " ++ Py.take 50 topic ++ "...";
       topic_input := topic;
       raw_prompt := prompt;
       generated_content := EmptyString;
       content_structure := [];
       post_persona := Some (persona_slug persona);
       post_sources := [];
       status := GENERATING;
       sentiment_score := 0;
       metadata := [];
       published_at := None |} in
  (p,
   {| personas := personas d;
      posts := <[post_id p := p]> (posts d);
      next_post_id := S (next_post_id d);
      engagements := engagements d;
      next_engagement_id := next_engagement_id d;
      metrics := metrics d |}).

(** [Engagement.objects.filter(blog_post_id=id, action=a).count()] *)
Definition count_action (id : nat) (a : string) (d : Database) : Z :=
  Z.of_nat (length (List.filter
    (fun e => Nat.eqb (blog_post_id e) id && String.eqb (action e) a)
    (engagements d))).

(** [EngagementService.calculate_sentiment] *)
Definition calculate_sentiment (id : nat) (d : Database) : Z :=
  count_action id "like" d - count_action id "dislike" d.

Definition with_score (score : Z) (p : BlogPost) : BlogPost :=
  {| post_id := post_id p; post_title := post_title p;
     topic_input := topic_input p; raw_prompt := raw_prompt p;
     generated_content := generated_content p;
     content_structure := content_structure p;
     post_persona := post_persona p; post_sources := post_sources p;
     status := status p; sentiment_score := score;
     metadata := metadata p; published_at := published_at p |}.

(** [save(update_fields=['sentiment_score'])]: one column of the row. *)
Definition save_score (id : nat) (score : Z) (d : Database) : Database :=
  {| personas := personas d;
     posts := alter (with_score score) id (posts d);
     next_post_id := next_post_id d;
     engagements := engagements d;
     next_engagement_id := next_engagement_id d;
     metrics := metrics d |}.

(** [BlogPost.update_sentiment_score] *)
Definition update_sentiment_score (p : BlogPost) (d : Database)
    : BlogPost * Database :=
  let score := calculate_sentiment (post_id p) d in
  (with_score score p, save_score (post_id p) score d).

(** [_update_post_with_content]: the outcome, and the [blog_post] object
    as the call leaves it.  The title is taken from [structure['title']]; a
    value there that is not text cannot be sliced into a title and is
    reported as [TypeError]. *)
Definition _update_post_with_content (blog_post : BlogPost)
    (content : string) (sources : list value) (structure : dict)
    (meta : dict) (w : World) : result unit * BlogPost * World :=
  let p0 :=
    {| post_id := post_id blog_post;
       post_title := post_title blog_post;
       topic_input := topic_input blog_post;
       raw_prompt := raw_prompt blog_post;
       generated_content := content;
       content_structure := structure;
       post_persona := post_persona blog_post;
       post_sources := sources;
       status := status blog_post;
       sentiment_score := sentiment_score blog_post;
       metadata := metadata blog_post;
       published_at := published_at blog_post |} in
  (* Update title if extracted *)
  let new_title : result string :=
    match dict_get "title" structure with
    | Some v =>
        if value_truthy v then
          match v with
          | VStr s => Ok (Py.take 300 s)
          | _ => Raise (EOther "TypeError" "title")
          end
        else Ok (post_title p0)
    | None => Ok (post_title p0)
    end in
  match new_title with
  | Raise e => (Raise e, p0, w)
  | Ok t =>
      let p :=
        {| post_id := post_id p0;
           post_title := t;
           topic_input := topic_input p0;
           raw_prompt := raw_prompt p0;
           generated_content := generated_content p0;
           content_structure := content_structure p0;
           post_persona := post_persona p0;
           post_sources := post_sources p0;
           status := COMPLETED;
           sentiment_score := sentiment_score p0;
           metadata := dict_merge (metadata p0) meta;
           published_at := Some (clock w) |} in
      let d1 := save_post p (db w) in
      let '(p', d2) := update_sentiment_score p d1 in
      (Ok tt, p', set_db d2 w)
  end.

(** The dictionary [generate_post] returns. *)
Record GenerationResult := {
  success : bool;
  result_blog_post_id : nat;
  result_status : string;
  result_content : string;
  result_sources : list value;
  result_metadata : dict
}.

Definition with_status_metadata (s : PostStatus) (m : dict) (p : BlogPost)
    : BlogPost :=
  {| post_id := post_id p; post_title := post_title p;
     topic_input := topic_input p; raw_prompt := raw_prompt p;
     generated_content := generated_content p;
     content_structure := content_structure p;
     post_persona := post_persona p; post_sources := post_sources p;
     status := s; sentiment_score := sentiment_score p;
     metadata := m; published_at := published_at p |}.

(** [BaseService.handle_exception] *)
Definition handle_exception (e : exn) (context : dict) : exn :=
  service_error (str_exn e) "SERVICE_ERROR" context.

(** The two [except] clauses of [generate_post].  [blog_post] is the local
    variable of that name, if it is bound when the error arrives. *)
Definition generate_post_except (topic persona_slug : string)
    (blog_post : option BlogPost) (e : exn) (w : World)
    : result GenerationResult * World :=
  match e with
  | EService _ =>
      match blog_post with
      | Some p =>
          (Raise e,
           set_db (save_post (with_status_metadata FAILED (metadata p) p)
                     (db w)) w)
      | None => (Raise e, w)
      end
  | EOther _ _ =>
      let e' := handle_exception e
                  [("topic", VStr topic); ("persona", VStr persona_slug)] in
      match blog_post with
      | Some p =>
          (Raise e',
           set_db (save_post
                     (with_status_metadata FAILED
                        (dict_set "error" (VStr (str_exn e)) (metadata p)) p)
                     (db w)) w)
      | None => (Raise e', w)
      end
  end.

Definition generate_post (self : Service) (topic persona_slug : string)
    (additional_context : list (string * string)) (speed : string)
    (w : World) : result GenerationResult * World :=
  let except := generate_post_except topic persona_slug in
  (* 1. Validate inputs *)
  match _validate_generation_input topic persona_slug with
  | Raise e => except None e w
  | Ok _ =>
  (* 2. Fetch persona *)
  match _get_persona persona_slug (db w) with
  | Raise e => except None e w
  | Ok persona =>
  (* 3. Build prompts *)
  match build_generation_prompt (prompt_cfg self) topic persona
          additional_context speed with
  | Raise e => except None e w
  | Ok user_prompt =>
  (* 4. Create BlogPost record in GENERATING state *)
  let '(blog_post, d1) := _create_post_record topic persona user_prompt (db w) in
  let w1 := set_db d1 w in
  (* 5. Call the model with retry logic *)
  match _call_model_with_retry self speed w1 with
  | (Raise e, w2) => except (Some blog_post) e w2
  | (Ok response_data, w2) =>
  (* 6. Parse response *)
  match _parse_response (content response_data) with
  | Raise e => except (Some blog_post) e w2
  | Ok parsed_content =>
  (* 7. Update BlogPost with generated content *)
  match _update_post_with_content blog_post (markdown parsed_content)
          (sources parsed_content) (structure parsed_content)
          (usage response_data) w2 with
  | (Raise e, blog_post', w3) => except (Some blog_post') e w3
  | (Ok _, blog_post', w3) =>
      (Ok {| success := true;
             result_blog_post_id := post_id blog_post';
             result_status := "completed";
             result_content := markdown parsed_content;
             result_sources := sources parsed_content;
             result_metadata := metadata blog_post' |}, w3)
  end end end end end end.

(* ===================================================================== *)
(** * [EngagementService]  (services/engagement.py)                       *)
(* ===================================================================== *)

(** [Engagement.ActionType.choices] *)
Definition valid_actions : list string := ["like"; "dislike"].

Definition _validate_engagement (id : nat) (session : string)
    (act : string) (d : Database) : result unit :=
  match posts d !! id with
  | None =>
      Raise (service_error
               ("Blog post " ++ Py.str_of_Z (Z.of_nat id) ++ " not found")
               "POST_NOT_FOUND" [])
  | Some _ =>
      if existsb (String.eqb act) valid_actions then Ok tt
      else Raise (service_error
                    ("Invalid action: " ++ act ++
                     ". Must be one of ['like', 'dislike']")
                    "INVALID_ACTION" [])
  end.

Definition same_pair (id : nat) (session : string) (e : Engagement) : bool :=
  Nat.eqb (blog_post_id e) id && String.eqb (session_id e) session.

(** [Engagement.objects.filter(blog_post_id=id, session_id=session)] *)
Definition rows_for (id : nat) (session : string) (d : Database)
    : list Engagement :=
  List.filter (same_pair id session) (engagements d).

Definition set_engagements (es : list Engagement) (next : nat)
    (d : Database) : Database :=
  {| personas := personas d; posts := posts d;
     next_post_id := next_post_id d;
     engagements := es; next_engagement_id := next;
     metrics := metrics d |}.

(** [existing.delete()] *)
Definition delete_engagement (e : Engagement) (d : Database) : Database :=
  set_engagements
    (List.filter (fun x => negb (Nat.eqb (engagement_id x) (engagement_id e)))
       (engagements d))
    (next_engagement_id d) d.

Definition with_action (act : string) (m : dict) (e : Engagement)
    : Engagement :=
  {| engagement_id := engagement_id e; blog_post_id := blog_post_id e;
     session_id := session_id e; action := act;
     action_value := action_value e; engagement_metadata := m |}.

(** [Engagement.objects.update_or_create(blog_post_id=id,
    session_id=session, defaults={action, metadata})] *)
Definition update_or_create (id : nat) (session : string) (act : string)
    (m : dict) (d : Database) : result unit * Database :=
  match rows_for id session d with
  | [] =>
      let e := {| engagement_id := next_engagement_id d;
                  blog_post_id := id; session_id := session;
                  action := act; action_value := 1;
                  engagement_metadata := m |} in
      (Ok tt, set_engagements (e :: engagements d)
                (S (next_engagement_id d)) d)
  | [e] =>
      (Ok tt,
       set_engagements
         (map (fun x => if Nat.eqb (engagement_id x) (engagement_id e)
                        then with_action act m x else x)
              (engagements d))
         (next_engagement_id d) d)
  | _ :: _ :: _ =>
      (Raise (EOther "MultipleObjectsReturned"
                "get() returned more than one Engagement"), d)
  end.

(** What [_update_post_metrics] and [record_action] return. *)
Record Metrics := {
  m_sentiment_score : Z;
  m_likes_count : Z;
  m_dislikes_count : Z
}.

Record ActionResult := {
  r_success : bool;
  r_action : string;
  new_score : Z;
  was_toggle : bool;
  r_likes_count : Z;
  r_dislikes_count : Z
}.

(** [_update_post_metrics] *)
Definition _update_post_metrics (id : nat) (d : Database)
    : result Metrics * Database :=
  match posts d !! id with
  | None =>
      (Raise (EOther "DoesNotExist" "BlogPost matching query does not exist."),
       d)
  | Some _ =>
      let likes := count_action id "like" d in
      let dislikes := count_action id "dislike" d in
      let score := likes - dislikes in
      let d1 := save_score id score d in
      let metric :=
        match metrics d1 !! id with
        | Some m => {| views_count := views_count m;
                       likes_count := likes; dislikes_count := dislikes |}
        | None => {| views_count := 0;
                     likes_count := likes; dislikes_count := dislikes |}
        end in
      (Ok {| m_sentiment_score := score; m_likes_count := likes;
             m_dislikes_count := dislikes |},
       {| personas := personas d1; posts := posts d1;
          next_post_id := next_post_id d1;
          engagements := engagements d1;
          next_engagement_id := next_engagement_id d1;
          metrics := <[id := metric]> (metrics d1) |})
  end.

(** [record_action] *)
Definition record_action (id : nat) (session : string) (act : string)
    (m : dict) (d : Database) : result ActionResult * Database :=
  let context := [("blog_post_id", VInt (Z.of_nat id)); ("action", VStr act)] in
  match _validate_engagement id session act d with
  | Raise e => (Raise e, d)
  | Ok _ =>
      let existing := head (rows_for id session d) in
      let step : result bool * Database :=
        match existing with
        | Some e =>
            if String.eqb (action e) act
            then (Ok true, delete_engagement e d)
            else
              match update_or_create id session act m d with
              | (Ok _, d') => (Ok false, d')
              | (Raise x, d') => (Raise x, d')
              end
        | None =>
            match update_or_create id session act m d with
            | (Ok _, d') => (Ok false, d')
            | (Raise x, d') => (Raise x, d')
            end
        end in
      match step with
      | (Raise x, d') => (Raise (handle_exception x context), d')
      | (Ok toggled, d1) =>
          match _update_post_metrics id d1 with
          | (Raise x, d2) => (Raise (handle_exception x context), d2)
          | (Ok mt, d2) =>
              (Ok {| r_success := true; r_action := act;
                     new_score := m_sentiment_score mt;
                     was_toggle := toggled;
                     r_likes_count := m_likes_count mt;
                     r_dislikes_count := m_dislikes_count mt |}, d2)
          end
      end
  end.

(** [SourceReference.save]: the domain column after saving a row with the
    given [url] and [domain]. *)
Definition SourceReference_save (url domain : string) : result string :=
  if Py.truthy url && negb (Py.truthy domain) then
    match Url.netloc url with
    | Raise e => Raise e
    | Ok loc => Ok (Py.replace "www." EmptyString loc)
    end
  else Ok domain.

(* ===================================================================== *)
(** * Scenarios and observations used by the statements                   *)
(* ===================================================================== *)

(** [_record_failure] called once at each of the clock readings [times]. *)
Fixpoint record_failures (cfg : GenerationSettings) (provider : string)
    (times : list Q) (ps : gmap string CircuitState)
    : gmap string CircuitState :=
  match times with
  | [] => ps
  | t :: ts => record_failures cfg provider ts (_record_failure cfg provider t ps)
  end.









(** The codes of the errors that are raised without retrying. *)
Definition fatal_code (c : string) : bool :=
  String.eqb c "BILLING_ERROR" || String.eqb c "AUTH_ERROR"
  || String.eqb c "API_REQUEST_ERROR".

(** A store with one active persona and nothing else, at clock reading
    1000, and provider stubs for the scenarios below. *)
Definition technical_persona : Persona :=
  {| persona_name := "Technical Writer"; persona_slug := "technical";
     persona_type := "technical"; system_prompt := "Write clearly";
     temperature := 7 # 10; max_tokens := 4000; is_active := true |}.

Definition initial_db : Database :=
  {| personas := [technical_persona]; posts := ∅; next_post_id := 1;
     engagements := []; next_engagement_id := 1; metrics := ∅ |}.

Definition initial_world : World :=
  {| db := initial_db;
     provider_state :=
       {[ "anthropic" := closed_state; "gemini" := closed_state ]};
     clock := 1000; trace := [] |}.

(** Every request answered with 503 after one second. *)
Definition claude_overloaded : ClaudeApi :=
  fun _ => (1%Q, AnthropicError (Some 503) "overloaded").


Definition gemini_unavailable : GeminiApi :=
  fun _ => (1%Q, HTTPError 503 "unavailable" None).

(** Every request rejected with 400 and the reason API_KEY_INVALID. *)
Definition gemini_key_invalid : GeminiApi :=
  fun _ => (1%Q, HTTPError 400 "API key not valid"
                   (Some ("API key not valid. Please pass a valid API key.",
                          ["API_KEY_INVALID"]))).

(** The number of provider requests in a trace. *)
Definition is_call (ev : Event) : bool :=
  match ev with
  | EvCall _ _ => true
  | EvSleep _ => false
  end.

Definition requests (w : World) : nat := length (List.filter is_call (trace w)).

(** Service instances over the stubs. *)
Definition anthropic_service (api : ClaudeApi) : Service :=
  {| cfg := default_settings; prompt_cfg := default_prompt_settings;
     provider := "anthropic"; claude := api; gemini := gemini_unavailable |}.

Definition gemini_service (api : GeminiApi) : Service :=
  {| cfg := default_settings; prompt_cfg := default_prompt_settings;
     provider := "gemini"; claude := claude_overloaded; gemini := api |}.

(** What a provider call does to the breaker, by the way it ends. *)
Definition breaker_effect (self : Service) (w w' : World)
    (r : result ModelResponse) : Prop :=
  match r with
  | Ok _ =>
      provider_state w' = _record_success (provider self) (provider_state w)
  | Raise (EService e) =>
      (code e = "API_ERROR"
       /\ provider_state w' =
            _record_failure (cfg self) (provider self) (clock w')
              (provider_state w))
      \/ (code e <> "API_ERROR" /\ provider_state w' = provider_state w)
  | Raise (EOther _ _) => False
  end.


(** The model output of the round-trip example: a title, a paragraph and a
    sources section with one citation. *)
Definition sample_response : string :=
  "# My Title" ++ Py.nl ++ Py.nl ++ "Body text." ++ Py.nl ++ Py.nl ++
  "## Sources" ++ Py.nl ++ "- [Example](https://www.example.com/a)" ++ Py.nl.

(** The URLs [_parse_response] hands to [urlparse]: those of the citations
    in the sources section it locates. *)
Definition cited_urls (raw : string) : list string :=
  match search fl_dotall_ignorecase sources_section_pattern raw with
  | Some m =>
      map snd (findall2 no_flags citation_pattern
                 (group_or_empty 1 (m_groups m)))
  | None => []
  end.

(** Whether [urlparse] accepts a URL. *)
Definition url_accepted (url : string) : bool :=
  match Url.netloc url with
  | Ok _ => true
  | Raise _ => false
  end.

(** A URL whose network location is made of ASCII characters and has no
    square bracket. *)
Definition is_ascii (c : ascii) : bool := (nat_of_ascii c <? 128)%nat.

Definition plain_location (url : string) : bool :=
  let loc := Url.location url in
  Url.all_chars is_ascii loc
  && negb (Py.has_char "[" loc) && negb (Py.has_char "]" loc).

(** A sources section whose citation has an opening bracket in the host. *)
Definition unmatched_bracket_response : string :=
  "## Sources" ++ Py.nl ++ "[a](http://[b)" ++ Py.nl.

(** Well-formedness of the engagement table: primary keys come from the
    sequence, and the unique constraint on (blog_post, session_id). *)
Definition fresh_ids (d : Database) : Prop :=
  Forall (fun e => (engagement_id e < next_engagement_id d)%nat)
         (engagements d).

Definition unique_pairs (d : Database) : Prop :=
  forall (id : nat) (session : string),
    (length (rows_for id session d) <= 1)%nat.

(** The [sentiment_score] column of a post. *)
Definition stored_score (id : nat) (d : Database) : option Z :=
  sentiment_score <$> posts d !! id.

(** A provider that answers the first request with the given text. *)
Definition claude_answers (text : string) : ClaudeApi :=
  fun _ => (2%Q, ClaudeResponse [text] 120 340).

Definition renewable_topic : string := "Future of renewable energy".

(** A store with one completed post and no reactions. *)
Definition draft_post : BlogPost :=
  {| post_id := 1; post_title := "Draft"; topic_input := "Future of AI";
     raw_prompt := "prompt"; generated_content := EmptyString;
     content_structure := []; post_persona := Some "technical";
     post_sources := []; status := COMPLETED; sentiment_score := 0;
     metadata := []; published_at := None |}.

Definition db_with_post : Database :=
  {| personas := [technical_persona]; posts := {[ 1%nat := draft_post ]};
     next_post_id := 2; engagements := []; next_engagement_id := 1;
     metrics := ∅ |}.



(** The template in two parts: the nodes that print the topic and the
    context, and the nodes from "Requirements:" on. *)
Definition head_nodes : list Jinja.node := firstn 4 USER_PROMPT_TEMPLATE.
Definition requirement_nodes : list Jinja.node := skipn 4 USER_PROMPT_TEMPLATE.

(** The line that asks for a word range. *)
Definition length_line (mn mx : Z) : string :=
  "- Length: " ++ Py.str_of_Z mn ++ "-" ++ Py.str_of_Z mx ++ " words".

(** The text the two parts render to. *)
Definition context_line (k v : string) : string :=
  Py.nl ++ "- " ++ k ++ ": " ++ v ++ Py.nl.

Fixpoint context_lines (ctx : list (string * string)) : string :=
  match ctx with
  | [] => EmptyString
  | (k, v) :: ctx' => context_line k v ++ context_lines ctx'
  end.

Definition context_block (ctx : list (string * string)) : string :=
  match ctx with
  | [] => EmptyString
  | _ :: _ =>
      Py.nl ++ "Additional context to consider:" ++ Py.nl ++
      context_lines ctx ++ Py.nl
  end.

Definition head_text (topic : string) (ctx : list (string * string))
    : string :=
  Py.nl ++ "Write a comprehensive blog post about: " ++ topic ++
  Py.nl ++ Py.nl ++ context_block ctx.

Definition requirements_rest (style : string) (is_fast : bool) : string :=
  Py.nl ++
  "- Include a compelling, descriptive headline" ++ Py.nl ++
  "- Use markdown formatting (## for subheadings, ** for emphasis)" ++ Py.nl ++
  "- End with a summary paragraph of key takeaways" ++ Py.nl ++
  "- If specific sources are referenced, format as [Source Name](url)" ++ Py.nl ++
  "- " ++ style ++ Py.nl ++
  (if is_fast
   then Py.nl ++ "- Optimize for speed: keep the response concise and focused."
        ++ Py.nl
   else EmptyString) ++
  Py.nl ++ Py.nl ++
  (if is_fast then EmptyString else Py.nl ++ sources_directive ++ Py.nl).

Definition requirements_text (mn mx : Z) (style : string) (is_fast : bool)
    : string :=
  (Py.nl ++ Py.nl ++ "Requirements:" ++ Py.nl) ++
  length_line mn mx ++ requirements_rest style is_fast.

(** The variables the second part of the template reads. *)
Definition requirements_env (mn mx : Z) (style : string) (is_fast : bool)
    : Jinja.env :=
  [ ("min_words", Jinja.JInt mn); ("max_words", Jinja.JInt mx);
    ("style_guidance", Jinja.JStr style);
    ("include_sources", Jinja.JBool (negb is_fast));
    ("is_fast", Jinja.JBool is_fast) ].

(** Text without a double quote: the topic and every key and value of the
    context. *)
Definition quote_free (topic : string) (ctx : list (string * string))
    : bool :=
  negb (Py.has_char (ascii_of_nat 34) topic)
  && forallb (fun kv => negb (Py.has_char (ascii_of_nat 34) (fst kv))
                        && negb (Py.has_char (ascii_of_nat 34) (snd kv))) ctx.

(** The number of sleeps in a trace. *)
Definition is_sleep (ev : Event) : bool :=
  match ev with
  | EvSleep _ => true
  | EvCall _ _ => false
  end.

Definition sleeps (w : World) : nat := length (List.filter is_sleep (trace w)).

(** The Anthropic breaker one failure short of the default threshold. *)
Definition two_failures_world : World :=
  set_provider_state
    {[ "anthropic" := {| failures := 2; open_until := 0 |} ]} initial_world.

(** Every request fails with an exception that is not an [AnthropicError]. *)
Definition claude_crashing : ClaudeApi :=
  fun _ => (1%Q, ClaudeException "connection reset").

(** [EngagementService.get_user_action] *)
Definition get_user_action (id : nat) (session : string) (d : Database)
    : option string :=
  match head (rows_for id session d) with
  | Some e => Some (action e)
  | None => None
  end.

(** Primary keys of the engagement table are distinct. *)
Definition distinct_ids (d : Database) : Prop :=
  List.NoDup (map engagement_id (engagements d)).

(** The row [update_or_create] inserts. *)
Definition new_engagement (id : nat) (session act : string) (m : dict)
    (d : Database) : Engagement :=
  {| engagement_id := next_engagement_id d; blog_post_id := id;
     session_id := session; action := act; action_value := 1;
     engagement_metadata := m |}.

(** The in-place update of the row with primary key [n]. *)
Definition rewrite_row (n : nat) (act : string) (m : dict) (x : Engagement)
    : Engagement :=
  if Nat.eqb (engagement_id x) n then with_action act m x else x.

(** A host name in ASCII: none of the characters that end the network
    location ([/?#]), bracket it, or separate user, password and port from
    the host ([@:]), no closing parenthesis (it would end the citation), no
    tab, carriage return or line feed. *)
Definition plain_host_char (c : ascii) : bool :=
  let n := nat_of_ascii c in
  (n <? 128)%nat
  && negb (Ascii.eqb c "/" || Ascii.eqb c "?" || Ascii.eqb c "#"
           || Ascii.eqb c "[" || Ascii.eqb c "]"
           || Ascii.eqb c "@" || Ascii.eqb c ":" || Ascii.eqb c ")"
           || (n =? 9) || (n =? 10) || (n =? 13))%nat.

Definition plain_host (host : string) : bool :=
  Url.all_chars plain_host_char host.

(** The character before the position reached by reading [s] from a
    position that has [prev] before it. *)
Fixpoint last_char (prev : option ascii) (s : string) : option ascii :=
  match s with
  | EmptyString => prev
  | String c s' => last_char (Some c) s'
  end.

(** [BlogPost.word_count] and [BlogPost.reading_time] (models.py). *)
Definition word_count (p : BlogPost) : Z :=
  if Py.truthy (generated_content p)
  then Z.of_nat (length (Py.split (generated_content p)))
  else 0.

Definition reading_time (p : BlogPost) : Z := Z.max 1 (word_count p / 200).

(* ===================================================================== *)
(** * [BlogGenerationService.__init__] and the generation task (tasks.py) *)
(* ===================================================================== *)

(** What [BlogGenerationService()] reads: the provider and key settings
    ([None] where the attribute is missing), the class attributes, the
    prompt settings and the transports of the two providers. *)
Record Settings := {
  LLM_PROVIDER : option string;
  ANTHROPIC_API_KEY : option string;
  GEMINI_API_KEY : option string;
  class_attributes : GenerationSettings;
  prompt_settings : PromptSettings;
  anthropic_transport : ClaudeApi;
  gemini_transport : GeminiApi
}.

(** Python's [x or y] and [bool(x)] for optional text: [None] and the
    empty string are falsy. *)
Definition is_set (x : option string) : bool :=
  match x with
  | Some s => Py.truthy s
  | None => false
  end.

Definition py_or (x y : option string) : option string :=
  if is_set x then x else y.

(** [BlogGenerationService.__init__(api_key)] *)
Definition __init__ (st : Settings) (api_key : option string)
    : result Service :=
  let provider :=
    Py.lower (match py_or (LLM_PROVIDER st) (Some "anthropic") with
              | Some p => p
              | None => "anthropic"
              end) in
  let self :=
    {| cfg := class_attributes st; prompt_cfg := prompt_settings st;
       provider := provider; claude := anthropic_transport st;
       gemini := gemini_transport st |} in
  if String.eqb provider "anthropic" then
    if negb (is_set (py_or api_key (ANTHROPIC_API_KEY st))) then
      Raise (EOther "ValueError"
        "ANTHROPIC_API_KEY must be set in settings when LLM_PROVIDER=anthropic")
    else Ok self
  else if String.eqb provider "gemini" then
    if negb (is_set (py_or api_key (GEMINI_API_KEY st))) then
      Raise (EOther "ValueError"
        "GEMINI_API_KEY must be set in settings when LLM_PROVIDER=gemini")
    else Ok self
  else
    Raise (EOther "ValueError"
      ("Unsupported LLM_PROVIDER '" ++ provider ++
       "'. Use 'anthropic' or 'gemini'.")).

(** [GenerationJob] (models.py). *)
Module GenerationJob.

Inductive JobStatus := QUEUED | RUNNING | COMPLETED | FAILED.

Record t := {
  topic : string;
  persona_slug : string;
  session_id : string;
  speed : string;
  additional_context : list (string * string);
  status : JobStatus;
  progress : Z;
  blog_post : option nat;
  error_message : string;
  task_id : string
}.

(** The three groups of assignments of [generate_post_job]. *)
Definition started (request_id : option string) (job : t) : t :=
  {| topic := topic job; persona_slug := persona_slug job;
     session_id := session_id job; speed := speed job;
     additional_context := additional_context job;
     status := RUNNING; progress := 10; blog_post := blog_post job;
     error_message := EmptyString;
     task_id := match py_or request_id (Some EmptyString) with
                | Some s => s
                | None => EmptyString
                end |}.

Definition completed (blog_post_id : nat) (job : t) : t :=
  {| topic := topic job; persona_slug := persona_slug job;
     session_id := session_id job; speed := speed job;
     additional_context := additional_context job;
     status := COMPLETED; progress := 100;
     blog_post := if Nat.eqb blog_post_id 0 then blog_post job
                  else Some blog_post_id;
     error_message := error_message job; task_id := task_id job |}.

Definition failed (exc : exn) (job : t) : t :=
  {| topic := topic job; persona_slug := persona_slug job;
     session_id := session_id job; speed := speed job;
     additional_context := additional_context job;
     status := FAILED; progress := 100; blog_post := blog_post job;
     error_message := str_exn exc; task_id := task_id job |}.

End GenerationJob.

(** [generate_post_job(job_id)], run by a worker whose request has the id
    [request_id], on the job table and the rest of the world. *)
Definition generate_post_job (st : Settings) (request_id : option string)
    (job_id : nat) (jobs : gmap nat GenerationJob.t) (w : World)
    : result unit * gmap nat GenerationJob.t * World :=
  match jobs !! job_id with
  | None => (Ok tt, jobs, w)
  | Some job =>
      let job := GenerationJob.started request_id job in
      let jobs := <[job_id := job]> jobs in
      let outcome :=
        match __init__ st None with
        | Raise exc => (Raise exc, w)
        | Ok service =>
            generate_post service (GenerationJob.topic job)
              (GenerationJob.persona_slug job)
              (GenerationJob.additional_context job)
              (if Py.truthy (GenerationJob.speed job)
               then GenerationJob.speed job else "fast") w
        end in
      match outcome with
      | (Ok result, w') =>
          (Ok tt,
           <[job_id := GenerationJob.completed (result_blog_post_id result)
                         job]> jobs, w')
      | (Raise exc, w') =>
          (Raise exc, <[job_id := GenerationJob.failed exc job]> jobs, w')
      end
  end.

(** The settings of a deployment that uses the Anthropic stub [api]. *)
Definition anthropic_settings (api : ClaudeApi) : Settings :=
  {| LLM_PROVIDER := Some "anthropic"; ANTHROPIC_API_KEY := Some "sk-test";
     GEMINI_API_KEY := Some EmptyString;
     class_attributes := default_settings;
     prompt_settings := default_prompt_settings;
     anthropic_transport := api; gemini_transport := gemini_unavailable |}.

(** A queued job for the round-trip topic. *)
Definition queued_job : GenerationJob.t :=
  {| GenerationJob.topic := renewable_topic;
     GenerationJob.persona_slug := "technical";
     GenerationJob.session_id := "session-1";
     GenerationJob.speed := "normal";
     GenerationJob.additional_context := [];
     GenerationJob.status := GenerationJob.QUEUED;
     GenerationJob.progress := 0;
     GenerationJob.blog_post := None;
     GenerationJob.error_message := EmptyString;
     GenerationJob.task_id := EmptyString |}.

(** The text the new row of step 4 takes, as far as the request decides it,
    is text its columns accept: the topic has at most 500 characters
    ([topic_input]), and neither the topic nor the additional context,
    which the stored prompt quotes, has a NUL character. *)
Definition NUL : ascii := ascii_of_nat 0.

Definition storable (topic : string) (ctx : list (string * string)) : bool :=
  (String.length topic <=? 500)%nat
  && negb (Py.has_char NUL topic)
  && forallb (fun kv => negb (Py.has_char NUL (fst kv))
                        && negb (Py.has_char NUL (snd kv))) ctx.

(** The error of step 5 or step 6 of [generate_post], when one of them
    raises: the provider call, made once the post record exists, or the
    parser on the response. *)
Definition provider_or_parser_error (self : Service) (topic : string)
    (persona : Persona) (ctx : list (string * string)) (speed : string)
    (w : World) : option exn :=
  match build_generation_prompt (prompt_cfg self) topic persona ctx speed with
  | Raise _ => None
  | Ok user_prompt =>
      let '(_, d1) := _create_post_record topic persona user_prompt (db w) in
      match _call_model_with_retry self speed (set_db d1 w) with
      | (Raise e, _) => Some e
      | (Ok response_data, _) =>
          match _parse_response (content response_data) with
          | Raise e => Some e
          | Ok _ => None
          end
      end
  end.
(* ===================================================================== *)
(** * Properties of the circuit breaker                                   *)
(* ===================================================================== *)

Section CircuitBreaker.
Variable cfg : GenerationSettings.
Variable provider : string.

Lemma Qlt_bool_true (x y : Q) : Qlt_bool x y = true <-> (x < y)%Q.
Proof.
  unfold Qlt_bool. rewrite negb_true_iff.
  split; intros H.
  - apply Qnot_le_lt. intros Hle. apply Qle_bool_iff in Hle. congruence.
  - destruct (Qle_bool y x) eqn:E; [|reflexivity].
    apply Qle_bool_iff in E. exfalso. exact (Qlt_not_le _ _ H E).
Qed.

Lemma Qlt_bool_false (x y : Q) : Qlt_bool x y = false <-> (y <= x)%Q.
Proof.
  unfold Qlt_bool. rewrite negb_false_iff. apply Qle_bool_iff.
Qed.

Lemma state_of_record_failure (now : Q) (ps : gmap string CircuitState) :
  state_of provider (_record_failure cfg provider now ps) =
  {| failures := failures (state_of provider ps) + 1;
     open_until :=
       if CIRCUIT_FAILURE_THRESHOLD cfg <=? failures (state_of provider ps) + 1
       then (now + inject_Z (CIRCUIT_COOL_OFF_SECONDS cfg))%Q
       else open_until (state_of provider ps) |}.
Proof.
  unfold _record_failure, state_of at 1. by rewrite lookup_insert_eq.
Qed.

Lemma state_of_record_success (ps : gmap string CircuitState) :
  state_of provider (_record_success provider ps) = closed_state.
Proof.
  unfold _record_success, state_of.
  destruct (ps !! provider) eqn:E.
  - by rewrite lookup_insert_eq.
  - by rewrite E.
Qed.

(** Below the threshold the failures are counted and the breaker stays
    as it was. *)
Lemma record_failures_below (times : list Q) (ps : gmap string CircuitState) :
  failures (state_of provider ps) + Z.of_nat (length times)
    < CIRCUIT_FAILURE_THRESHOLD cfg ->
  state_of provider (record_failures cfg provider times ps) =
  {| failures := failures (state_of provider ps) + Z.of_nat (length times);
     open_until := open_until (state_of provider ps) |}.
Proof.
  revert ps. induction times as [|t ts IH]; intros ps Hlt.
  - simpl. rewrite Z.add_0_r. by destruct (state_of provider ps).
  - cbn [record_failures]. cbn [length] in Hlt.
    rewrite IH; rewrite state_of_record_failure; cbn [failures open_until].
    + destruct (Z.leb_spec (CIRCUIT_FAILURE_THRESHOLD cfg)
                  (failures (state_of provider ps) + 1)); [lia|].
      f_equal. cbn [length]. lia.
    + lia.
Qed.

Lemma record_failures_app (ts1 ts2 : list Q) (ps : gmap string CircuitState) :
  record_failures cfg provider (ts1 ++ ts2) ps =
  record_failures cfg provider ts2 (record_failures cfg provider ts1 ps).
Proof.
  revert ps. induction ts1 as [|t ts IH]; intros ps; [done|].
  simpl. apply IH.
Qed.

Lemma check_closed (now : Q) (ps : gmap string CircuitState) :
  (open_until (state_of provider ps) <= now)%Q ->
  _check_circuit_state provider now ps = Ok tt.
Proof.
  intros H. unfold _check_circuit_state.
  apply Qlt_bool_false in H. by rewrite H.
Qed.

Lemma check_open (now : Q) (ps : gmap string CircuitState) :
  (now < open_until (state_of provider ps))%Q ->
  exists e, _check_circuit_state provider now ps = Raise (EService e)
            /\ code e = "PROVIDER_UNAVAILABLE"
            /\ dict_get "provider" (details e) = Some (VStr provider).
Proof.
  intros H. unfold _check_circuit_state.
  apply Qlt_bool_true in H. rewrite H.
  eexists. split; [reflexivity|]. split; reflexivity.
Qed.

End CircuitBreaker.

(** C3.  From the closed state, [threshold] consecutive failures (the
    last one at [t_last]) open the breaker of the provider: fewer failures
    leave the check passing, and after the last one the check raises
    PROVIDER_UNAVAILABLE for that provider at every clock reading before
    [t_last + cool_off_seconds] and passes from then on.  A success at any
    point puts the state back to no failures and no deadline, and the check
    passes at once. *)
Theorem circuit_breaker_opens_and_resets
    (cfg : GenerationSettings) (provider : string)
    (ps : gmap string CircuitState) (times : list Q) (t_last now : Q) :
  1 <= CIRCUIT_FAILURE_THRESHOLD cfg ->
  state_of provider ps = closed_state ->
  Z.of_nat (length times) + 1 = CIRCUIT_FAILURE_THRESHOLD cfg ->
  (0 <= now)%Q ->
  let deadline := (t_last + inject_Z (CIRCUIT_COOL_OFF_SECONDS cfg))%Q in
  let opened := record_failures cfg provider (times ++ [t_last]) ps in
  _check_circuit_state provider now (record_failures cfg provider times ps)
    = Ok tt
  /\ ((now < deadline)%Q ->
      exists e, _check_circuit_state provider now opened = Raise (EService e)
                /\ code e = "PROVIDER_UNAVAILABLE"
                /\ dict_get "provider" (details e) = Some (VStr provider))
  /\ ((deadline <= now)%Q ->
      _check_circuit_state provider now opened = Ok tt)
  /\ (forall ps' : gmap string CircuitState,
        state_of provider (_record_success provider ps') =
          {| failures := 0; open_until := 0 |}
        /\ _check_circuit_state provider now (_record_success provider ps')
           = Ok tt).
Proof.
  intros Hth Hclosed Hlen Hnow deadline opened.
  assert (Hbelow : state_of provider (record_failures cfg provider times ps) =
                   {| failures := Z.of_nat (length times); open_until := 0 |}).
  { rewrite record_failures_below; rewrite Hclosed; cbn; [done | lia]. }
  assert (Hopened : state_of provider opened =
                    {| failures := CIRCUIT_FAILURE_THRESHOLD cfg;
                       open_until := deadline |}).
  { unfold opened. rewrite record_failures_app. cbn [record_failures].
    rewrite state_of_record_failure, Hbelow. cbn [failures open_until].
    rewrite Hlen, Z.leb_refl. reflexivity. }
  repeat split.
  - apply check_closed. rewrite Hbelow. exact Hnow.
  - intros Hlt. apply check_open. rewrite Hopened. exact Hlt.
  - intros Hle. apply check_closed. rewrite Hopened. exact Hle.
  - apply state_of_record_success.
  - apply check_closed. rewrite state_of_record_success. exact Hnow.
Qed.

(** The defaults: three failures at 100, 101 and 102 seconds, and a check
    ten seconds into the thirty-second window. *)
Lemma circuit_breaker_opens_and_resets_witness :
  exists e,
    _check_circuit_state "anthropic" 112
      (record_failures default_settings "anthropic" [100; 101; 102]%Q ∅)
    = Raise (EService e) /\ code e = "PROVIDER_UNAVAILABLE".
Proof.
  destruct (circuit_breaker_opens_and_resets default_settings "anthropic" ∅
              [100; 101]%Q 102 112) as (_ & Hopen & _).
  - cbn. lia.
  - reflexivity.
  - reflexivity.
  - unfold Qle. cbn. lia.
  - destruct Hopen as (e & He & Hc & _).
    + unfold Qlt. cbn. lia.
    + exists e. split; assumption.
Defined.

(* ===================================================================== *)
(** * Properties of the retry loops                                       *)
(* ===================================================================== *)



Lemma claude_fatal_error_code (c : Z) (msg : string) :
  exists e, claude_fatal_error c msg = EService e /\ fatal_code (code e) = true.
Proof.
  unfold claude_fatal_error.
  destruct (Py.contains _ _); eexists; split; reflexivity.
Qed.


Lemma gemini_fatal_error_code (c : Z) (body : string)
    (decoded : option (string * list string)) (e : exn) :
  gemini_fatal_error c body decoded = Some e ->
  exists s, e = EService s /\ fatal_code (code s) = true.
Proof.
  unfold gemini_fatal_error.
  repeat match goal with
         | |- context [if ?b then _ else _] => destruct b
         end;
    intros H; inversion H; eexists; split; reflexivity.
Qed.




(* ===================================================================== *)
(** * The breaker state across a provider call                            *)
(* ===================================================================== *)

Lemma backoff_provider_state (cfg : GenerationSettings) (attempt : nat)
    (max_retries : Z) (w : World) :
  provider_state (backoff cfg attempt max_retries w) = provider_state w.
Proof. unfold backoff. by destruct (_ <? _). Qed.

(** The loops never touch the breaker, and what they raise from inside is
    a billing, authentication or request error. *)
Lemma claude_loop_spec (cfg : GenerationSettings) (api : ClaudeApi)
    (model : string) (max_retries : Z) (n attempt : nat)
    (last : option string) (w : World) :
  let '(ex, _, w') := claude_loop cfg api model max_retries n attempt last w in
  provider_state w' = provider_state w
  /\ match ex with
     | Raised e => exists s, e = EService s /\ fatal_code (code s) = true
     | _ => True
     end.
Proof.
  revert attempt last w. induction n as [|n IH]; intros attempt last w.
  - cbn. done.
  - cbn [claude_loop].
    destruct (api attempt) as [elapsed [blocks i o | sc msg | msg]].
    + done.
    + destruct (claude_fatal sc).
      * split; [done|]. apply claude_fatal_error_code.
      * specialize (IH (S attempt) (Some msg)
                      (backoff cfg attempt max_retries
                         (advance elapsed (emit (EvCall "anthropic" attempt) w)))).
        destruct (claude_loop _ _ _ _ _ _ _ _) as [[ex le] w'].
        rewrite backoff_provider_state in IH. exact IH.
    + done.
Qed.

Lemma gemini_loop_spec (cfg : GenerationSettings) (api : GeminiApi)
    (model : string) (max_retries : Z) (n attempt : nat)
    (last : option string) (w : World) :
  let '(ex, _, w') := gemini_loop cfg api model max_retries n attempt last w in
  provider_state w' = provider_state w
  /\ match ex with
     | Raised e => exists s, e = EService s /\ fatal_code (code s) = true
     | _ => True
     end.
Proof.
  revert attempt last w. induction n as [|n IH]; intros attempt last w.
  - cbn. done.
  - cbn [gemini_loop].
    destruct (api attempt) as [elapsed [cands us | c body decoded | msg]].
    + done.
    + destruct (gemini_fatal_error c body decoded) as [e|] eqn:Ef.
      * split; [done|]. eapply gemini_fatal_error_code, Ef.
      * match goal with
        | |- context [gemini_loop cfg api model max_retries n ?a ?l ?w0] =>
            specialize (IH a l w0);
            destruct (gemini_loop cfg api model max_retries n a l w0)
              as [[ex le] w']
        end.
        rewrite backoff_provider_state in IH. exact IH.
    + match goal with
      | |- context [gemini_loop cfg api model max_retries n ?a ?l ?w0] =>
          specialize (IH a l w0);
          destruct (gemini_loop cfg api model max_retries n a l w0)
            as [[ex le] w']
      end.
      rewrite backoff_provider_state in IH. exact IH.
Qed.

Lemma fatal_code_not_api_error (c : string) :
  fatal_code c = true -> c <> "API_ERROR".
Proof. intros H ->. discriminate. Qed.

Lemma _call_model_with_retry_breaker (self : Service) (speed : string)
    (w : World) :
  breaker_effect self w (snd (_call_model_with_retry self speed w))
    (fst (_call_model_with_retry self speed w)).
Proof.
  unfold _call_model_with_retry.
  destruct (_check_circuit_state _ _ _) as [[]|e] eqn:Echeck.
  - destruct (String.eqb (provider self) "anthropic");
      [|destruct (String.eqb (provider self) "gemini")].
    + unfold _call_claude_with_retry.
      pose proof (claude_loop_spec (cfg self) (claude self)
        (_resolve_model (cfg self) (provider self) speed)
        (_resolve_retry_count (cfg self) speed)
        (Z.to_nat (_resolve_retry_count (cfg self) speed + 1)) 0 None w) as H.
      destruct (claude_loop _ _ _ _ _ _ _ _) as [[[r|e|] le] w'];
        destruct H as [Hps He]; cbn.
      * by rewrite Hps.
      * destruct He as (s & -> & Hc). right.
        split; [by apply fatal_code_not_api_error | exact Hps].
      * left. split; [reflexivity|]. by rewrite Hps.
    + unfold _call_gemini_with_retry.
      pose proof (gemini_loop_spec (cfg self) (gemini self)
        (_resolve_model (cfg self) (provider self) speed)
        (_resolve_retry_count (cfg self) speed)
        (Z.to_nat (_resolve_retry_count (cfg self) speed + 1)) 0 None w) as H.
      destruct (gemini_loop _ _ _ _ _ _ _ _) as [[[r|e|] le] w'];
        destruct H as [Hps He]; cbn.
      * by rewrite Hps.
      * destruct He as (s & -> & Hc). right.
        split; [by apply fatal_code_not_api_error | exact Hps].
      * left. split; [reflexivity|]. by rewrite Hps.
    + cbn. right. split; [discriminate | reflexivity].
  - unfold _check_circuit_state in Echeck.
    destruct (Qlt_bool _ _); [|discriminate].
    inversion Echeck; subst. cbn. right. split; [discriminate | reflexivity].
Qed.








(* ===================================================================== *)
(** * Properties of the response parser                                   *)
(* ===================================================================== *)

(** C5.  Parsing the round-trip example returns the title "My Title", the
    one source with its title, URL, domain "example.com", [is_verified]
    false and no relevance score, and a markdown body (the title and the
    paragraph) in which "## Sources" does not occur. *)
Theorem parse_sample_response :
  exists p,
    _parse_response sample_response = Ok p
    /\ title p = Some "My Title"
    /\ sources p =
         [VDict [("title", VStr "Example");
                 ("url", VStr "https://www.example.com/a");
                 ("domain", VStr "example.com");
                 ("is_verified", VBool false);
                 ("relevance_score", VNone)]]
    /\ markdown p = "# My Title" ++ Py.nl ++ Py.nl ++ "Body text."
    /\ Py.contains "## Sources" (markdown p) = false.
Proof.
  eexists. split; [vm_compute; reflexivity|].
  repeat split; vm_compute; reflexivity.
Qed.

(** What [urlparse] raises is a [ValueError]. *)
Lemma _check_bracketed_host_raises (hostname : string) (e : exn) :
  Url._check_bracketed_host hostname = Raise e ->
  exists msg, e = EOther "ValueError" msg.
Proof.
  unfold Url._check_bracketed_host, Url.ValueError.
  destruct (Py.startswith "v" hostname).
  - destruct (Url.ipvfuture hostname); intros H; inversion H; eauto.
  - destruct (Url.IPv4Address hostname); [intros H; inversion H; eauto|].
    destruct (Url.IPv6Address hostname); intros H; inversion H; eauto.
Qed.

Lemma _check_bracketed_netloc_raises (loc : string) (e : exn) :
  Url._check_bracketed_netloc loc = Raise e ->
  exists msg, e = EOther "ValueError" msg.
Proof.
  unfold Url._check_bracketed_netloc, Url.ValueError.
  destruct (Url.partition "[" _) as [[before have_open_br] bracketed].
  destruct have_open_br.
  - destruct (Py.truthy before); [intros H; inversion H; eauto|].
    destruct (Url.partition "]" bracketed) as [[hostname sep] port].
    destruct (_ && _); [intros H; inversion H; eauto|].
    apply _check_bracketed_host_raises.
  - destruct (Url.partition ":" _) as [[hostname sep] port].
    apply _check_bracketed_host_raises.
Qed.

Lemma netloc_raises_ValueError (url : string) (e : exn) :
  Url.netloc url = Raise e -> exists msg, e = EOther "ValueError" msg.
Proof.
  unfold Url.netloc, Url.ValueError.
  destruct (_ || _); [intros H; inversion H; eauto|].
  destruct (_ && _); [|discriminate].
  destruct (Url._check_bracketed_netloc _) as [[]|e0] eqn:E; [discriminate|].
  intros H. inversion H; subst. by apply _check_bracketed_netloc_raises in E.
Qed.

Lemma netloc_plain_location (url : string) :
  plain_location url = true -> Url.netloc url = Ok (Url.location url).
Proof.
  unfold plain_location, Url.netloc. intros H.
  apply andb_true_iff in H as [H Hc]. apply andb_true_iff in H as [_ Ho].
  apply negb_true_iff in Ho, Hc. by rewrite Ho, Hc.
Qed.

(** The loop of [_parse_sources] returns exactly when every URL is
    accepted, and otherwise raises what [urlparse] raises. *)
Lemma sources_of_matches_returns (ms : list (string * string)) :
  (exists l, sources_of_matches ms = Ok l)
  <-> forallb url_accepted (map snd ms) = true.
Proof.
  induction ms as [|[t u] ms IH]; cbn [sources_of_matches map snd forallb].
  - split; eauto.
  - unfold url_accepted at 1. destruct (Url.netloc u) as [loc|e].
    + cbn [andb]. rewrite <- IH. split.
      * intros [l H]. destruct (sources_of_matches ms); [eauto | discriminate].
      * intros [l ->]. eauto.
    + split; [intros [l H]; discriminate | discriminate].
Qed.

Lemma sources_of_matches_raises (ms : list (string * string)) (e : exn) :
  sources_of_matches ms = Raise e -> exists msg, e = EOther "ValueError" msg.
Proof.
  induction ms as [|[t u] ms IH]; cbn [sources_of_matches]; [discriminate|].
  destruct (Url.netloc u) as [loc|e0] eqn:Eu.
  - destruct (sources_of_matches ms) as [l|e1]; [discriminate|].
    intros H. inversion H; subst. by apply IH.
  - intros H. inversion H; subst. by apply netloc_raises_ValueError in Eu.
Qed.

Lemma plain_locations_accepted (urls : list string) :
  forallb plain_location urls = true -> forallb url_accepted urls = true.
Proof.
  induction urls as [|u urls IH]; [done|]. cbn [forallb]. intros H.
  apply andb_true_iff in H as [Hu Hs]. rewrite (IH Hs), andb_true_r.
  unfold url_accepted. by rewrite (netloc_plain_location _ Hu).
Qed.

(** C6, the input that refutes it: the citation URL [http://[b] has an
    opening square bracket without its closing one in the host, and
    [urlparse] raises [ValueError], which the parser lets through. *)
Lemma parse_unmatched_bracket_raises :
  _parse_response unmatched_bracket_response
    = Raise (EOther "ValueError" "Invalid IPv6 URL")
  /\ ~ exists p, _parse_response unmatched_bracket_response = Ok p.
Proof.
  assert (H : _parse_response unmatched_bracket_response
              = Raise (EOther "ValueError" "Invalid IPv6 URL"))
    by (vm_compute; reflexivity).
  split; [exact H|]. intros [p Hp]. rewrite H in Hp. discriminate.
Qed.

(** C6, as amended.  The parser raises only what [urlparse] raises: it
    returns exactly when [urlparse] accepts every URL cited in the sources
    section it locates, and otherwise lets the [ValueError] through.  So it
    returns when there is no sources section or no citation, and when the
    network location of every cited URL is ASCII text without a square
    bracket.  When it returns, a missing level-1 heading gives no title, a
    missing sources section gives no sources and the input as the body,
    and a body without headings gives an empty heading list.  On the empty
    string it returns a word count of 0 and no headings. *)
Theorem parse_returns_iff_urlparse_accepts (raw : string) :
  ((exists p, _parse_response raw = Ok p)
   <-> forallb url_accepted (cited_urls raw) = true)
  /\ (forall e, _parse_response raw = Raise e ->
                exists msg, e = EOther "ValueError" msg)
  /\ (forallb plain_location (cited_urls raw) = true ->
      exists p, _parse_response raw = Ok p)
  /\ (forall p,
        _parse_response raw = Ok p ->
        (search fl_multiline title_pattern raw = None -> title p = None)
        /\ (search fl_dotall_ignorecase sources_section_pattern raw = None ->
            sources p = [] /\ markdown p = raw)
        /\ (findall2 fl_multiline heading_pattern (markdown p) = [] ->
            dict_get "heading_count" (structure p) = Some (VInt 0)
            /\ dict_get "headings" (structure p) = Some (VList [])))
  /\ (exists p0,
        _parse_response EmptyString = Ok p0
        /\ title p0 = None
        /\ sources p0 = []
        /\ dict_get "word_count" (structure p0) = Some (VInt 0)
        /\ dict_get "headings" (structure p0) = Some (VList [])).
Proof.
  assert (Hiff : (exists p, _parse_response raw = Ok p)
                 <-> forallb url_accepted (cited_urls raw) = true).
  { unfold _parse_response, cited_urls.
    destruct (search fl_dotall_ignorecase sources_section_pattern raw)
      as [m|]; [|split; eauto].
    unfold _parse_sources. rewrite <- sources_of_matches_returns. split.
    - intros [p H]. destruct (sources_of_matches _); [eauto | discriminate].
    - intros [l ->]. eauto. }
  split; [exact Hiff|]. split; [|split; [|split]].
  - intros e. unfold _parse_response.
    destruct (search fl_dotall_ignorecase sources_section_pattern raw)
      as [m|]; [|discriminate].
    unfold _parse_sources.
    destruct (sources_of_matches _) as [l|e0] eqn:Es; [discriminate|].
    intros H. inversion H; subst. by apply sources_of_matches_raises in Es.
  - intros H. apply Hiff. by apply plain_locations_accepted.
  - intros p. unfold _parse_response.
    destruct (search fl_dotall_ignorecase sources_section_pattern raw)
      as [m|] eqn:Esec.
    + destruct (_parse_sources _) as [l|e]; [|discriminate].
      intros H. inversion H; subst; clear H.
      cbn [title sources markdown structure].
      split; [by intros ->|]. split; [discriminate|].
      intros Hh. unfold _analyze_structure. rewrite Hh. split; reflexivity.
    + intros H. inversion H; subst; clear H.
      cbn [title sources markdown structure].
      split; [by intros ->|]. split; [done|].
      intros Hh. unfold _analyze_structure. rewrite Hh. split; reflexivity.
  - eexists. split; [vm_compute; reflexivity|].
    repeat split; vm_compute; reflexivity.
Qed.

(** The round-trip example has one cited URL, with a plain network
    location. *)
Lemma parse_returns_iff_urlparse_accepts_witness :
  cited_urls sample_response = ["https://www.example.com/a"]
  /\ exists p, _parse_response sample_response = Ok p.
Proof.
  split; [vm_compute; reflexivity|].
  apply (proj1 (proj2 (proj2 (parse_returns_iff_urlparse_accepts
                                sample_response)))).
  vm_compute. reflexivity.
Defined.

(* ===================================================================== *)
(** * Properties of the engagement toggle                                 *)
(* ===================================================================== *)

Section Engagement.
Variables (P : nat) (S : string).

Lemma count_action_cons (a : string) (e : Engagement) (d : Database)
    (n : nat) :
  count_action P a (set_engagements (e :: engagements d) n d) =
  (if Nat.eqb (blog_post_id e) P && String.eqb (action e) a then 1 else 0)
  + count_action P a d.
Proof.
  unfold count_action. cbn [engagements set_engagements List.filter].
  destruct (_ && _); cbn [length]; lia.
Qed.







End Engagement.

Lemma calculate_sentiment_ext (id : nat) (d d' : Database) :
  engagements d' = engagements d ->
  calculate_sentiment id d' = calculate_sentiment id d.
Proof. intros H. unfold calculate_sentiment, count_action. by rewrite H. Qed.


Lemma rows_for_cons (id : nat) (session : string) (e : Engagement)
    (d d' : Database) :
  engagements d' = e :: engagements d ->
  rows_for id session d' =
    if same_pair id session e then e :: rows_for id session d
    else rows_for id session d.
Proof. intros H. unfold rows_for. rewrite H. reflexivity. Qed.

Lemma same_pair_eq (id id' : nat) (session session' : string)
    (e : Engagement) :
  blog_post_id e = id -> session_id e = session ->
  same_pair id' session' e = true -> id' = id /\ session' = session.
Proof.
  intros <- <- H. unfold same_pair in H. apply andb_true_iff in H as [H1 H2].
  apply Nat.eqb_eq in H1. apply String.eqb_eq in H2. by subst.
Qed.

Lemma unique_pairs_cons (id : nat) (session : string) (e : Engagement)
    (d d' : Database) :
  engagements d' = e :: engagements d ->
  blog_post_id e = id -> session_id e = session ->
  rows_for id session d = [] ->
  unique_pairs d -> unique_pairs d'.
Proof.
  intros H Hid Hs Hrows Hu id' session'.
  rewrite (rows_for_cons _ _ _ _ _ H).
  destruct (same_pair id' session' e) eqn:E; [|apply Hu].
  destruct (same_pair_eq _ _ _ _ _ Hid Hs E) as [-> ->].
  rewrite Hrows. cbn. lia.
Qed.





(* ===================================================================== *)
(** * The domain of a citation                                            *)
(* ===================================================================== *)

(** C9, where the code departs from it.  The host of
    [https://ewww.io/docs] does not start with "www.", yet the domain
    stored for it is "eio": [replace('www.', '')] removes the "www." inside
    the host.  [_parse_sources] and [SourceReference.save] agree. *)
Theorem domain_loses_inner_www :
  Url.netloc "https://ewww.io/docs" = Ok "ewww.io"
  /\ Py.startswith "www." "ewww.io" = false
  /\ _parse_sources "- [EWWW](https://ewww.io/docs)"
     = Ok [VDict [("title", VStr "EWWW");
                  ("url", VStr "https://ewww.io/docs");
                  ("domain", VStr "eio");
                  ("is_verified", VBool false);
                  ("relevance_score", VNone)]]
  /\ SourceReference_save "https://ewww.io/docs" EmptyString = Ok "eio".
Proof. repeat split; vm_compute; reflexivity. Qed.

(* ===================================================================== *)
(** * The orchestrator on its failure and success paths                   *)
(* ===================================================================== *)

(** C1, where the code departs from it.  The Gemini key is rejected: the
    call raises AUTH_ERROR, the post created at step 4 is saved with status
    FAILED, and its metadata is still empty: the [except ServiceError]
    clause does not store the error text. *)
Theorem auth_error_fails_post_without_error_text :
  exists e w' p,
    generate_post (gemini_service gemini_key_invalid) renewable_topic
      "technical" [] "fast" initial_world = (Raise (EService e), w')
    /\ code e = "AUTH_ERROR"
    /\ posts (db w') !! 1%nat = Some p
    /\ status p = FAILED
    /\ metadata p = []
    /\ dict_get "error" (metadata p) = None.
Proof.
  eexists. eexists. eexists.
  split; [vm_compute; reflexivity|].
  split; [reflexivity|].
  split; [vm_compute; reflexivity|].
  repeat split.
Qed.

(** The other clause, [except Exception], does store it: when the parser
    raises [ValueError] on the provider's text, the post is FAILED and its
    metadata holds the error text. *)
Lemma parser_error_fails_post_with_error_text :
  exists e w' p,
    generate_post (anthropic_service (claude_answers unmatched_bracket_response))
      renewable_topic "technical" [] "fast" initial_world
      = (Raise (EService e), w')
    /\ message e = "Invalid IPv6 URL"
    /\ posts (db w') !! 1%nat = Some p
    /\ status p = FAILED
    /\ dict_get "error" (metadata p) = Some (VStr "Invalid IPv6 URL").
Proof.
  eexists. eexists. eexists.
  split; [vm_compute; reflexivity|].
  split; [reflexivity|].
  split; [vm_compute; reflexivity|].
  repeat split.
Qed.

(** The structure dictionary has no title entry, whatever the text. *)
Lemma analyze_structure_has_no_title (md : string) :
  dict_get "title" (_analyze_structure md) = None.
Proof. reflexivity. Qed.

(** C2, where the code departs from it.  The provider's text has the
    level-1 heading "My Title" and the parser extracts it, the generation
    completes, and the stored title is still the placeholder:
    [_update_post_with_content] looks the title up in the structure
    dictionary, which never has one. *)
Theorem extracted_title_is_not_persisted :
  exists r w' p parsed,
    generate_post (anthropic_service (claude_answers sample_response))
      renewable_topic "technical" [] "normal" initial_world = (Ok r, w')
    /\ _parse_response sample_response = Ok parsed
    /\ title parsed = Some "My Title"
    /\ posts (db w') !! 1%nat = Some p
    /\ status p = COMPLETED
    /\ post_title p = "Draft: Future of renewable energy...".
Proof.
  eexists. eexists. eexists. eexists.
  split; [vm_compute; reflexivity|].
  split; [vm_compute; reflexivity|].
  split; [reflexivity|].
  split; [vm_compute; reflexivity|].
  repeat split.
Qed.

(* ===================================================================== *)
(** * Properties of the rendered user prompt                              *)
(* ===================================================================== *)

Lemma app_assoc_s (a b c : string) : (a ++ b) ++ c = a ++ (b ++ c).
Proof.
  induction a as [|x a IH]; [done|].
  change (String x ((a ++ b) ++ c) = String x (a ++ (b ++ c))).
  f_equal. exact IH.
Qed.

Lemma app_nil_r_s (a : string) : a ++ EmptyString = a.
Proof.
  induction a as [|x a IH]; [done|].
  change (String x (a ++ EmptyString) = String x a).
  f_equal. exact IH.
Qed.

Lemma for_items_lines (f : string -> string -> result string)
    (ctx : list (string * string)) :
  (forall k v, f k v = Ok (context_line k v)) ->
  Jinja.for_items f ctx = Ok (context_lines ctx).
Proof.
  intros Hf. induction ctx as [|[k v] ctx IH]; [done|].
  cbn [Jinja.for_items context_lines]. by rewrite Hf, IH.
Qed.

Ltac render_steps :=
  lazy [Jinja.render USER_PROMPT_TEMPLATE head_nodes requirement_nodes
        firstn skipn requirements_env
        Jinja.render_node Jinja.lookup String.eqb Ascii.eqb Bool.eqb
        Jinja.show Jinja.truthy negb].

Lemma render_head_text (topic : string) (ctx : list (string * string)) :
  Jinja.render [("topic", Jinja.JStr topic); ("context", Jinja.JItems ctx)]
    head_nodes = Ok (head_text topic ctx).
Proof.
  render_steps.
  erewrite for_items_lines by (intros; reflexivity).
  destruct ctx as [|kv ctx]; cbn [Jinja.cat]; unfold head_text, context_block;
    rewrite ?app_assoc_s, ?app_nil_r_s; reflexivity.
Qed.

Lemma render_requirements_text (mn mx : Z) (style : string) (is_fast : bool) :
  Jinja.render (requirements_env mn mx style is_fast) requirement_nodes
    = Ok (requirements_text mn mx style is_fast).
Proof.
  destruct is_fast; render_steps; cbn [Jinja.cat];
    unfold requirements_text, requirements_rest, length_line;
    rewrite ?app_assoc_s, ?app_nil_r_s; reflexivity.
Qed.

Lemma render_user_prompt_text (st : PromptSettings) (topic : string)
    (persona : Persona) (ctx : list (string * string)) (speed : string) :
  let is_fast := String.eqb speed "fast" in
  _render_user_prompt st topic persona ctx speed =
  Ok (head_text topic ctx ++
      requirements_text
        (if is_fast then FAST_MIN_WORDS st else NORMAL_MIN_WORDS st)
        (if is_fast then FAST_MAX_WORDS st else NORMAL_MAX_WORDS st)
        (style_guidance persona) is_fast).
Proof.
  unfold _render_user_prompt.
  generalize (style_guidance persona) as style. intros style.
  destruct (String.eqb speed "fast"); cbv zeta; render_steps;
    (erewrite for_items_lines by (intros; reflexivity));
    destruct ctx as [|kv ctx]; cbn [Jinja.cat];
    unfold head_text, context_block, requirements_text, requirements_rest,
      length_line;
    rewrite ?app_assoc_s, ?app_nil_r_s; reflexivity.
Qed.

Lemma has_char_app (c : ascii) (a b : string) :
  Py.has_char c (a ++ b) = Py.has_char c a || Py.has_char c b.
Proof.
  induction a as [|x a IH]; [done|].
  change (Ascii.eqb c x || Py.has_char c (a ++ b) =
          (Ascii.eqb c x || Py.has_char c a) || Py.has_char c b).
  rewrite IH. by rewrite orb_assoc.
Qed.

Lemma startswith_has_char (c : ascii) (p s : string) :
  Py.startswith p s = true -> Py.has_char c p = true -> Py.has_char c s = true.
Proof.
  revert s. induction p as [|a p IH]; intros s; [discriminate 2|].
  destruct s as [|b s]; [discriminate|]. cbn [Py.startswith Py.has_char].
  intros H Hc. apply andb_true_iff in H as [Hab Hp].
  apply Ascii.eqb_eq in Hab. subst b.
  apply orb_true_iff in Hc as [Hc|Hc].
  - by rewrite Hc.
  - by rewrite (IH _ Hp Hc), orb_true_r.
Qed.

(** A text without the character [c] contains no needle that has it. *)
Lemma contains_has_char (c : ascii) (needle s : string) :
  Py.has_char c needle = true -> Py.has_char c s = false ->
  Py.contains needle s = false.
Proof.
  intros Hn Hs.
  assert (Hstart : forall t, Py.has_char c t = false ->
                             Py.startswith needle t = false).
  { intros t Ht. destruct (Py.startswith needle t) eqn:E; [|done].
    by rewrite (startswith_has_char c _ _ E Hn) in Ht. }
  induction s as [|x s IH].
  - cbn [Py.contains]. by rewrite (Hstart _ Hs).
  - cbn [Py.contains]. rewrite (Hstart _ Hs). cbn [orb].
    apply IH. cbn [Py.has_char] in Hs. by apply orb_false_iff in Hs as [_ ?].
Qed.

Lemma startswith_app (n b : string) : Py.startswith n (n ++ b) = true.
Proof.
  induction n as [|x n IH]; [done|].
  change (Ascii.eqb x x && Py.startswith n (n ++ b) = true).
  by rewrite Ascii.eqb_refl, IH.
Qed.

Lemma contains_self_app (n b : string) : Py.contains n (n ++ b) = true.
Proof.
  destruct (n ++ b) eqn:E; cbn [Py.contains]; rewrite <- E;
    by rewrite startswith_app.
Qed.

Lemma contains_app_r (n a b : string) :
  Py.contains n b = true -> Py.contains n (a ++ b) = true.
Proof.
  intros H. induction a as [|x a IH]; [exact H|].
  change (Py.contains n (String x (a ++ b)) = true).
  cbn [Py.contains]. by rewrite IH, orb_true_r.
Qed.

Lemma uint_no_quote (u : Decimal.uint) :
  Py.has_char (ascii_of_nat 34) (NilEmpty.string_of_uint u) = false.
Proof. induction u; cbn; done. Qed.

Lemma str_of_Z_no_quote (z : Z) :
  Py.has_char (ascii_of_nat 34) (Py.str_of_Z z) = false.
Proof.
  unfold Py.str_of_Z, NilZero.string_of_int, NilZero.string_of_uint.
  destruct (Z.to_int z) as [u|u]; destruct u; cbn [Py.has_char];
    rewrite ?uint_no_quote; reflexivity.
Qed.

Lemma style_guidance_no_quote (p : Persona) :
  Py.has_char (ascii_of_nat 34) (style_guidance p) = false.
Proof.
  unfold style_guidance.
  repeat match goal with
         | |- context [if ?b then _ else _] => destruct b
         end; vm_compute; reflexivity.
Qed.

Lemma requirements_text_fast_no_quote (mn mx : Z) (p : Persona) :
  Py.has_char (ascii_of_nat 34)
    (requirements_text mn mx (style_guidance p) true) = false.
Proof.
  unfold requirements_text, requirements_rest, length_line.
  rewrite !has_char_app, !str_of_Z_no_quote, style_guidance_no_quote.
  reflexivity.
Qed.

Lemma context_lines_no_quote (ctx : list (string * string)) :
  forallb (fun kv => negb (Py.has_char (ascii_of_nat 34) (fst kv))
                     && negb (Py.has_char (ascii_of_nat 34) (snd kv))) ctx
    = true ->
  Py.has_char (ascii_of_nat 34) (context_lines ctx) = false.
Proof.
  induction ctx as [|[k v] ctx IH]; [done|].
  cbn [forallb fst snd context_lines]. intros H.
  apply andb_true_iff in H as [Hkv Hctx].
  apply andb_true_iff in Hkv as [Hk Hv].
  apply negb_true_iff in Hk, Hv.
  unfold context_line. rewrite !has_char_app, Hk, Hv, (IH Hctx). reflexivity.
Qed.

Lemma head_text_no_quote (topic : string) (ctx : list (string * string)) :
  quote_free topic ctx = true ->
  Py.has_char (ascii_of_nat 34) (head_text topic ctx) = false.
Proof.
  unfold quote_free. intros H. apply andb_true_iff in H as [Ht Hctx].
  apply negb_true_iff in Ht. apply context_lines_no_quote in Hctx.
  unfold head_text, context_block.
  destruct ctx; rewrite !has_char_app, ?Ht, ?Hctx; reflexivity.
Qed.

Lemma requirements_text_length_line (mn mx : Z) (style : string)
    (is_fast : bool) :
  Py.contains (length_line mn mx) (requirements_text mn mx style is_fast)
    = true.
Proof.
  unfold requirements_text. apply contains_app_r, contains_self_app.
Qed.

Lemma requirements_text_directive (mn mx : Z) (style : string) :
  Py.contains sources_directive (requirements_text mn mx style false) = true.
Proof.
  unfold requirements_text.
  lazy beta iota delta [requirements_rest].
  repeat first [apply contains_self_app | apply contains_app_r].
Qed.

(** C8, the input that refutes it: the topic is interpolated as it is, so
    a topic that spells the directive puts it into the fast prompt. *)
Lemma fast_prompt_with_directive_in_topic :
  exists prompt,
    _render_user_prompt default_prompt_settings sources_directive
      technical_persona [] "fast" = Ok prompt
    /\ Py.contains sources_directive prompt = true.
Proof.
  eexists. split; [vm_compute; reflexivity|]. vm_compute. reflexivity.
Qed.

(** C8, as amended.  The rendered prompt is the text of the topic and
    context part of the template followed by the text of its requirements
    part, which the caller's text does not reach.  For [speed = 'fast'] the
    requirements part does not contain the sources directive and the prompt
    asks for the short word range; the whole prompt is free of the
    directive whenever the topic and the context have no double quote.  For
    every other speed the prompt contains the directive and asks for the
    long word range. *)
Theorem user_prompt_by_speed (st : PromptSettings) (topic : string)
    (persona : Persona) (ctx : list (string * string)) (speed : string) :
  let is_fast := String.eqb speed "fast" in
  let mn := if is_fast then FAST_MIN_WORDS st else NORMAL_MIN_WORDS st in
  let mx := if is_fast then FAST_MAX_WORDS st else NORMAL_MAX_WORDS st in
  exists head tail,
    _render_user_prompt st topic persona ctx speed = Ok (head ++ tail)
    /\ Jinja.render
         [("topic", Jinja.JStr topic); ("context", Jinja.JItems ctx)]
         head_nodes = Ok head
    /\ Jinja.render
         (requirements_env mn mx (style_guidance persona) is_fast)
         requirement_nodes = Ok tail
    /\ if is_fast then
         Py.contains sources_directive tail = false
         /\ Py.contains
              (length_line (FAST_MIN_WORDS st) (FAST_MAX_WORDS st))
              (head ++ tail) = true
         /\ (quote_free topic ctx = true ->
             Py.contains sources_directive (head ++ tail) = false)
       else
         Py.contains sources_directive (head ++ tail) = true
         /\ Py.contains
              (length_line (NORMAL_MIN_WORDS st) (NORMAL_MAX_WORDS st))
              (head ++ tail) = true.
Proof.
  intros is_fast mn mx.
  exists (head_text topic ctx),
         (requirements_text mn mx (style_guidance persona) is_fast).
  split; [apply render_user_prompt_text|].
  split; [apply render_head_text|].
  split; [apply render_requirements_text|].
  subst mn mx. destruct is_fast.
  - split; [|split].
    + apply (contains_has_char (ascii_of_nat 34));
        [vm_compute; reflexivity | apply requirements_text_fast_no_quote].
    + apply contains_app_r, requirements_text_length_line.
    + intros Hq. apply (contains_has_char (ascii_of_nat 34));
        [vm_compute; reflexivity|].
      rewrite has_char_app, (head_text_no_quote _ _ Hq),
        requirements_text_fast_no_quote. reflexivity.
  - split.
    + apply contains_app_r, requirements_text_directive.
    + apply contains_app_r, requirements_text_length_line.
Qed.

(** The defaults: a fast prompt asks for 180-260 words and has no
    directive, a normal one asks for 800-1200 words and has it. *)
Lemma user_prompt_by_speed_witness :
  (exists prompt,
     _render_user_prompt default_prompt_settings "Future of AI"
       technical_persona [("audience", "engineers")] "fast" = Ok prompt
     /\ Py.contains "- Length: 180-260 words" prompt = true
     /\ Py.contains sources_directive prompt = false)
  /\ (exists prompt,
        _render_user_prompt default_prompt_settings "Future of AI"
          technical_persona [("audience", "engineers")] "normal" = Ok prompt
        /\ Py.contains "- Length: 800-1200 words" prompt = true
        /\ Py.contains sources_directive prompt = true).
Proof.
  split.
  - destruct (user_prompt_by_speed default_prompt_settings "Future of AI"
                technical_persona [("audience", "engineers")] "fast")
      as (head & tail & Hr & _ & _ & _ & Hl & Hd).
    exists (head ++ tail). split; [exact Hr|]. split; [exact Hl|].
    apply Hd. reflexivity.
  - destruct (user_prompt_by_speed default_prompt_settings "Future of AI"
                technical_persona [("audience", "engineers")] "normal")
      as (head & tail & Hr & _ & _ & Hd & Hl).
    exists (head ++ tail). split; [exact Hr|]. split; [exact Hl | exact Hd].
Defined.

(* ===================================================================== *)
(** * Further properties of the orchestrator                              *)
(* ===================================================================== *)

Lemma backoff_db (cfg : GenerationSettings) (attempt : nat)
    (max_retries : Z) (w : World) :
  db (backoff cfg attempt max_retries w) = db w.
Proof. unfold backoff. by destruct (_ <? _). Qed.

Lemma claude_loop_db (cfg : GenerationSettings) (api : ClaudeApi)
    (model : string) (max_retries : Z) (n attempt : nat)
    (last : option string) (w : World) :
  db (snd (claude_loop cfg api model max_retries n attempt last w)) = db w.
Proof.
  revert attempt last w. induction n as [|n IH]; intros attempt last w;
    [done|].
  cbn [claude_loop].
  destruct (api attempt) as [elapsed [blocks i o | sc msg | msg]]; [done| |done].
  destruct (claude_fatal sc); [done|].
  rewrite IH. by rewrite backoff_db.
Qed.

Lemma gemini_loop_db (cfg : GenerationSettings) (api : GeminiApi)
    (model : string) (max_retries : Z) (n attempt : nat)
    (last : option string) (w : World) :
  db (snd (gemini_loop cfg api model max_retries n attempt last w)) = db w.
Proof.
  revert attempt last w. induction n as [|n IH]; intros attempt last w;
    [done|].
  cbn [gemini_loop].
  destruct (api attempt) as [elapsed [cands us | c body decoded | msg]];
    [done | |].
  - destruct (gemini_fatal_error c body decoded); [done|].
    rewrite IH. by rewrite backoff_db.
  - rewrite IH. by rewrite backoff_db.
Qed.

(** A provider call reads and writes no table. *)
Lemma _call_model_with_retry_db (self : Service) (speed : string) (w : World) :
  db (snd (_call_model_with_retry self speed w)) = db w.
Proof.
  unfold _call_model_with_retry.
  destruct (_check_circuit_state _ _ _); [|done].
  destruct (String.eqb (provider self) "anthropic");
    [|destruct (String.eqb (provider self) "gemini"); [|done]].
  - unfold _call_claude_with_retry.
    pose proof (claude_loop_db (cfg self) (claude self)
      (_resolve_model (cfg self) (provider self) speed)
      (_resolve_retry_count (cfg self) speed)
      (Z.to_nat (_resolve_retry_count (cfg self) speed + 1)) 0 None w) as H.
    destruct (claude_loop _ _ _ _ _ _ _ _) as [[[r|e|] le] w']; exact H.
  - unfold _call_gemini_with_retry.
    pose proof (gemini_loop_db (cfg self) (gemini self)
      (_resolve_model (cfg self) (provider self) speed)
      (_resolve_retry_count (cfg self) speed)
      (Z.to_nat (_resolve_retry_count (cfg self) speed + 1)) 0 None w) as H.
    destruct (gemini_loop _ _ _ _ _ _ _ _) as [[[r|e|] le] w']; exact H.
Qed.

Lemma generate_post_except_raises (topic slug : string)
    (bp : option BlogPost) (e : exn) (w : World) :
  exists s w', generate_post_except topic slug bp e w = (Raise (EService s), w').
Proof.
  unfold generate_post_except, handle_exception, service_error.
  destruct e, bp; eauto.
Qed.


Lemma find_persona_none (slug : string) (ps : list Persona) :
  Forall (fun p => persona_slug p = slug -> is_active p = false) ps ->
  List.find (fun p => String.eqb (persona_slug p) slug && is_active p) ps
    = None.
Proof.
  induction 1 as [|p ps Hp _ IH]; [done|].
  cbn [List.find]. destruct (String.eqb_spec (persona_slug p) slug) as [E|E].
  - rewrite (Hp E). exact IH.
  - exact IH.
Qed.

(** X2.  A topic of fewer than five characters after trimming, a missing
    persona slug, or a slug with no active persona is rejected with
    INVALID_TOPIC, INVALID_PERSONA or PERSONA_NOT_FOUND, in this order of
    precedence, and nothing is written: no post record, no provider
    request, no change of the breaker. *)
Theorem generate_post_rejects_before_creating (self : Service)
    (topic slug : string) (ctx : list (string * string)) (speed : string)
    (w : World) :
  ((String.length (Py.strip topic) < 5)%nat ->
   exists s, generate_post self topic slug ctx speed w = (Raise (EService s), w)
             /\ code s = "INVALID_TOPIC")
  /\ ((5 <= String.length (Py.strip topic))%nat -> slug = EmptyString ->
      exists s, generate_post self topic slug ctx speed w
                = (Raise (EService s), w)
                /\ code s = "INVALID_PERSONA")
  /\ ((5 <= String.length (Py.strip topic))%nat -> slug <> EmptyString ->
      Forall (fun p => persona_slug p = slug -> is_active p = false)
             (personas (db w)) ->
      exists s, generate_post self topic slug ctx speed w
                = (Raise (EService s), w)
                /\ code s = "PERSONA_NOT_FOUND").
Proof.
  assert (Hstrip : (5 <= String.length (Py.strip topic))%nat ->
                   Py.truthy topic = true).
  { intros H. destruct topic; [cbn in H; lia | reflexivity]. }
  unfold generate_post, _validate_generation_input.
  split; [|split].
  - intros Hlen. apply Nat.ltb_lt in Hlen. rewrite Hlen, orb_true_r.
    eexists. split; reflexivity.
  - intros Hlen ->. rewrite (Hstrip Hlen).
    apply Nat.ltb_ge in Hlen. rewrite Hlen. cbn.
    eexists. split; reflexivity.
  - intros Hlen Hslug Hnone. rewrite (Hstrip Hlen).
    apply Nat.ltb_ge in Hlen. rewrite Hlen. cbn [negb orb].
    destruct slug as [|c slug']; [done|]. cbn [Py.truthy negb].
    unfold _get_persona. rewrite (find_persona_none _ _ Hnone).
    eexists. split; reflexivity.
Qed.

Lemma generate_post_rejects_before_creating_witness :
  exists s,
    generate_post (anthropic_service claude_overloaded) "AI" "technical" []
      "fast" initial_world = (Raise (EService s), initial_world)
    /\ code s = "INVALID_TOPIC".
Proof.
  apply (proj1 (generate_post_rejects_before_creating
                  (anthropic_service claude_overloaded) "AI" "technical" []
                  "fast" initial_world)).
  vm_compute. lia.
Defined.

(** What [_update_post_with_content] does when the structure comes from
    [_analyze_structure], as it does in [generate_post]. *)
Lemma _update_post_with_content_analyzed (bp : BlogPost) (md : string)
    (srcs : list value) (meta : dict) (w : World) :
  exists p w',
    _update_post_with_content bp md srcs (_analyze_structure md) meta w
      = (Ok tt, p, w')
    /\ posts (db w') !! post_id bp = Some p
    /\ (forall id, id <> post_id bp ->
                   posts (db w') !! id = posts (db w) !! id)
    /\ next_post_id (db w') = next_post_id (db w)
    /\ engagements (db w') = engagements (db w)
    /\ provider_state w' = provider_state w
    /\ clock w' = clock w
    /\ post_id p = post_id bp
    /\ status p = COMPLETED
    /\ post_title p = post_title bp
    /\ topic_input p = topic_input bp
    /\ raw_prompt p = raw_prompt bp
    /\ generated_content p = md
    /\ post_sources p = srcs
    /\ content_structure p = _analyze_structure md
    /\ metadata p = dict_merge (metadata bp) meta
    /\ published_at p = Some (clock w)
    /\ sentiment_score p = calculate_sentiment (post_id bp) (db w).
Proof.
  eexists. eexists. split; [reflexivity|].
  cbn [db set_db posts save_score save_post update_sentiment_score
       post_id with_score].
  split; [by rewrite lookup_alter_eq, lookup_insert_eq|].
  split.
  { intros id Hid. rewrite lookup_alter_ne by done.
    by rewrite lookup_insert_ne. }
  repeat split.
Qed.

Lemma _parse_response_structure (raw : string) (parsed : ParsedContent) :
  _parse_response raw = Ok parsed ->
  structure parsed = _analyze_structure (markdown parsed).
Proof.
  unfold _parse_response.
  destruct (search fl_dotall_ignorecase sources_section_pattern raw).
  - destruct (_parse_sources _); [|discriminate].
    intros H. inversion H. reflexivity.
  - intros H. inversion H. reflexivity.
Qed.

Lemma _call_model_with_retry_raises_service (self : Service) (speed : string)
    (w w' : World) (e : exn) :
  _call_model_with_retry self speed w = (Raise e, w') ->
  exists s, e = EService s.
Proof.
  intros H. pose proof (_call_model_with_retry_breaker self speed w) as Hb.
  rewrite H in Hb. cbn in Hb. destruct e; [eauto | contradiction].
Qed.

Lemma _call_model_with_retry_success_closes (self : Service) (speed : string)
    (w w' : World) (r : ModelResponse) :
  _call_model_with_retry self speed w = (Ok r, w') ->
  state_of (provider self) (provider_state w') = closed_state.
Proof.
  intros H. pose proof (_call_model_with_retry_breaker self speed w) as Hb.
  rewrite H in Hb. cbn in Hb. rewrite Hb. apply state_of_record_success.
Qed.

(** What a generation that returns leaves behind. *)
Lemma generate_post_success_shape (self : Service)
    (topic slug : string) (ctx : list (string * string)) (speed : string)
    (w w' : World) (r : GenerationResult) :
  generate_post self topic slug ctx speed w = (Ok r, w') ->
  exists p persona,
    posts (db w') !! next_post_id (db w) = Some p
    /\ result_blog_post_id r = next_post_id (db w)
    /\ next_post_id (db w') = S (next_post_id (db w))
    /\ (forall id, id <> next_post_id (db w) ->
                   posts (db w') !! id = posts (db w) !! id)
    /\ engagements (db w') = engagements (db w)
    /\ status p = COMPLETED
    /\ topic_input p = topic
    /\ _get_persona slug (db w) = Ok persona
    /\ _render_user_prompt (prompt_cfg self) topic persona ctx speed
       = Ok (raw_prompt p)
    /\ generated_content p = result_content r
    /\ post_sources p = result_sources r
    /\ metadata p = result_metadata r
    /\ content_structure p = _analyze_structure (result_content r)
    /\ post_title p = "Draft: " ++ Py.take 50 topic ++ "..."
    /\ sentiment_score p = calculate_sentiment (next_post_id (db w)) (db w)
    /\ (exists t, published_at p = Some t)
    /\ state_of (provider self) (provider_state w') = closed_state.
Proof.
  intros Hrun. unfold generate_post in Hrun.
  assert (Hex : forall bp e w0,
             generate_post_except topic slug bp e w0 <> (Ok r, w')).
  { intros bp e w0.
    destruct (generate_post_except_raises topic slug bp e w0)
      as (s & w1 & ->). discriminate. }
  destruct (_validate_generation_input topic slug) as [[]|e];
    [|by apply Hex in Hrun].
  destruct (_get_persona slug (db w)) as [persona|e] eqn:Hpersona;
    [|by apply Hex in Hrun].
  unfold build_generation_prompt in Hrun.
  pose proof (render_user_prompt_text (prompt_cfg self) topic persona ctx
                speed) as Hprompt. cbv zeta in Hprompt.
  rewrite Hprompt in Hrun.
  match type of Hrun with
  | context [_create_post_record ?t ?pe ?pr ?d] =>
      set (prompt := pr) in *;
      destruct (_create_post_record t pe prompt d) as [bp d1] eqn:Ecreate
  end.
  unfold _create_post_record in Ecreate. inversion Ecreate as [[Hbp Hd1]].
  clear Ecreate.
  destruct (_call_model_with_retry self speed (set_db d1 w))
    as [[resp|e] w2] eqn:Ecall; [|by apply Hex in Hrun].
  pose proof (_call_model_with_retry_db self speed (set_db d1 w)) as Hdb.
  rewrite Ecall in Hdb. cbn [snd db set_db] in Hdb.
  pose proof (_call_model_with_retry_success_closes _ _ _ _ _ Ecall) as Hcl.
  destruct (_parse_response (content resp)) as [parsed|e] eqn:Eparse;
    [|by apply Hex in Hrun].
  rewrite (_parse_response_structure _ _ Eparse) in Hrun.
  destruct (_update_post_with_content_analyzed bp (markdown parsed)
              (sources parsed) (usage resp) w2)
    as (p & w3 & Eupd & Hlook & Hother & Hnext & Heng & Hps & Hclock & Hid
        & Hst & Htitle & Htopic & Hraw & Hcontent & Hsrc & Hstruct & Hmeta
        & Hpub & Hscore).
  rewrite Eupd in Hrun. inversion Hrun; subst r w'. clear Hrun.
  cbn [result_blog_post_id result_content result_sources result_metadata].
  rewrite Hdb in *. subst bp d1.
  cbn [post_id post_title topic_input raw_prompt posts next_post_id
       engagements metadata] in *.
  exists p, persona.
  split; [exact Hlook|]. split; [exact Hid|]. split; [exact Hnext|].
  split.
  { intros id Hne. rewrite (Hother id Hne). by rewrite lookup_insert_ne. }
  split; [exact Heng|]. split; [exact Hst|]. split; [exact Htopic|].
  split; [reflexivity|].
  split; [by rewrite Hraw|].
  split; [exact Hcontent|]. split; [exact Hsrc|]. split; [reflexivity|].
  split; [exact Hstruct|]. split; [exact Htitle|].
  split.
  { rewrite Hscore. apply calculate_sentiment_ext. reflexivity. }
  split; [eauto|]. by rewrite Hps.
Qed.

(** X3.  A generation that returns has created exactly the post with the
    next free id and completed it: the stored body, sources, structure and
    metadata are those of the result, the prompt stored is the rendered user
    prompt, the title is the placeholder built from the topic, the score is
    likes minus dislikes, the publish time is set, and the breaker of the
    provider is closed.  No other post is touched. *)
Theorem generate_post_success_postconditions (self : Service)
    (topic slug : string) (ctx : list (string * string)) (speed : string)
    (w w' : World) (r : GenerationResult) :
  generate_post self topic slug ctx speed w = (Ok r, w') ->
  exists p persona,
    posts (db w') !! next_post_id (db w) = Some p
    /\ result_blog_post_id r = next_post_id (db w)
    /\ next_post_id (db w') = S (next_post_id (db w))
    /\ (forall id, id <> next_post_id (db w) ->
                   posts (db w') !! id = posts (db w) !! id)
    /\ engagements (db w') = engagements (db w)
    /\ status p = COMPLETED
    /\ topic_input p = topic
    /\ _get_persona slug (db w) = Ok persona
    /\ _render_user_prompt (prompt_cfg self) topic persona ctx speed
       = Ok (raw_prompt p)
    /\ generated_content p = result_content r
    /\ post_sources p = result_sources r
    /\ metadata p = result_metadata r
    /\ content_structure p = _analyze_structure (result_content r)
    /\ post_title p = "Draft: " ++ Py.take 50 topic ++ "..."
    /\ sentiment_score p = calculate_sentiment (next_post_id (db w)) (db w)
    /\ (exists t, published_at p = Some t)
    /\ state_of (provider self) (provider_state w') = closed_state.
Proof. apply generate_post_success_shape. Qed.

(** The round-trip example through the Anthropic stub. *)
Lemma generate_post_success_postconditions_witness :
  exists p,
    posts (db (snd (generate_post
                      (anthropic_service (claude_answers sample_response))
                      renewable_topic "technical" [] "normal"
                      initial_world))) !! 1%nat = Some p
    /\ status p = COMPLETED.
Proof.
  destruct (generate_post_success_postconditions
              (anthropic_service (claude_answers sample_response))
              renewable_topic "technical" [] "normal" initial_world _ _
              ltac:(vm_compute; reflexivity))
    as (p & persona & Hp & _ & _ & _ & _ & Hs & _).
  exists p. split; [exact Hp | exact Hs].
Defined.

(** What the [except] clauses store when the post record exists. *)
Lemma generate_post_except_created (topic slug : string) (bp : BlogPost)
    (e : exn) (w w' : World) (e' : exn) :
  generate_post_except topic slug (Some bp) e w = (Raise e', w') ->
  exists p s,
    e' = EService s
    /\ message s = str_exn e
    /\ posts (db w') !! post_id bp = Some p
    /\ (forall id, id <> post_id bp ->
                   posts (db w') !! id = posts (db w) !! id)
    /\ next_post_id (db w') = next_post_id (db w)
    /\ engagements (db w') = engagements (db w)
    /\ status p = FAILED
    /\ post_title p = post_title bp
    /\ topic_input p = topic_input bp
    /\ generated_content p = generated_content bp
    /\ match e with
       | EService _ => metadata p = metadata bp
       | EOther _ _ =>
           metadata p = dict_set "error" (VStr (str_exn e)) (metadata bp)
       end.
Proof.
  unfold generate_post_except. destruct e as [s|cls msg]; intros H;
    inversion H; subst; clear H;
    cbn [db set_db posts save_post post_id with_status_metadata
         next_post_id engagements];
    eexists; eexists; (split; [reflexivity|]); (split; [reflexivity|]);
    (split; [by rewrite lookup_insert_eq|]);
    (split; [by intros id Hne; rewrite lookup_insert_ne|]);
    repeat split.
Qed.

(** X4.  Let the inputs pass validation, the persona exist and the
    request be storable, and let the provider call or the parser raise.
    When [generate_post] then hands a [ServiceError] to its caller, it has
    created exactly the post with the next free id and left it FAILED, with
    the placeholder title and no generated body, and no other post is
    touched.  The error handed on has the text of the error raised: a
    [ServiceError] is passed on as it is and the metadata of the post stays
    empty; any other error is wrapped with code SERVICE_ERROR and its text
    is stored under "error". *)
Theorem generate_post_failure_marks_failed (self : Service)
    (topic slug : string) (ctx : list (string * string)) (speed : string)
    (w w' : World) (s : ServiceError) (persona : Persona) (e0 : exn) :
  _validate_generation_input topic slug = Ok tt ->
  _get_persona slug (db w) = Ok persona ->
  storable topic ctx = true ->
  provider_or_parser_error self topic persona ctx speed w = Some e0 ->
  generate_post self topic slug ctx speed w = (Raise (EService s), w') ->
  exists p,
    posts (db w') !! next_post_id (db w) = Some p
    /\ next_post_id (db w') = S (next_post_id (db w))
    /\ (forall id, id <> next_post_id (db w) ->
                   posts (db w') !! id = posts (db w) !! id)
    /\ engagements (db w') = engagements (db w)
    /\ status p = FAILED
    /\ topic_input p = topic
    /\ post_title p = "Draft: " ++ Py.take 50 topic ++ "..."
    /\ generated_content p = EmptyString
    /\ message s = str_exn e0
    /\ match e0 with
       | EService s0 => s = s0 /\ metadata p = []
       | EOther _ _ =>
           code s = "SERVICE_ERROR"
           /\ metadata p = [("error", VStr (str_exn e0))]
       end.
Proof.
  intros Hval Hpersona _ Hsite Hrun. unfold generate_post in Hrun.
  rewrite Hval, Hpersona in Hrun.
  unfold provider_or_parser_error in Hsite.
  unfold build_generation_prompt in Hrun, Hsite.
  pose proof (render_user_prompt_text (prompt_cfg self) topic persona ctx
                speed) as Hprompt. cbv zeta in Hprompt.
  rewrite Hprompt in Hrun, Hsite.
  match type of Hrun with
  | context [_create_post_record ?t ?pe ?pr ?d] =>
      set (prompt := pr) in *;
      destruct (_create_post_record t pe prompt d) as [bp d1] eqn:Ecreate
  end.
  unfold _create_post_record in Ecreate. inversion Ecreate as [[Hbp Hd1]].
  clear Ecreate.
  assert (Hfinish : forall w2,
            db w2 = d1 ->
            generate_post_except topic slug (Some bp) e0 w2
              = (Raise (EService s), w') ->
            exists p,
              posts (db w') !! next_post_id (db w) = Some p
              /\ next_post_id (db w') = S (next_post_id (db w))
              /\ (forall id, id <> next_post_id (db w) ->
                             posts (db w') !! id = posts (db w) !! id)
              /\ engagements (db w') = engagements (db w)
              /\ status p = FAILED
              /\ topic_input p = topic
              /\ post_title p = "Draft: " ++ Py.take 50 topic ++ "..."
              /\ generated_content p = EmptyString
              /\ message s = str_exn e0
              /\ match e0 with
                 | EService s0 => s = s0 /\ metadata p = []
                 | EOther _ _ =>
                     code s = "SERVICE_ERROR"
                     /\ metadata p = [("error", VStr (str_exn e0))]
                 end).
  { intros w2 Hdb Hex.
    pose proof Hex as Hex'.
    apply generate_post_except_created in Hex
      as (p & s1 & Hs & Hmsg & Hlook & Hother & Hnext & Heng & Hst & Htitle
          & Htopic & Hcontent & Hmeta).
    inversion Hs; subst s1. clear Hs.
    rewrite Hdb in *. subst bp d1.
    cbn [post_id post_title topic_input generated_content metadata posts
         next_post_id engagements] in *.
    exists p. split; [exact Hlook|]. split; [exact Hnext|].
    split.
    { intros id Hne. rewrite (Hother id Hne). by rewrite lookup_insert_ne. }
    split; [exact Heng|]. split; [exact Hst|]. split; [exact Htopic|].
    split; [exact Htitle|]. split; [exact Hcontent|].
    split; [exact Hmsg|].
    destruct e0 as [s0|cls msg].
    - unfold generate_post_except in Hex'. inversion Hex'; subst.
      split; [reflexivity | exact Hmeta].
    - unfold generate_post_except, handle_exception, service_error in Hex'.
      inversion Hex'; subst. split; [reflexivity | exact Hmeta]. }
  destruct (_call_model_with_retry self speed (set_db d1 w))
    as [[resp|e1] w2] eqn:Ecall.
  - pose proof (_call_model_with_retry_db self speed (set_db d1 w)) as Hdb.
    rewrite Ecall in Hdb. cbn [snd db set_db] in Hdb.
    destruct (_parse_response (content resp)) as [parsed|e1] eqn:Eparse;
      [discriminate|].
    inversion Hsite; subst e1. by apply (Hfinish w2).
  - pose proof (_call_model_with_retry_db self speed (set_db d1 w)) as Hdb.
    rewrite Ecall in Hdb. cbn [snd db set_db] in Hdb.
    inversion Hsite; subst e1. by apply (Hfinish w2).
Qed.

(** The overloaded Anthropic stub in normal mode. *)
Lemma generate_post_failure_marks_failed_witness :
  exists p,
    posts (db (snd (generate_post (anthropic_service claude_overloaded)
                      renewable_topic "technical" [] "normal"
                      initial_world))) !! 1%nat = Some p
    /\ status p = FAILED
    /\ metadata p = [].
Proof.
  destruct (generate_post (anthropic_service claude_overloaded)
              renewable_topic "technical" [] "normal" initial_world)
    as [[r|[s|cls msg]] w'] eqn:Erun;
    [vm_compute in Erun; discriminate | | vm_compute in Erun; discriminate].
  assert (Hsite : exists s0,
             provider_or_parser_error (anthropic_service claude_overloaded)
               renewable_topic technical_persona [] "normal" initial_world
             = Some (EService s0)) by (vm_compute; eauto).
  destruct Hsite as [s0 Hsite].
  destruct (generate_post_failure_marks_failed
              (anthropic_service claude_overloaded)
              renewable_topic "technical" [] "normal" initial_world w' s
              technical_persona (EService s0)
              ltac:(vm_compute; reflexivity) eq_refl eq_refl Hsite Erun)
    as (p & Hp & _ & _ & _ & Hs & _ & _ & _ & _ & _ & Hm).
  exists p. cbn [snd]. split; [exact Hp|]. split; [exact Hs | exact Hm].
Defined.

(* ===================================================================== *)
(** * Further properties of the breaker and the retry loops               *)
(* ===================================================================== *)

Lemma open_breaker_closed_form (self : Service) (speed : string)
    (w : World) :
  (clock w < open_until (state_of (provider self) (provider_state w)))%Q ->
  exists s n,
    _call_model_with_retry self speed w = (Raise (EService s), w)
    /\ code s = "PROVIDER_UNAVAILABLE"
    /\ dict_get "retry_after_seconds" (details s) = Some (VInt n)
    /\ 1 <= n.
Proof.
  intros Hopen. unfold _call_model_with_retry, _check_circuit_state.
  apply Qlt_bool_true in Hopen. rewrite Hopen.
  eexists. eexists. split; [reflexivity|]. split; [reflexivity|].
  split; [reflexivity|]. lia.
Qed.

(** X5.  While the breaker of the provider is open, a provider call raises
    PROVIDER_UNAVAILABLE with a retry-after estimate of at least one second
    and does nothing else: no request, no sleep, no change of the store or
    of the breaker. *)
Theorem open_breaker_makes_no_request (self : Service) (speed : string)
    (w : World) :
  (clock w < open_until (state_of (provider self) (provider_state w)))%Q ->
  exists s n,
    _call_model_with_retry self speed w = (Raise (EService s), w)
    /\ code s = "PROVIDER_UNAVAILABLE"
    /\ dict_get "retry_after_seconds" (details s) = Some (VInt n)
    /\ 1 <= n.
Proof. apply open_breaker_closed_form. Qed.

Lemma open_breaker_makes_no_request_witness :
  exists s,
    _call_model_with_retry (anthropic_service claude_overloaded) "fast"
      (set_provider_state
         {[ "anthropic" := {| failures := 3; open_until := 1030 |} ]}
         initial_world)
    = (Raise (EService s),
       set_provider_state
         {[ "anthropic" := {| failures := 3; open_until := 1030 |} ]}
         initial_world)
    /\ code s = "PROVIDER_UNAVAILABLE".
Proof.
  destruct (open_breaker_makes_no_request
              (anthropic_service claude_overloaded) "fast"
              (set_provider_state
                 {[ "anthropic" := {| failures := 3; open_until := 1030 |} ]}
                 initial_world))
    as (s & n & Hr & Hc & _).
  - vm_compute. reflexivity.
  - exists s. split; [exact Hr | exact Hc].
Defined.

(** X6.  A provider call that ends with API_ERROR counts one failure.
    When that failure reaches the threshold (and the cool-off is positive),
    the breaker is open from that moment: the next call at the same clock
    reading makes no request and raises PROVIDER_UNAVAILABLE. *)
Theorem exhausted_call_opens_breaker (self : Service) (speed speed' : string)
    (w w' : World) (s : ServiceError) :
  _call_model_with_retry self speed w = (Raise (EService s), w') ->
  code s = "API_ERROR" ->
  failures (state_of (provider self) (provider_state w'))
    = failures (state_of (provider self) (provider_state w)) + 1
  /\ (CIRCUIT_FAILURE_THRESHOLD (cfg self)
        <= failures (state_of (provider self) (provider_state w)) + 1 ->
      0 < CIRCUIT_COOL_OFF_SECONDS (cfg self) ->
      exists s',
        _call_model_with_retry self speed' w' = (Raise (EService s'), w')
        /\ code s' = "PROVIDER_UNAVAILABLE").
Proof.
  intros Hrun Hcode.
  pose proof (_call_model_with_retry_breaker self speed w) as Hb.
  rewrite Hrun in Hb. cbn in Hb.
  destruct Hb as [[_ Hps] | [Hne _]]; [|congruence].
  split; [by rewrite Hps, state_of_record_failure|].
  intros Hth Hcool.
  assert (Hstate : state_of (provider self) (provider_state w') =
            {| failures :=
                 failures (state_of (provider self) (provider_state w)) + 1;
               open_until :=
                 (clock w' +
                  inject_Z (CIRCUIT_COOL_OFF_SECONDS (cfg self)))%Q |}).
  { rewrite Hps, state_of_record_failure.
    destruct (Z.leb_spec (CIRCUIT_FAILURE_THRESHOLD (cfg self))
                (failures (state_of (provider self) (provider_state w)) + 1));
      [reflexivity | lia]. }
  destruct (open_breaker_closed_form self speed' w') as (s' & n & H & Hc & _).
  - rewrite Hstate. cbn [open_until].
    rewrite <- (Qplus_0_r (clock w')) at 1.
    apply Qplus_lt_r. change 0%Q with (inject_Z 0). rewrite <- Zlt_Qlt. lia.
  - eauto.
Qed.

(** Two earlier failures and a third exhausted call. *)
Lemma exhausted_call_opens_breaker_witness :
  exists s' w',
    _call_model_with_retry (anthropic_service claude_overloaded) "fast" w'
      = (Raise (EService s'), w')
    /\ code s' = "PROVIDER_UNAVAILABLE"
    /\ failures (state_of "anthropic" (provider_state w')) = 3.
Proof.
  destruct (exhausted_call_opens_breaker
              (anthropic_service claude_overloaded) "fast" "fast"
              two_failures_world _ _
              ltac:(vm_compute; reflexivity) eq_refl)
    as (Hf & Hopen).
  destruct Hopen as (s' & Hr & Hc);
    [vm_compute; discriminate | reflexivity |].
  eexists. eexists. split; [exact Hr|]. split; [exact Hc | exact Hf].
Defined.

Lemma backoff_requests (cfg : GenerationSettings) (attempt : nat)
    (max_retries : Z) (w : World) :
  requests (backoff cfg attempt max_retries w) = requests w.
Proof. unfold backoff. by destruct (_ <? _). Qed.

Lemma backoff_sleeps (cfg : GenerationSettings) (attempt : nat)
    (max_retries : Z) (w : World) :
  sleeps (backoff cfg attempt max_retries w) =
  if Z.of_nat attempt <? max_retries then S (sleeps w) else sleeps w.
Proof. unfold backoff. by destruct (_ <? _). Qed.

(** With [n] iterations left the loop makes at most [n] requests and, as
    the last iteration never sleeps, at most [n - 1] sleeps. *)
Lemma claude_loop_bounds (cfg : GenerationSettings) (api : ClaudeApi)
    (model : string) (max_retries : Z) (n attempt : nat)
    (last : option string) (w : World) :
  Z.of_nat n + Z.of_nat attempt = max_retries + 1 ->
  let w' := snd (claude_loop cfg api model max_retries n attempt last w) in
  (requests w <= requests w' <= requests w + n)%nat
  /\ (sleeps w <= sleeps w' <= sleeps w + (n - 1))%nat.
Proof.
  revert attempt last w. induction n as [|n IH]; intros attempt last w Hn.
  - cbn. lia.
  - cbn [claude_loop].
    destruct (api attempt) as [elapsed [blocks i o | sc msg | msg]];
      cbn [snd]; try (unfold requests, sleeps; cbn; lia).
    destruct (claude_fatal sc); [unfold requests, sleeps; cbn; lia|].
    match goal with
    | |- context [claude_loop cfg api model max_retries n ?a ?l ?w0] =>
        specialize (IH a l w0)
    end.
    cbv zeta in IH. destruct IH as [Hr Hs]; [lia|].
    rewrite backoff_requests, backoff_sleeps in *.
    assert (Hreq : requests (advance elapsed
                     (emit (EvCall "anthropic" attempt) w)) = S (requests w))
      by reflexivity.
    assert (Hsl : sleeps (advance elapsed
                    (emit (EvCall "anthropic" attempt) w)) = sleeps w)
      by reflexivity.
    rewrite Hreq, Hsl in *.
    destruct (Z.ltb_spec (Z.of_nat attempt) max_retries); lia.
Qed.

Lemma gemini_loop_bounds (cfg : GenerationSettings) (api : GeminiApi)
    (model : string) (max_retries : Z) (n attempt : nat)
    (last : option string) (w : World) :
  Z.of_nat n + Z.of_nat attempt = max_retries + 1 ->
  let w' := snd (gemini_loop cfg api model max_retries n attempt last w) in
  (requests w <= requests w' <= requests w + n)%nat
  /\ (sleeps w <= sleeps w' <= sleeps w + (n - 1))%nat.
Proof.
  revert attempt last w. induction n as [|n IH]; intros attempt last w Hn.
  - cbn. lia.
  - cbn [gemini_loop].
    assert (Hreq : forall elapsed,
              requests (advance elapsed (emit (EvCall "gemini" attempt) w))
              = S (requests w)) by reflexivity.
    assert (Hsl : forall elapsed,
              sleeps (advance elapsed (emit (EvCall "gemini" attempt) w))
              = sleeps w) by reflexivity.
    destruct (api attempt) as [elapsed [cands us | c body decoded | msg]];
      cbn [snd]; try (unfold requests, sleeps; cbn; lia).
    + destruct (gemini_fatal_error c body decoded);
        [unfold requests, sleeps; cbn; lia|].
      match goal with
      | |- context [gemini_loop cfg api model max_retries n ?a ?l ?w0] =>
          specialize (IH a l w0)
      end.
      cbv zeta in IH. destruct IH as [Hr Hs]; [lia|].
      rewrite backoff_requests, backoff_sleeps, Hreq, Hsl in *.
      destruct (Z.ltb_spec (Z.of_nat attempt) max_retries); lia.
    + match goal with
      | |- context [gemini_loop cfg api model max_retries n ?a ?l ?w0] =>
          specialize (IH a l w0)
      end.
      cbv zeta in IH. destruct IH as [Hr Hs]; [lia|].
      rewrite backoff_requests, backoff_sleeps, Hreq, Hsl in *.
      destruct (Z.ltb_spec (Z.of_nat attempt) max_retries); lia.
Qed.

Lemma call_loop_bounds_nonneg (max_retries : Z) (n : nat) (r r' s s' : nat) :
  n = Z.to_nat (max_retries + 1) ->
  (r <= r' <= r + n)%nat /\ (s <= s' <= s + (n - 1))%nat ->
  (r <= r' <= r + Z.to_nat (max_retries + 1))%nat
  /\ (s <= s' <= s + Z.to_nat max_retries)%nat.
Proof. lia. Qed.

Lemma _call_claude_with_retry_bounds (cfg : GenerationSettings)
    (p : string) (api : ClaudeApi) (model : string) (max_retries : Z)
    (w : World) :
  let w' := snd (_call_claude_with_retry cfg p api model max_retries w) in
  (requests w <= requests w' <= requests w + Z.to_nat (max_retries + 1))%nat
  /\ (sleeps w <= sleeps w' <= sleeps w + Z.to_nat max_retries)%nat.
Proof.
  cbv zeta. unfold _call_claude_with_retry.
  destruct (Z.le_gt_cases 0 (max_retries + 1)) as [Hge|Hlt].
  - pose proof (claude_loop_bounds cfg api model max_retries
                  (Z.to_nat (max_retries + 1)) 0 None w ltac:(lia)) as H.
    cbv zeta in H.
    destruct (claude_loop _ _ _ _ _ _ _ _) as [[[r|e|] le] w'];
      cbn [snd] in *; apply (call_loop_bounds_nonneg max_retries _ _ _ _ _
                               eq_refl H).
  - replace (Z.to_nat (max_retries + 1)) with 0%nat by lia.
    replace (Z.to_nat max_retries) with 0%nat by lia.
    unfold requests, sleeps. cbn [claude_loop gemini_loop snd
      record_failure_now set_provider_state trace]. lia.
Qed.

Lemma _call_gemini_with_retry_bounds (cfg : GenerationSettings)
    (p : string) (api : GeminiApi) (model : string) (max_retries : Z)
    (w : World) :
  let w' := snd (_call_gemini_with_retry cfg p api model max_retries w) in
  (requests w <= requests w' <= requests w + Z.to_nat (max_retries + 1))%nat
  /\ (sleeps w <= sleeps w' <= sleeps w + Z.to_nat max_retries)%nat.
Proof.
  cbv zeta. unfold _call_gemini_with_retry.
  destruct (Z.le_gt_cases 0 (max_retries + 1)) as [Hge|Hlt].
  - pose proof (gemini_loop_bounds cfg api model max_retries
                  (Z.to_nat (max_retries + 1)) 0 None w ltac:(lia)) as H.
    cbv zeta in H.
    destruct (gemini_loop _ _ _ _ _ _ _ _) as [[[r|e|] le] w'];
      cbn [snd] in *; apply (call_loop_bounds_nonneg max_retries _ _ _ _ _
                               eq_refl H).
  - replace (Z.to_nat (max_retries + 1)) with 0%nat by lia.
    replace (Z.to_nat max_retries) with 0%nat by lia.
    unfold requests, sleeps. cbn [claude_loop gemini_loop snd
      record_failure_now set_provider_state trace]. lia.
Qed.

(** X7.  Whatever the provider answers, a provider call makes at most
    [max_retries + 1] requests and sleeps at most [max_retries] times,
    where [max_retries] is [MAX_RETRIES] in normal mode and 0 in fast
    mode: a fast call makes at most one request and never sleeps. *)
Theorem provider_call_is_bounded (self : Service) (speed : string)
    (w : World) :
  let w' := snd (_call_model_with_retry self speed w) in
  let max_retries := _resolve_retry_count (cfg self) speed in
  (requests w <= requests w' <= requests w + Z.to_nat (max_retries + 1))%nat
  /\ (sleeps w <= sleeps w' <= sleeps w + Z.to_nat max_retries)%nat
  /\ (speed = "fast" ->
      (requests w' <= requests w + 1)%nat /\ sleeps w' = sleeps w).
Proof.
  cbv zeta.
  assert (Hmain :
    (requests w <= requests (snd (_call_model_with_retry self speed w))
       <= requests w + Z.to_nat (_resolve_retry_count (cfg self) speed + 1))%nat
    /\ (sleeps w <= sleeps (snd (_call_model_with_retry self speed w))
          <= sleeps w + Z.to_nat (_resolve_retry_count (cfg self) speed))%nat).
  { unfold _call_model_with_retry.
    destruct (_check_circuit_state _ _ _); [|cbn; lia].
    destruct (String.eqb (provider self) "anthropic");
      [|destruct (String.eqb (provider self) "gemini"); [|cbn; lia]].
    - pose proof (_call_claude_with_retry_bounds (cfg self) (provider self)
        (claude self) (_resolve_model (cfg self) (provider self) speed)
        (_resolve_retry_count (cfg self) speed) w) as H.
      cbv zeta in H.
      destruct (_call_claude_with_retry _ _ _ _ _ _) as [[r|e] w'];
        exact H.
    - pose proof (_call_gemini_with_retry_bounds (cfg self) (provider self)
        (gemini self) (_resolve_model (cfg self) (provider self) speed)
        (_resolve_retry_count (cfg self) speed) w) as H.
      cbv zeta in H.
      destruct (_call_gemini_with_retry _ _ _ _ _ _) as [[r|e] w'];
        exact H. }
  destruct Hmain as [Hr Hs]. split; [exact Hr|]. split; [exact Hs|].
  intros ->. unfold _resolve_retry_count in *. cbn in Hr, Hs. lia.
Qed.

(** A fast call to a provider that is overloaded: one request, no sleep. *)
Lemma provider_call_is_bounded_witness :
  (requests (snd (_call_model_with_retry
                    (anthropic_service claude_overloaded) "fast"
                    initial_world))
   <= requests initial_world + 1)%nat
  /\ sleeps (snd (_call_model_with_retry
                    (anthropic_service claude_overloaded) "fast"
                    initial_world))
     = sleeps initial_world.
Proof.
  apply (proj2 (proj2 (provider_call_is_bounded
                         (anthropic_service claude_overloaded) "fast"
                         initial_world))).
  reflexivity.
Defined.

(** X8.  In the Anthropic call an exception that is not an
    [AnthropicError] leaves the loop at once: one request, no sleep and no
    retry whatever [max_retries] is, the [ServiceError] with code
    API_ERROR whose details hold the text of the exception under
    "last_error", and one failure counted by the breaker.  The
    Gemini call retries such an exception like a server error. *)
Theorem unexpected_exception_stops_anthropic_only
    (cfg : GenerationSettings) (p model : string) (w : World)
    (max_retries : Z) (elapsed : Q) (msg : string) :
  0 <= max_retries ->
  (forall api : ClaudeApi,
     api 0%nat = (elapsed, ClaudeException msg) ->
     exists s w',
       _call_claude_with_retry cfg p api model max_retries w
         = (Raise (EService s), w')
       /\ code s = "API_ERROR"
       /\ dict_get "last_error" (details s) = Some (VStr msg)
       /\ trace w' = EvCall "anthropic" 0 :: trace w
       /\ provider_state w' =
            _record_failure cfg p (clock w') (provider_state w))
  /\ (forall api : GeminiApi,
        1 <= max_retries ->
        api 0%nat = (elapsed, GeminiException msg) ->
        In (EvCall "gemini" 1)
           (trace (snd (_call_gemini_with_retry cfg p api model
                          max_retries w)))).
Proof.
  intros Hge. split.
  - intros api H0. unfold _call_claude_with_retry.
    destruct (Z.to_nat (max_retries + 1)) as [|n] eqn:En; [lia|].
    cbn [claude_loop]. rewrite H0.
    eexists. eexists. repeat split; reflexivity.
  - intros api H1 H0. unfold _call_gemini_with_retry.
    destruct (Z.to_nat (max_retries + 1)) as [|[|n]] eqn:En; [lia | lia |].
    cbn [gemini_loop]. rewrite H0.
    assert (Hin : forall (n0 a : nat) (l0 : option string) (w0 : World),
               In (EvCall "gemini" 1) (trace w0) ->
               In (EvCall "gemini" 1)
                 (trace (snd (gemini_loop cfg api model max_retries n0 a l0
                                w0)))).
    { intros n0. induction n0 as [|n0 IH]; intros a l0 w0 Hw0;
        [exact Hw0|].
      cbn [gemini_loop].
      destruct (api a) as [el [cands us | c body decoded | m]]; cbn [snd].
      - right. exact Hw0.
      - destruct (gemini_fatal_error c body decoded); cbn [snd].
        + right. exact Hw0.
        + apply IH. unfold backoff. destruct (_ <? _); cbn; eauto.
      - apply IH. unfold backoff. destruct (_ <? _); cbn; eauto. }
    destruct (api 1%nat) as [el [cands us | c body decoded | m]] eqn:E1.
    + cbn. auto.
    + destruct (gemini_fatal_error c body decoded) eqn:Ef.
      * cbn. auto.
      * match goal with
        | |- context [gemini_loop cfg api model max_retries n ?a ?l ?w0] =>
            pose proof (Hin n a l w0) as Hn
        end.
        match goal with
        | |- context [gemini_loop cfg api model max_retries n ?a ?l ?w0] =>
            destruct (gemini_loop cfg api model max_retries n a l w0)
              as [[[r|e|] le] w'] eqn:El
        end; cbn [snd trace record_failure_now set_provider_state] in *;
        apply Hn; unfold backoff; repeat destruct (_ <? _); cbn; auto.
    + match goal with
      | |- context [gemini_loop cfg api model max_retries n ?a ?l ?w0] =>
          pose proof (Hin n a l w0) as Hn
      end.
      match goal with
      | |- context [gemini_loop cfg api model max_retries n ?a ?l ?w0] =>
          destruct (gemini_loop cfg api model max_retries n a l w0)
            as [[[r|e|] le] w'] eqn:El
      end; cbn [snd trace record_failure_now set_provider_state] in *;
      apply Hn; unfold backoff; repeat destruct (_ <? _); cbn; auto.
Qed.

(** A stub that fails with an exception of its own. *)
Lemma unexpected_exception_stops_anthropic_only_witness :
  exists s w',
    _call_claude_with_retry default_settings "anthropic" claude_crashing
      "claude" 2 initial_world
    = (Raise (EService s), w')
    /\ dict_get "last_error" (details s) = Some (VStr "connection reset")
    /\ requests w' = 1%nat.
Proof.
  destruct (unexpected_exception_stops_anthropic_only default_settings
              "anthropic" "claude" initial_world 2 1 "connection reset")
    as [H _]; [lia|].
  destruct (H claude_crashing eq_refl) as (s & w' & Hr & _ & Hl & Ht & _).
  exists s, w'. split; [exact Hr|]. split; [exact Hl|].
  unfold requests. rewrite Ht. reflexivity.
Defined.

(* ===================================================================== *)
(** * Further properties of the engagement service                        *)
(* ===================================================================== *)

(** What a valid [record_action] does, by the rows of the pair. *)
Lemma record_action_effect (id : nat) (session act : string) (m : dict)
    (d : Database) :
  is_Some (posts d !! id) ->
  existsb (String.eqb act) valid_actions = true ->
  (length (rows_for id session d) <= 1)%nat ->
  exists r d',
    record_action id session act m d = (Ok r, d')
    /\ posts d' = alter (with_score (new_score r)) id (posts d)
    /\ personas d' = personas d
    /\ next_post_id d' = next_post_id d
    /\ new_score r = calculate_sentiment id d'
    /\ r_action r = act
    /\ r_likes_count r = count_action id "like" d'
    /\ r_dislikes_count r = count_action id "dislike" d'
    /\ likes_count <$> metrics d' !! id = Some (r_likes_count r)
    /\ dislikes_count <$> metrics d' !! id = Some (r_dislikes_count r)
    /\ (forall q, q <> id -> metrics d' !! q = metrics d !! q)
    /\ match rows_for id session d with
       | [] =>
           engagements d' = new_engagement id session act m d :: engagements d
           /\ next_engagement_id d' = S (next_engagement_id d)
           /\ was_toggle r = false
       | e :: _ =>
           next_engagement_id d' = next_engagement_id d
           /\ if String.eqb (action e) act then
                engagements d' =
                  List.filter
                    (fun x => negb (Nat.eqb (engagement_id x) (engagement_id e)))
                    (engagements d)
                /\ was_toggle r = true
              else
                engagements d' =
                  map (rewrite_row (engagement_id e) act m) (engagements d)
                /\ was_toggle r = false
       end.
Proof.
  intros [p Hp] Hact Hlen.
  unfold record_action, _validate_engagement. rewrite Hp, Hact.
  destruct (rows_for id session d) as [|e [|e2 rest]] eqn:Hrows;
    [| |cbn in Hlen; lia]; cbn [head].
  - unfold update_or_create. rewrite Hrows.
    unfold _update_post_metrics. cbn [posts set_engagements]. rewrite Hp.
    eexists. eexists. split; [reflexivity|].
    cbn [posts personas next_post_id metrics engagements next_engagement_id
         new_score was_toggle r_action r_likes_count r_dislikes_count
         m_sentiment_score m_likes_count m_dislikes_count save_score set_engagements].
    rewrite !lookup_insert_eq.
    repeat split; try reflexivity;
      try (destruct (metrics d !! id); reflexivity);
      intros q Hq; by rewrite lookup_insert_ne.
  - destruct (String.eqb (action e) act) eqn:Eact.
    + unfold _update_post_metrics, delete_engagement.
      cbn [posts set_engagements]. rewrite Hp.
      eexists. eexists. split; [reflexivity|].
      cbn [posts personas next_post_id metrics engagements
           next_engagement_id new_score was_toggle r_action r_likes_count
           r_dislikes_count m_sentiment_score m_likes_count
           m_dislikes_count save_score set_engagements].
      rewrite !lookup_insert_eq.
      repeat split; try reflexivity;
        try (destruct (metrics d !! id); reflexivity);
        intros q Hq; by rewrite lookup_insert_ne.
    + unfold update_or_create. rewrite Hrows.
      unfold _update_post_metrics. cbn [posts set_engagements]. rewrite Hp.
      eexists. eexists. split; [reflexivity|].
      cbn [posts personas next_post_id metrics engagements
           next_engagement_id new_score was_toggle r_action r_likes_count
           r_dislikes_count m_sentiment_score m_likes_count
           m_dislikes_count save_score set_engagements].
      rewrite !lookup_insert_eq.
      repeat split; try reflexivity;
        try (destruct (metrics d !! id); reflexivity);
        intros q Hq; by rewrite lookup_insert_ne.
Qed.

(** X9.  [record_action] for a post that does not exist raises
    POST_NOT_FOUND, and for an action other than "like" and "dislike" it
    raises INVALID_ACTION; in both cases no table is changed. *)
Theorem record_action_rejects_invalid_requests (id : nat)
    (session act : string) (m : dict) (d : Database) :
  (posts d !! id = None ->
   exists s, record_action id session act m d = (Raise (EService s), d)
             /\ code s = "POST_NOT_FOUND")
  /\ (is_Some (posts d !! id) -> act <> "like" -> act <> "dislike" ->
      exists s, record_action id session act m d = (Raise (EService s), d)
                /\ code s = "INVALID_ACTION").
Proof.
  unfold record_action, _validate_engagement. split.
  - intros ->. eexists. split; reflexivity.
  - intros [p ->] Hl Hd. cbn [existsb valid_actions].
    destruct (String.eqb_spec act "like"); [done|].
    destruct (String.eqb_spec act "dislike"); [done|].
    eexists. split; reflexivity.
Qed.

Lemma record_action_rejects_invalid_requests_witness :
  exists s,
    record_action 7 "session-1" "like" [] db_with_post
      = (Raise (EService s), db_with_post)
    /\ code s = "POST_NOT_FOUND".
Proof.
  apply (proj1 (record_action_rejects_invalid_requests 7 "session-1" "like"
                  [] db_with_post)).
  vm_compute. reflexivity.
Defined.

Lemma length_filter_filter {A : Type} (p q : A -> bool) (l : list A) :
  (length (List.filter p (List.filter q l)) <= length (List.filter p l))%nat.
Proof.
  induction l as [|x l IH]; [done|]. cbn [List.filter].
  destruct (q x); cbn [List.filter]; destruct (p x); cbn [length]; lia.
Qed.

Lemma filter_map_preserved {A : Type} (p : A -> bool) (f : A -> A)
    (l : list A) :
  (forall x, p (f x) = p x) ->
  List.filter p (map f l) = map f (List.filter p l).
Proof.
  intros Hf. induction l as [|x l IH]; [done|]. cbn [map List.filter].
  rewrite Hf. destruct (p x); cbn [map]; by rewrite IH.
Qed.

Lemma rewrite_row_id (n : nat) (act : string) (m : dict) (x : Engagement) :
  engagement_id (rewrite_row n act m x) = engagement_id x.
Proof. unfold rewrite_row. by destruct (Nat.eqb _ _). Qed.

Lemma rewrite_row_same_pair (n : nat) (act : string) (m : dict)
    (id : nat) (session : string) (x : Engagement) :
  same_pair id session (rewrite_row n act m x) = same_pair id session x.
Proof. unfold rewrite_row. by destruct (Nat.eqb _ _). Qed.

Lemma map_ids_rewrite (n : nat) (act : string) (m : dict)
    (es : list Engagement) :
  map engagement_id (map (rewrite_row n act m) es) = map engagement_id es.
Proof.
  induction es as [|x es IH]; [done|]. cbn [map].
  by rewrite rewrite_row_id, IH.
Qed.

Lemma NoDup_ids_filter (q : Engagement -> bool) (es : list Engagement) :
  List.NoDup (map engagement_id es) ->
  List.NoDup (map engagement_id (List.filter q es)).
Proof.
  induction es as [|x es IH]; [done|]. cbn [map List.filter].
  intros H. apply NoDup_cons_iff in H as [Hx Hes].
  destruct (q x); [|by apply IH].
  cbn [map]. apply NoDup_cons_iff. split; [|by apply IH].
  intros Hin. apply Hx. apply in_map_iff in Hin as (y & Hy & Hin).
  apply filter_In in Hin as [Hin _]. apply in_map_iff. eauto.
Qed.

Lemma Forall_ids_filter (n : nat) (q : Engagement -> bool)
    (es : list Engagement) :
  Forall (fun e => (engagement_id e < n)%nat) es ->
  Forall (fun e => (engagement_id e < n)%nat) (List.filter q es).
Proof.
  induction 1 as [|x es Hx _ IH]; [constructor|]. cbn [List.filter].
  destruct (q x); [by constructor | exact IH].
Qed.

Lemma Forall_ids_rewrite (n k : nat) (act : string) (m : dict)
    (es : list Engagement) :
  Forall (fun e => (engagement_id e < n)%nat) es ->
  Forall (fun e => (engagement_id e < n)%nat) (map (rewrite_row k act m) es).
Proof.
  induction 1 as [|x es Hx _ IH]; [constructor|]. cbn [map].
  constructor; [by rewrite rewrite_row_id | exact IH].
Qed.

Lemma fresh_not_in (n : nat) (es : list Engagement) :
  Forall (fun e => (engagement_id e < n)%nat) es ->
  ~ In n (map engagement_id es).
Proof.
  induction 1 as [|x es Hx _ IH]; [by intros []|].
  cbn [map]. intros [E|Hin]; [lia | by apply IH].
Qed.

Lemma Forall_ids_weaken (n : nat) (es : list Engagement) :
  Forall (fun e => (engagement_id e < n)%nat) es ->
  Forall (fun e => (engagement_id e < S n)%nat) es.
Proof. induction 1; constructor; [lia | done]. Qed.

(** X10.  [record_action] keeps the engagement table well formed: after
    any call, successful or not, no (post, session) pair has more than one
    row, the primary keys are distinct and below the sequence. *)
Theorem record_action_keeps_table_well_formed (id : nat)
    (session act : string) (m : dict) (d d' : Database)
    (r : result ActionResult) :
  unique_pairs d -> fresh_ids d -> distinct_ids d ->
  record_action id session act m d = (r, d') ->
  unique_pairs d' /\ fresh_ids d' /\ distinct_ids d'.
Proof.
  intros Hu Hf Hd Hrun.
  destruct (posts d !! id) as [p|] eqn:Hp.
  2: { unfold record_action, _validate_engagement in Hrun.
       rewrite Hp in Hrun. inversion Hrun; subst. done. }
  destruct (existsb (String.eqb act) valid_actions) eqn:Hact.
  2: { unfold record_action, _validate_engagement in Hrun.
       rewrite Hp, Hact in Hrun. inversion Hrun; subst. done. }
  destruct (record_action_effect id session act m d) as
    (r0 & d0 & Hrun0 & _ & _ & _ & _ & _ & _ & _ & _ & _ & _ & Hrows);
    [eauto | exact Hact | apply Hu |].
  rewrite Hrun0 in Hrun. inversion Hrun; subst r d0. clear Hrun.
  unfold unique_pairs, fresh_ids, distinct_ids in *.
  destruct (rows_for id session d) as [|e rest] eqn:Erows.
  - destruct Hrows as (Heng & Hnext & _).
    split; [|split].
    + apply (unique_pairs_cons id session (new_engagement id session act m d)
               d d' Heng eq_refl eq_refl Erows Hu).
    + rewrite Heng, Hnext. constructor; [cbn; lia|].
      by apply Forall_ids_weaken.
    + rewrite Heng. cbn [map]. apply NoDup_cons_iff.
      split; [by apply fresh_not_in | exact Hd].
  - destruct Hrows as (Hnext & Hcase).
    destruct (String.eqb (action e) act); destruct Hcase as [Heng _].
    + split; [|split].
      * intros i s. unfold rows_for. rewrite Heng.
        etransitivity; [apply length_filter_filter | apply Hu].
      * rewrite Heng, Hnext. by apply Forall_ids_filter.
      * rewrite Heng. by apply NoDup_ids_filter.
    + split; [|split].
      * intros i s. unfold rows_for. rewrite Heng.
        rewrite filter_map_preserved
          by (intros x; apply rewrite_row_same_pair).
        rewrite length_map. apply Hu.
      * rewrite Heng, Hnext. by apply Forall_ids_rewrite.
      * rewrite Heng, map_ids_rewrite. exact Hd.
Qed.

Lemma record_action_keeps_table_well_formed_witness :
  unique_pairs (snd (record_action 1 "session-1" "dislike" [] db_with_post)).
Proof.
  refine (proj1 (record_action_keeps_table_well_formed 1 "session-1"
                   "dislike" [] db_with_post _ _ _ _ _ _)).
  - intros i s. unfold rows_for. cbn [engagements db_with_post List.filter
      length]. lia.
  - constructor.
  - constructor.
  - apply surjective_pairing.
Defined.

Lemma filter_filter_comm {A : Type} (p q : A -> bool) (l : list A) :
  List.filter p (List.filter q l) = List.filter q (List.filter p l).
Proof.
  induction l as [|x l IH]; [done|]. cbn [List.filter].
  destruct (q x) eqn:Eq, (p x) eqn:Ep; cbn [List.filter];
    rewrite ?Eq, ?Ep, ?IH; reflexivity.
Qed.

Lemma valid_run_inputs (id : nat) (session act : string) (m : dict)
    (d d' : Database) (r : ActionResult) :
  record_action id session act m d = (Ok r, d') ->
  is_Some (posts d !! id) /\ existsb (String.eqb act) valid_actions = true.
Proof.
  unfold record_action, _validate_engagement.
  destruct (posts d !! id); [|discriminate].
  destruct (existsb _ _); [eauto | discriminate].
Qed.

(** X11.  After a successful [record_action] on a well-formed table the
    answer agrees with the tables: the new score is likes minus dislikes of
    the post, it is the stored [sentiment_score], the counts are those of
    the engagement rows and of the metric row, and [get_user_action] for
    the pair gives nothing after a toggle and the recorded action
    otherwise. *)
Theorem record_action_result_matches_tables (id : nat)
    (session act : string) (m : dict) (d d' : Database) (r : ActionResult) :
  unique_pairs d ->
  record_action id session act m d = (Ok r, d') ->
  new_score r = calculate_sentiment id d'
  /\ new_score r = r_likes_count r - r_dislikes_count r
  /\ stored_score id d' = Some (new_score r)
  /\ r_likes_count r = count_action id "like" d'
  /\ r_dislikes_count r = count_action id "dislike" d'
  /\ likes_count <$> metrics d' !! id = Some (r_likes_count r)
  /\ dislikes_count <$> metrics d' !! id = Some (r_dislikes_count r)
  /\ get_user_action id session d' =
       (if was_toggle r then None else Some act).
Proof.
  intros Hu Hrun.
  destruct (valid_run_inputs _ _ _ _ _ _ _ Hrun) as [Hpost Hact].
  destruct (record_action_effect id session act m d Hpost Hact (Hu _ _)) as
    (r0 & d0 & Hrun0 & Hposts & _ & _ & Hscore & _ & Hl & Hd & Hml & Hmd & _
     & Hrows).
  rewrite Hrun0 in Hrun. inversion Hrun; subst r0 d0. clear Hrun.
  split; [exact Hscore|].
  split; [by rewrite Hscore, Hl, Hd|].
  split.
  { unfold stored_score. rewrite Hposts. destruct Hpost as [p Hp].
    by rewrite lookup_alter_eq, Hp. }
  split; [exact Hl|]. split; [exact Hd|]. split; [exact Hml|].
  split; [exact Hmd|].
  unfold get_user_action.
  pose proof (Hu id session) as Hlen.
  destruct (rows_for id session d) as [|e [|e2 rest]] eqn:Erows;
    [| |cbn in Hlen; lia].
  - destruct Hrows as (Heng & _ & ->).
    rewrite (rows_for_cons _ _ _ _ _ Heng), Erows.
    unfold same_pair, new_engagement. cbn.
    by rewrite Nat.eqb_refl, String.eqb_refl.
  - destruct Hrows as (_ & Hcase).
    destruct (String.eqb (action e) act); destruct Hcase as [Heng ->].
    + unfold rows_for in *. rewrite Heng, filter_filter_comm, Erows.
      cbn [List.filter]. by rewrite Nat.eqb_refl.
    + unfold rows_for in *. rewrite Heng.
      rewrite filter_map_preserved by (intros x; apply rewrite_row_same_pair).
      rewrite Erows. cbn [map head]. unfold rewrite_row.
      by rewrite Nat.eqb_refl.
Qed.

Lemma record_action_result_matches_tables_witness :
  get_user_action 1 "session-1"
    (snd (record_action 1 "session-1" "dislike" [] db_with_post))
  = Some "dislike".
Proof.
  destruct (record_action 1 "session-1" "dislike" [] db_with_post)
    as [[r|e] d'] eqn:E; [|vm_compute in E; discriminate].
  destruct (record_action_result_matches_tables 1 "session-1" "dislike" []
              db_with_post d' r) as (_ & _ & _ & _ & _ & _ & _ & Hg).
  - intros i s. unfold rows_for. cbn [engagements db_with_post List.filter
      length]. lia.
  - exact E.
  - cbn [snd]. rewrite Hg.
    assert (Hr : was_toggle r = false).
    { assert (H : fst (record_action 1 "session-1" "dislike" [] db_with_post)
                  = Ok r) by (by rewrite E).
      vm_compute in H. inversion H. reflexivity. }
    by rewrite Hr.
Defined.

Lemma ids_inj (es : list Engagement) (x y : Engagement) :
  List.NoDup (map engagement_id es) ->
  In x es -> In y es -> engagement_id x = engagement_id y -> x = y.
Proof.
  induction es as [|z es IH]; [by intros _ []|].
  cbn [map]. intros H. apply NoDup_cons_iff in H as [Hz Hes].
  intros [->|Hx] [->|Hy] E; [done| | |by apply IH].
  - exfalso. apply Hz. rewrite E. by apply in_map.
  - exfalso. apply Hz. rewrite <- E. by apply in_map.
Qed.

Lemma filter_filter_absorb {A : Type} (p q : A -> bool) (l : list A) :
  (forall x, In x l -> p x = true -> q x = true) ->
  List.filter p (List.filter q l) = List.filter p l.
Proof.
  induction l as [|x l IH]; [done|]. intros H. cbn [List.filter].
  assert (IH' : List.filter p (List.filter q l) = List.filter p l).
  { apply IH. intros y Hy. apply H. by right. }
  destruct (p x) eqn:Ep.
  - rewrite (H x (or_introl eq_refl) Ep). cbn [List.filter].
    by rewrite Ep, IH'.
  - destruct (q x); cbn [List.filter]; by rewrite ?Ep, IH'.
Qed.

Lemma filter_map_fixed {A : Type} (p : A -> bool) (f : A -> A) (l : list A) :
  (forall x, In x l -> p (f x) = p x /\ (p x = true -> f x = x)) ->
  List.filter p (map f l) = List.filter p l.
Proof.
  induction l as [|x l IH]; [done|]. intros H. cbn [map List.filter].
  destruct (H x (or_introl eq_refl)) as [E1 E2]. rewrite E1.
  rewrite IH by (intros y Hy; apply H; by right).
  destruct (p x); [by rewrite E2 | done].
Qed.

(** Rows of another post, selected by any predicate [p] that only accepts
    rows of post [q], are the same before and after [record_action id]. *)
Lemma other_post_rows (p : Engagement -> bool) (id q : nat)
    (session act : string) (m : dict) (d d' : Database) (r : ActionResult) :
  distinct_ids d -> unique_pairs d -> q <> id ->
  (forall x, p x = true -> blog_post_id x = q) ->
  record_action id session act m d = (Ok r, d') ->
  List.filter p (engagements d') = List.filter p (engagements d).
Proof.
  intros Hd Hu Hq Hp Hrun.
  destruct (valid_run_inputs _ _ _ _ _ _ _ Hrun) as [Hpost Hact].
  destruct (record_action_effect id session act m d Hpost Hact (Hu _ _)) as
    (r0 & d0 & Hrun0 & _ & _ & _ & _ & _ & _ & _ & _ & _ & _ & Hrows).
  rewrite Hrun0 in Hrun. inversion Hrun; subst r0 d0. clear Hrun.
  assert (Hnp : forall x, blog_post_id x = id -> p x = false).
  { intros x Hx. destruct (p x) eqn:E; [|done].
    apply Hp in E. congruence. }
  destruct (rows_for id session d) as [|e rest] eqn:Erows.
  - destruct Hrows as (-> & _). cbn [List.filter].
    by rewrite (Hnp (new_engagement id session act m d) eq_refl).
  - assert (Hin : In e (engagements d) /\ blog_post_id e = id).
    { assert (H : In e (rows_for id session d)) by (rewrite Erows; by left).
      unfold rows_for in H. apply filter_In in H as [H1 H2].
      split; [exact H1|]. unfold same_pair in H2.
      apply andb_true_iff in H2 as [H2 _]. by apply Nat.eqb_eq. }
    destruct Hin as [Hin Hpe].
    destruct Hrows as (_ & Hcase).
    destruct (String.eqb (action e) act); destruct Hcase as [-> _].
    + apply filter_filter_absorb. intros x Hx Epx.
      apply negb_true_iff, Nat.eqb_neq. intros E.
      rewrite (ids_inj _ _ _ Hd Hx Hin E) in Epx.
      by rewrite (Hnp e Hpe) in Epx.
    + apply filter_map_fixed. intros x Hx. unfold rewrite_row.
      destruct (Nat.eqb_spec (engagement_id x) (engagement_id e)) as [E|E];
        [|done].
      rewrite (ids_inj _ _ _ Hd Hx Hin E).
      rewrite (Hnp e Hpe), (Hnp (with_action act m e) Hpe).
      split; [done | discriminate].
Qed.

(** X12.  [record_action] on one post leaves every other post alone: when
    the primary keys are distinct and no pair has two rows, a successful
    call for post [id] changes neither the stored row, the metric row, the
    engagement rows nor the computed sentiment of a post [q <> id]. *)
Theorem record_action_leaves_other_posts (id q : nat)
    (session act : string) (m : dict) (d d' : Database) (r : ActionResult) :
  distinct_ids d -> unique_pairs d -> q <> id ->
  record_action id session act m d = (Ok r, d') ->
  posts d' !! q = posts d !! q
  /\ metrics d' !! q = metrics d !! q
  /\ (forall s, rows_for q s d' = rows_for q s d)
  /\ (forall a, count_action q a d' = count_action q a d)
  /\ calculate_sentiment q d' = calculate_sentiment q d.
Proof.
  intros Hd Hu Hq Hrun.
  assert (Hcount : forall a, count_action q a d' = count_action q a d).
  { intros a. unfold count_action.
    rewrite (other_post_rows _ id q session act m d d' r Hd Hu Hq); [done| |done].
    intros x Hx. apply andb_true_iff in Hx as [Hx _]. by apply Nat.eqb_eq. }
  destruct (valid_run_inputs _ _ _ _ _ _ _ Hrun) as [Hpost Hact].
  destruct (record_action_effect id session act m d Hpost Hact (Hu _ _)) as
    (r0 & d0 & Hrun0 & Hposts & _ & _ & _ & _ & _ & _ & _ & _ & Hm & _).
  rewrite Hrun0 in Hrun. inversion Hrun; subst r0 d0.
  split; [by rewrite Hposts, lookup_alter_ne|].
  split; [by apply Hm|].
  split.
  { intros s. unfold rows_for.
    apply (other_post_rows _ id q session act m d d' r Hd Hu Hq); [|done].
    intros x Hx. apply andb_true_iff in Hx as [Hx _]. by apply Nat.eqb_eq. }
  split; [exact Hcount|].
  unfold calculate_sentiment. by rewrite !Hcount.
Qed.

Lemma record_action_leaves_other_posts_witness :
  calculate_sentiment 2
    (snd (record_action 1 "session-1" "like" [] db_with_post))
  = calculate_sentiment 2 db_with_post.
Proof.
  destruct (record_action 1 "session-1" "like" [] db_with_post)
    as [[r|e] d'] eqn:E; [|vm_compute in E; discriminate].
  apply (record_action_leaves_other_posts 1 2 "session-1" "like" []
           db_with_post d' r).
  - constructor.
  - intros i s. unfold rows_for. cbn [engagements db_with_post List.filter
      length]. lia.
  - lia.
  - exact E.
Defined.

(* ===================================================================== *)
(** * Domains of ordinary URLs                                            *)
(* ===================================================================== *)

Lemma replace_fuel_absent (fuel : nat) (old new s : string) :
  Py.contains old s = false -> Py.replace_fuel fuel old new s = s.
Proof.
  revert s. induction fuel as [|fuel IH]; intros s H; [done|].
  destruct s as [|c s]; [done|].
  cbn [Py.replace_fuel]. cbn [Py.contains] in H.
  apply orb_false_iff in H as [H1 H2].
  rewrite H1. cbn [andb]. by rewrite IH.
Qed.

Lemma replace_absent (old new s : string) :
  Py.contains old s = false -> Py.replace old new s = s.
Proof. apply replace_fuel_absent. Qed.

Lemma replace_www_prefix (h : string) :
  Py.contains "www." h = false ->
  Py.replace "www." EmptyString ("www." ++ h) = h.
Proof.
  intros H. unfold Py.replace. cbn. by apply replace_fuel_absent.
Qed.

Lemma plain_host_char_spec (c : ascii) :
  plain_host_char c = true ->
  Ascii.eqb c "/" = false /\ Ascii.eqb c "?" = false /\ Ascii.eqb c "#" = false
  /\ Ascii.eqb c "[" = false /\ Ascii.eqb c "]" = false
  /\ Ascii.eqb c ")" = false
  /\ (nat_of_ascii c =? 9)%nat = false /\ (nat_of_ascii c =? 10)%nat = false
  /\ (nat_of_ascii c =? 13)%nat = false.
Proof.
  unfold plain_host_char. intros H. apply andb_true_iff in H as [_ H].
  apply negb_true_iff in H. rewrite !orb_false_iff in H.
  destruct H as [[[[[[[[[[H1 H2] H3] H4] H5] _] _] H8] H9] H10] H11].
  repeat split; assumption.
Qed.

Lemma remove_unsafe_plain (host rest : string) :
  plain_host host = true ->
  Url.remove_unsafe (host ++ rest) = host ++ Url.remove_unsafe rest.
Proof.
  induction host as [|c host IH]; [done|].
  cbn [plain_host Url.all_chars]. intros H.
  apply andb_true_iff in H as [Hc Hh].
  change (String c host ++ rest) with (String c (host ++ rest)).
  cbn [Url.remove_unsafe].
  destruct (plain_host_char_spec c Hc) as (_ & _ & _ & _ & _ & _ & H9 & H10 & H13).
  rewrite H9, H10, H13. cbn [orb]. by rewrite (IH Hh).
Qed.

Lemma until_delim_plain (host rest : string) :
  plain_host host = true ->
  Url.until_delim (host ++ "/" ++ rest) = host.
Proof.
  induction host as [|c host IH]; [done|].
  cbn [plain_host Url.all_chars]. intros H.
  apply andb_true_iff in H as [Hc Hh].
  change (String c host ++ "/" ++ rest) with (String c (host ++ "/" ++ rest)).
  cbn [Url.until_delim].
  destruct (plain_host_char_spec c Hc) as (Hs & Hq & Hh' & _).
  rewrite Hs, Hq, Hh'. cbn [orb]. by rewrite (IH Hh).
Qed.

Lemma has_char_plain (c : ascii) (host : string) :
  plain_host_char c = false ->
  plain_host host = true -> Py.has_char c host = false.
Proof.
  intros Hc. induction host as [|x host IH]; [done|].
  cbn [plain_host Url.all_chars Py.has_char]. intros H.
  apply andb_true_iff in H as [Hx Hh]. rewrite (IH Hh), orb_false_r.
  destruct (Ascii.eqb_spec c x) as [->|]; [congruence | done].
Qed.

(** The network location of [http://host/path] and [https://host/path]. *)
Lemma location_plain (secure : bool) (host path : string) :
  plain_host host = true ->
  Url.location
    ((if secure then "https://" else "http://") ++ host ++ "/" ++ path)
  = host.
Proof.
  intros H. unfold Url.location.
  destruct secure.
  - change (Url.lstrip_c0 ("https://" ++ host ++ "/" ++ path))
      with ("https://" ++ host ++ "/" ++ path).
    change (Url.remove_unsafe ("https://" ++ host ++ "/" ++ path))
      with ("https://" ++ Url.remove_unsafe (host ++ "/" ++ path)).
    rewrite (remove_unsafe_plain _ _ H).
    change (Url.drop_scheme ("https://" ++ host ++ Url.remove_unsafe ("/" ++ path)))
      with ("//" ++ host ++ "/" ++ Url.remove_unsafe path).
    change (Py.startswith "//" ("//" ++ host ++ "/" ++ Url.remove_unsafe path))
      with true.
    cbv iota.
    change (Py.drop 2 ("//" ++ host ++ "/" ++ Url.remove_unsafe path))
      with (host ++ "/" ++ Url.remove_unsafe path).
    apply (until_delim_plain _ _ H).
  - change (Url.lstrip_c0 ("http://" ++ host ++ "/" ++ path))
      with ("http://" ++ host ++ "/" ++ path).
    change (Url.remove_unsafe ("http://" ++ host ++ "/" ++ path))
      with ("http://" ++ Url.remove_unsafe (host ++ "/" ++ path)).
    rewrite (remove_unsafe_plain _ _ H).
    change (Url.drop_scheme ("http://" ++ host ++ Url.remove_unsafe ("/" ++ path)))
      with ("//" ++ host ++ "/" ++ Url.remove_unsafe path).
    change (Py.startswith "//" ("//" ++ host ++ "/" ++ Url.remove_unsafe path))
      with true.
    cbv iota.
    change (Py.drop 2 ("//" ++ host ++ "/" ++ Url.remove_unsafe path))
      with (host ++ "/" ++ Url.remove_unsafe path).
    apply (until_delim_plain _ _ H).
Qed.

Lemma netloc_plain (secure : bool) (host path : string) :
  plain_host host = true ->
  Url.netloc ((if secure then "https://" else "http://") ++ host ++ "/" ++ path)
  = Ok host.
Proof.
  intros H. unfold Url.netloc. rewrite (location_plain _ _ _ H).
  rewrite (has_char_plain "[" host eq_refl H),
    (has_char_plain "]" host eq_refl H). reflexivity.
Qed.

(** ** One citation through the pattern of [_parse_sources] *)

Lemma length_app_s (a b : string) :
  String.length (a ++ b) = (String.length a + String.length b)%nat.
Proof.
  induction a as [|x a IH]; [done|].
  change (S (String.length (a ++ b))
          = S (String.length a + String.length b)).
  f_equal. exact IH.
Qed.

Lemma take_app_s (a b : string) : Py.take (String.length a) (a ++ b) = a.
Proof.
  induction a as [|x a IH]; [by destruct b|].
  change (String x (Py.take (String.length a) (a ++ b)) = String x a).
  f_equal. exact IH.
Qed.

Lemma between_app (p q : option ascii) (a b : string) :
  between {| before := p; rest := a ++ b |} {| before := q; rest := b |} = a.
Proof.
  unfold between. cbn [rest]. rewrite length_app_s.
  replace (String.length a + String.length b - String.length b)%nat
    with (String.length a) by lia.
  apply take_app_s.
Qed.

Lemma has_char_app_false (c : ascii) (a b : string) :
  Py.has_char c (a ++ b) = false <->
  Py.has_char c a = false /\ Py.has_char c b = false.
Proof. rewrite has_char_app. apply orb_false_iff. Qed.

(** A greedy repetition reads a run of matching characters to its end
    when what follows the run does not match and the rest of the pattern
    succeeds there. *)
Lemma rep_greedy_run (fl : flags) (c : cclass) (lo : nat) (g : caps)
    (k : K) (t : string) (res : cursor * caps) (s : string) :
  match t with
  | String y _ => cmatch fl c y = false
  | EmptyString => True
  end ->
  forall (n : nat) (prev : option ascii),
    Url.all_chars (cmatch fl c) s = true ->
    (lo <= n + String.length s)%nat ->
    k {| before := last_char prev s; rest := t |} g = Some res ->
    rep_greedy fl c lo None n prev (s ++ t) g k = Some res.
Proof.
  intros Ht. induction s as [|x s IH]; intros n prev Hall Hlo Hk.
  - change (rep_greedy fl c lo None n prev t g k = Some res).
    cbn [last_char String.length] in *.
    assert (Hstop : (if (lo <=? n)%nat
                     then k {| before := prev; rest := t |} g else None)
                    = Some res).
    { destruct (Nat.leb_spec lo n); [exact Hk | lia]. }
    destruct t as [|y t]; cbn [rep_greedy]; [exact Hstop|].
    rewrite Ht. cbn [andb]. exact Hstop.
  - cbn [Url.all_chars] in Hall. apply andb_true_iff in Hall as [Hx Hall].
    change (rep_greedy fl c lo None n prev (String x (s ++ t)) g k
            = Some res).
    cbn [rep_greedy]. rewrite Hx. cbn [below andb].
    rewrite (IH (S n) (Some x) Hall); [reflexivity | cbn in Hlo; lia |].
    exact Hk.
Qed.

Lemma all_chars_not (c : ascii) (s : string) :
  Py.has_char c s = false ->
  Url.all_chars (cmatch no_flags (CNot [c])) s = true.
Proof.
  induction s as [|x s IH]; [done|]. cbn [Py.has_char Url.all_chars].
  intros H. apply orb_false_iff in H as [Hx Hs]. rewrite (IH Hs), andb_true_r.
  cbn. rewrite Ascii.eqb_sym, Hx. reflexivity.
Qed.

(** The citation pattern on the text of one citation. *)
Lemma citation_match (p : option ascii) (title url post : string) :
  Py.truthy title = true -> Py.has_char "]" title = false ->
  Py.truthy url = true -> Py.has_char ")" url = false ->
  match_at no_flags citation_pattern
    {| before := p;
       rest := String "[" (title ++ String "]" (String "("
                 (url ++ String ")" post))) |}
  = Some ({| before := Some ")"%char; rest := post |},
          [(2%nat, url); (1%nat, title)]).
Proof.
  intros Ht1 Ht2 Hu1 Hu2.
  unfold match_at, citation_pattern, seq, chr, plus.
  cbn [fold_right run rest before cmatch IGNORECASE no_flags
       Ascii.eqb Bool.eqb].
  erewrite (rep_greedy_run no_flags (CNot ["]"%char]) 1 _ _
              (String "]" (String "(" (url ++ String ")" post))) _ title);
    [reflexivity | reflexivity | by apply all_chars_not | | ].
  - destruct title; [discriminate | cbn; lia].
  - cbn [run rest before cmatch IGNORECASE no_flags Ascii.eqb Bool.eqb].
    erewrite (rep_greedy_run no_flags (CNot [")"%char]) 1 _ _
                (String ")" post) _ url);
      [reflexivity | reflexivity | by apply all_chars_not | | ].
    + destruct url; [discriminate | cbn; lia].
    + cbn [run rest before cmatch IGNORECASE no_flags Ascii.eqb Bool.eqb].
      by rewrite !between_app.
Qed.

(** The citation pattern starts with [[]: it has no match in a text
    without one, and a search passes over such a text. *)
Lemma citation_fails (p : option ascii) (s : string) :
  match s with
  | String x _ => Ascii.eqb "[" x = false
  | EmptyString => True
  end ->
  match_at no_flags citation_pattern {| before := p; rest := s |} = None.
Proof.
  destruct s as [|x s]; [reflexivity|]. intros Hx.
  unfold match_at, citation_pattern, seq, chr.
  cbn [fold_right run rest cmatch IGNORECASE no_flags]. by rewrite Hx.
Qed.

Lemma citation_search_skip (pre s sk : string) (p : option ascii) :
  Py.has_char "[" pre = false ->
  search_from no_flags citation_pattern sk p (pre ++ s)
  = search_from no_flags citation_pattern (Py.rev_string sk pre)
      (last_char p pre) s.
Proof.
  revert sk p. induction pre as [|x pre IH]; intros sk p H; [reflexivity|].
  cbn [Py.has_char] in H. apply orb_false_iff in H as [Hx Hpre].
  change (search_from no_flags citation_pattern sk p (String x (pre ++ s))
          = search_from no_flags citation_pattern
              (Py.rev_string (String x sk) pre) (last_char (Some x) pre) s).
  cbn [search_from]. rewrite (citation_fails p (String x (pre ++ s)) Hx).
  by apply IH.
Qed.

Lemma citation_search_none (s sk : string) (p : option ascii) :
  Py.has_char "[" s = false ->
  search_from no_flags citation_pattern sk p s = None.
Proof.
  intros H. rewrite <- (app_nil_r_s s), (citation_search_skip _ _ _ _ H).
  cbn [search_from]. by rewrite citation_fails.
Qed.

(** [re.findall] on a text with one citation. *)
Lemma findall_one_citation (pre title url post : string) :
  Py.has_char "[" pre = false -> Py.has_char "[" post = false ->
  Py.truthy title = true -> Py.has_char "]" title = false ->
  Py.truthy url = true -> Py.has_char ")" url = false ->
  findall2 no_flags citation_pattern
    (pre ++ "[" ++ title ++ "](" ++ url ++ ")" ++ post)
  = [(title, url)].
Proof.
  intros Hpre Hpost Ht1 Ht2 Hu1 Hu2.
  unfold findall2, matches. cbn [scan before rest].
  rewrite (citation_search_skip _ _ _ _ Hpre).
  change ("[" ++ title ++ "](" ++ url ++ ")" ++ post)
    with (String "[" (title ++ String "]" (String "("
            (url ++ String ")" post)))).
  cbn [search_from]. rewrite (citation_match _ _ _ _ Ht1 Ht2 Hu1 Hu2).
  cbn [m_text m_end rest].
  assert (Htext : exists c r,
             between
               {| before := last_char None pre;
                  rest := String "[" (title ++ String "]" (String "("
                            (url ++ String ")" post))) |}
               {| before := Some ")"%char; rest := post |}
             = String c r).
  { unfold between. cbn [rest String.length].
    rewrite Nat.sub_succ_l; [cbn [Py.take]; eauto|].
    rewrite length_app_s. cbn [String.length]. rewrite length_app_s.
    cbn [String.length]. lia. }
  destruct Htext as (c & r & ->).
  assert (Hrest : forall fuel,
             scan no_flags fuel citation_pattern
               {| before := Some ")"%char; rest := post |} = ([], post)).
  { intros [|fuel]; [reflexivity|]. cbn [scan before rest].
    by rewrite (citation_search_none _ _ _ Hpost). }
  rewrite Hrest. cbn [fst map m_groups group_or_empty group Nat.eqb].
  reflexivity.
Qed.

(** X13.  For a sources text with one citation
    [[title](http(s)://host/path)], where the host is an ASCII host name
    (no bracket, delimiter, colon, at sign, parenthesis or line break), the
    title has no closing bracket and the path no closing parenthesis,
    [_parse_sources] returns the one source, and its domain is the host
    itself when "www." does not occur in it, and the host without its
    leading "www." when that is the only occurrence.  [SourceReference.save]
    derives the same domain for a row saved without one. *)
Theorem domain_of_plain_url (secure : bool)
    (pre title host path post : string) :
  let url := (if secure then "https://" else "http://")
             ++ host ++ "/" ++ path in
  let stored domain :=
    _parse_sources (pre ++ "[" ++ title ++ "](" ++ url ++ ")" ++ post)
      = Ok [source_dict (Py.strip title) (Py.strip url) domain]
    /\ SourceReference_save url EmptyString = Ok domain in
  plain_host host = true ->
  Py.has_char "[" pre = false -> Py.has_char "[" post = false ->
  Py.truthy title = true -> Py.has_char "]" title = false ->
  Py.has_char ")" path = false ->
  (Py.contains "www." host = false -> stored host)
  /\ (forall h, host = "www." ++ h -> Py.contains "www." h = false ->
                stored h).
Proof.
  intros url stored Hplain Hpre Hpost Ht1 Ht2 Hpath.
  assert (Hloc : Url.netloc url = Ok host) by (by apply netloc_plain).
  assert (Hurl : Py.truthy url = true) by (unfold url; by destruct secure).
  assert (Hparen : Py.has_char ")" url = false).
  { unfold url. rewrite !has_char_app.
    rewrite (has_char_plain ")" host eq_refl Hplain), Hpath.
    by destruct secure. }
  assert (Hst : forall domain,
             Py.replace "www." EmptyString host = domain -> stored domain).
  { intros domain Hd. unfold stored, SourceReference_save, _parse_sources.
    rewrite (findall_one_citation _ _ _ _ Hpre Hpost Ht1 Ht2 Hurl Hparen).
    cbn [sources_of_matches]. rewrite Hloc, Hd, Hurl.
    split; reflexivity. }
  split.
  - intros Hno. apply Hst. by apply replace_absent.
  - intros h -> Hno. apply Hst. by apply replace_www_prefix.
Qed.

Lemma domain_of_plain_url_witness :
  _parse_sources "- [Example](https://www.example.com/a)"
  = Ok [source_dict "Example" "https://www.example.com/a" "example.com"].
Proof.
  apply (proj2 (domain_of_plain_url true "- " "Example" "www.example.com"
                  "a" EmptyString eq_refl eq_refl eq_refl eq_refl eq_refl
                  eq_refl) "example.com" eq_refl eq_refl).
Defined.

(** X14.  The structure stored with a generated post and the properties of
    the model agree: after a generation that returns, the "word_count" and
    "reading_time_minutes" entries of the post's [content_structure] are
    the [word_count] and [reading_time] the model computes from the stored
    body, and the reading time is at least one minute. *)
Theorem stored_structure_matches_model_properties (self : Service)
    (topic slug : string) (ctx : list (string * string)) (speed : string)
    (w w' : World) (r : GenerationResult) :
  generate_post self topic slug ctx speed w = (Ok r, w') ->
  exists p,
    posts (db w') !! result_blog_post_id r = Some p
    /\ dict_get "word_count" (content_structure p)
       = Some (VInt (word_count p))
    /\ dict_get "reading_time_minutes" (content_structure p)
       = Some (VInt (reading_time p))
    /\ 0 <= word_count p
    /\ 1 <= reading_time p.
Proof.
  intros Hrun.
  destruct (generate_post_success_shape _ _ _ _ _ _ _ _ Hrun)
    as (p & persona & Hp & Hid & _ & _ & _ & _ & _ & _ & _ & Hc & _ & _
        & Hs & _).
  exists p. rewrite Hid. split; [exact Hp|].
  assert (Hwc : word_count p
                = Z.of_nat (length (Py.split (generated_content p)))).
  { unfold word_count. by destruct (generated_content p). }
  rewrite Hs, <- Hc. unfold reading_time. rewrite Hwc.
  repeat split; try reflexivity; lia.
Qed.

Lemma stored_structure_matches_model_properties_witness :
  exists p,
    posts (db (snd (generate_post
                      (anthropic_service (claude_answers sample_response))
                      renewable_topic "technical" [] "normal"
                      initial_world))) !! 1%nat = Some p
    /\ dict_get "word_count" (content_structure p)
       = Some (VInt (word_count p)).
Proof.
  destruct (stored_structure_matches_model_properties
              (anthropic_service (claude_answers sample_response))
              renewable_topic "technical" [] "normal" initial_world _ _
              ltac:(vm_compute; reflexivity))
    as (p & Hp & Hw & _).
  exists p. split; [exact Hp | exact Hw].
Defined.

(* ===================================================================== *)
(** * The constructor and the generation task                             *)
(* ===================================================================== *)

(** The error codes of a provider call of a service on one of the two
    providers. *)
Lemma _call_model_with_retry_codes (self : Service) (speed : string)
    (w : World) :
  provider self = "anthropic" \/ provider self = "gemini" ->
  match fst (_call_model_with_retry self speed w) with
  | Ok _ => True
  | Raise (EService e) =>
      code e = "PROVIDER_UNAVAILABLE" \/ code e = "API_ERROR"
      \/ fatal_code (code e) = true
  | Raise (EOther _ _) => False
  end.
Proof.
  intros Hp. unfold _call_model_with_retry.
  destruct (_check_circuit_state _ _ _) as [[]|e] eqn:Echeck.
  - destruct (String.eqb_spec (provider self) "anthropic") as [Ea|Ea];
      [|destruct (String.eqb_spec (provider self) "gemini") as [Eg|Eg]].
    + unfold _call_claude_with_retry.
      pose proof (claude_loop_spec (cfg self) (claude self)
        (_resolve_model (cfg self) (provider self) speed)
        (_resolve_retry_count (cfg self) speed)
        (Z.to_nat (_resolve_retry_count (cfg self) speed + 1)) 0 None w) as H.
      destruct (claude_loop _ _ _ _ _ _ _ _) as [[[r|e|] le] w'];
        destruct H as [_ He]; cbn; [done| |by right; left].
      destruct He as (s & -> & Hc). by right; right.
    + unfold _call_gemini_with_retry.
      pose proof (gemini_loop_spec (cfg self) (gemini self)
        (_resolve_model (cfg self) (provider self) speed)
        (_resolve_retry_count (cfg self) speed)
        (Z.to_nat (_resolve_retry_count (cfg self) speed + 1)) 0 None w) as H.
      destruct (gemini_loop _ _ _ _ _ _ _ _) as [[[r|e|] le] w'];
        destruct H as [_ He]; cbn; [done| |by right; left].
      destruct He as (s & -> & Hc). by right; right.
    + by destruct Hp.
  - unfold _check_circuit_state in Echeck.
    destruct (Qlt_bool _ _); [|discriminate].
    inversion Echeck; subst. cbn. by left.
Qed.

(** X15.  [BlogGenerationService(api_key)] either raises [ValueError] or
    gives a service whose provider is "anthropic" or "gemini", in lower
    case, with a non-empty key for that provider (the argument, or else
    the setting).  A provider call of such a service therefore ends with
    PROVIDER_UNAVAILABLE, API_ERROR or a billing, authentication or
    request error when it raises, never with INVALID_PROVIDER. *)
Theorem constructor_accepts_only_usable_providers (st : Settings)
    (api_key : option string) :
  match __init__ st api_key with
  | Ok self =>
      ((provider self = "anthropic"
        /\ is_set (py_or api_key (ANTHROPIC_API_KEY st)) = true)
       \/ (provider self = "gemini"
           /\ is_set (py_or api_key (GEMINI_API_KEY st)) = true))
      /\ cfg self = class_attributes st
      /\ forall speed w,
           match fst (_call_model_with_retry self speed w) with
           | Ok _ => True
           | Raise (EService e) =>
               code e = "PROVIDER_UNAVAILABLE" \/ code e = "API_ERROR"
               \/ fatal_code (code e) = true
           | Raise (EOther _ _) => False
           end
  | Raise e => exists msg, e = EOther "ValueError" msg
  end.
Proof.
  unfold __init__.
  set (p := Py.lower _).
  destruct (String.eqb_spec p "anthropic") as [Ea|Ea].
  - destruct (is_set (py_or api_key (ANTHROPIC_API_KEY st))) eqn:Ek;
      cbn [negb]; [|eauto].
    split; [left; done|]. split; [done|].
    intros speed w. apply _call_model_with_retry_codes. by left.
  - destruct (String.eqb_spec p "gemini") as [Eg|Eg]; [|eauto].
    destruct (is_set (py_or api_key (GEMINI_API_KEY st))) eqn:Ek;
      cbn [negb]; [|eauto].
    split; [right; done|]. split; [done|].
    intros speed w. apply _call_model_with_retry_codes. by right.
Qed.

(** X16.  [generate_post_job] never leaves its job queued or running.  For
    a job id that is not in the table it returns without touching
    anything.  Otherwise the job ends at progress 100 with its request
    fields unchanged: COMPLETED with an empty error message when the
    generation returned, linked to the post the generation created and
    completed (unless that id is 0); FAILED when it raised, the exception
    raised again, its text in [error_message] and the link to a post left
    as it was.  No other job is changed. *)
Theorem generate_post_job_settles_job (st : Settings)
    (request_id : option string) (job_id : nat)
    (jobs : gmap nat GenerationJob.t) (w : World) :
  let '(r, jobs', w') := generate_post_job st request_id job_id jobs w in
  (forall k, k <> job_id -> jobs' !! k = jobs !! k)
  /\ match jobs !! job_id with
     | None => r = Ok tt /\ jobs' = jobs /\ w' = w
     | Some job =>
         exists job',
           jobs' !! job_id = Some job'
           /\ GenerationJob.progress job' = 100
           /\ GenerationJob.topic job' = GenerationJob.topic job
           /\ GenerationJob.persona_slug job' = GenerationJob.persona_slug job
           /\ GenerationJob.speed job' = GenerationJob.speed job
           /\ GenerationJob.session_id job' = GenerationJob.session_id job
           /\ match r with
              | Ok _ =>
                  GenerationJob.status job' = GenerationJob.COMPLETED
                  /\ GenerationJob.error_message job' = EmptyString
                  /\ GenerationJob.blog_post job' =
                       (if Nat.eqb (next_post_id (db w)) 0
                        then GenerationJob.blog_post job
                        else Some (next_post_id (db w)))
                  /\ exists p,
                       posts (db w') !! next_post_id (db w) = Some p
                       /\ status p = COMPLETED
                       /\ topic_input p = GenerationJob.topic job
              | Raise exc =>
                  GenerationJob.status job' = GenerationJob.FAILED
                  /\ GenerationJob.error_message job' = str_exn exc
                  /\ GenerationJob.blog_post job' = GenerationJob.blog_post job
              end
     end.
Proof.
  unfold generate_post_job.
  destruct (jobs !! job_id) as [job|] eqn:Hjob; [|done].
  destruct (__init__ st None) as [service|exc].
  - destruct (generate_post _ _ _ _ _ w) as [[r|exc] w'] eqn:Hrun.
    + split.
      { intros k Hk. by rewrite !lookup_insert_ne. }
      eexists. split; [by rewrite lookup_insert_eq|].
      destruct (generate_post_success_shape _ _ _ _ _ _ _ _ Hrun)
        as (p & persona & Hp & Hid & _ & _ & _ & Hst & Htopic & _).
      cbn. rewrite Hid. repeat split; try reflexivity.
      exists p. by repeat split.
    + split.
      { intros k Hk. by rewrite !lookup_insert_ne. }
      eexists. split; [by rewrite lookup_insert_eq|].
      cbn. repeat split; reflexivity.
  - split.
    { intros k Hk. by rewrite !lookup_insert_ne. }
    eexists. split; [by rewrite lookup_insert_eq|].
    cbn. repeat split; reflexivity.
Qed.

(** The queued job of the round-trip example, run to completion. *)
Lemma generate_post_job_settles_job_witness :
  exists job',
    snd (fst (generate_post_job
                (anthropic_settings (claude_answers sample_response))
                (Some "task-1") 1 {[ 1%nat := queued_job ]} initial_world))
      !! 1%nat = Some job'
    /\ GenerationJob.status job' = GenerationJob.COMPLETED
    /\ GenerationJob.blog_post job' = Some 1%nat.
Proof.
  pose proof (generate_post_job_settles_job
                (anthropic_settings (claude_answers sample_response))
                (Some "task-1") 1 {[ 1%nat := queued_job ]} initial_world)
    as H.
  assert (Hr : fst (fst (generate_post_job
                (anthropic_settings (claude_answers sample_response))
                (Some "task-1") 1 {[ 1%nat := queued_job ]} initial_world))
               = Ok tt) by (vm_compute; reflexivity).
  destruct (generate_post_job _ _ _ _ _) as [[r jobs'] w'].
  cbn [fst snd] in *. subst r.
  destruct H as [_ H]. rewrite lookup_singleton_eq in H.
  destruct H as (job' & Hj & _ & _ & _ & _ & _ & Hs & _ & Hb & _).
  exists job'. split; [exact Hj|]. split; [exact Hs | exact Hb].
Defined.

(* ===================================================================== *)
(** * The breaker entries of other providers, and what the prompt carries *)
(* ===================================================================== *)

Lemma breaker_effect_other (self : Service) (w w' : World)
    (r : result ModelResponse) (q : string) :
  breaker_effect self w w' r -> q <> provider self ->
  provider_state w' !! q = provider_state w !! q.
Proof.
  intros H Hq. destruct r as [r|[e|cls msg]]; cbn in H.
  - rewrite H. unfold _record_success.
    destruct (provider_state w !! provider self); [|done].
    by rewrite lookup_insert_ne.
  - destruct H as [[_ ->]|[_ ->]]; [|done].
    unfold _record_failure. by rewrite lookup_insert_ne.
  - contradiction.
Qed.

Lemma generate_post_except_provider_state (topic slug : string)
    (bp : option BlogPost) (e : exn) (w : World) :
  provider_state (snd (generate_post_except topic slug bp e w))
  = provider_state w.
Proof. by destruct e, bp. Qed.

(** X17.  A generation only ever touches the breaker entry of its own
    provider: whatever the outcome, the failure count and the deadline of
    every other provider are as they were before the call. *)
Theorem generate_post_touches_only_own_breaker (self : Service)
    (topic slug : string) (ctx : list (string * string)) (speed : string)
    (w : World) (q : string) :
  q <> provider self ->
  provider_state (snd (generate_post self topic slug ctx speed w)) !! q
  = provider_state w !! q.
Proof.
  intros Hq. unfold generate_post.
  destruct (_validate_generation_input topic slug) as [[]|e];
    [|by rewrite generate_post_except_provider_state].
  destruct (_get_persona slug (db w)) as [persona|e];
    [|by rewrite generate_post_except_provider_state].
  unfold build_generation_prompt.
  pose proof (render_user_prompt_text (prompt_cfg self) topic persona ctx
                speed) as Hprompt. cbv zeta in Hprompt.
  rewrite Hprompt.
  match goal with
  | |- context [_create_post_record ?t ?pe ?pr ?d] =>
      destruct (_create_post_record t pe pr d) as [bp d1]
  end.
  pose proof (_call_model_with_retry_breaker self speed (set_db d1 w)) as Hb.
  destruct (_call_model_with_retry self speed (set_db d1 w))
    as [[resp|e] w2]; cbn [fst snd] in Hb.
  - pose proof (breaker_effect_other _ _ _ _ q Hb Hq) as Hw2.
    cbn [provider_state set_db] in Hw2.
    destruct (_parse_response (content resp)) as [parsed|e] eqn:Eparse;
      [|by rewrite generate_post_except_provider_state].
    rewrite (_parse_response_structure _ _ Eparse).
    destruct (_update_post_with_content_analyzed bp (markdown parsed)
                (sources parsed) (usage resp) w2)
      as (p & w3 & -> & _ & _ & _ & _ & Hps & _).
    cbn [snd]. by rewrite Hps.
  - rewrite generate_post_except_provider_state.
    apply (breaker_effect_other _ _ _ _ q Hb Hq).
Qed.

Lemma generate_post_touches_only_own_breaker_witness :
  provider_state
    (snd (generate_post (anthropic_service claude_overloaded)
            renewable_topic "technical" [] "normal" two_failures_world))
    !! "gemini"
  = provider_state two_failures_world !! "gemini".
Proof.
  apply (generate_post_touches_only_own_breaker
           (anthropic_service claude_overloaded)).
  discriminate.
Defined.

Lemma contains_app_l (n a b : string) :
  Py.contains n a = true -> Py.contains n (a ++ b) = true.
Proof.
  assert (Hs : forall p s t, Py.startswith p s = true ->
                             Py.startswith p (s ++ t) = true).
  { induction p as [|x p IH]; intros s t; [done|].
    destruct s as [|y s]; [discriminate|].
    change (Ascii.eqb x y && Py.startswith p s = true ->
            Ascii.eqb x y && Py.startswith p (s ++ t) = true).
    intros H. apply andb_true_iff in H as [H1 H2].
    by rewrite H1, (IH _ _ H2). }
  induction a as [|x a IH].
  - cbn [Py.contains]. rewrite orb_false_r. intros H.
    destruct n; [|discriminate]. by destruct b.
  - change (Py.contains n (String x a) = true ->
            Py.contains n (String x (a ++ b)) = true).
    cbn [Py.contains]. intros H. apply orb_true_iff in H as [H|H].
    + apply (Hs _ _ b) in H.
      change (String x a ++ b) with (String x (a ++ b)) in H.
      by rewrite H.
    + by rewrite (IH H), orb_true_r.
Qed.

Lemma contains_app3 (a b c r : string) :
  Py.contains (a ++ b ++ c) (a ++ b ++ c ++ r) = true.
Proof.
  rewrite <- (app_assoc_s b c r), <- (app_assoc_s a (b ++ c) r).
  apply contains_self_app.
Qed.

Lemma context_lines_contains (k v : string) (ctx : list (string * string)) :
  In (k, v) ctx ->
  Py.contains (context_line k v) (context_lines ctx) = true.
Proof.
  induction ctx as [|[k' v'] ctx IH]; [done|].
  cbn [context_lines]. intros [E|Hin].
  - inversion E; subst. apply contains_self_app.
  - by apply contains_app_r, IH.
Qed.

(** X18.  The user prompt always renders, and it carries what the caller
    gave: the topic on the opening line, one line "- key: value" for every
    entry of the additional context, and the style guidance of the persona
    as a requirement line. *)
Theorem user_prompt_carries_inputs (st : PromptSettings) (topic : string)
    (persona : Persona) (ctx : list (string * string)) (speed : string) :
  exists prompt,
    build_generation_prompt st topic persona ctx speed = Ok prompt
    /\ Py.startswith
         (Py.nl ++ "Write a comprehensive blog post about: " ++ topic ++ Py.nl)
         prompt = true
    /\ (forall k v, In (k, v) ctx ->
          Py.contains (Py.nl ++ "- " ++ k ++ ": " ++ v ++ Py.nl) prompt = true)
    /\ Py.contains ("- " ++ style_guidance persona ++ Py.nl) prompt = true.
Proof.
  eexists. split; [apply render_user_prompt_text|].
  split; [|split].
  - match goal with
    | |- Py.startswith ?n (head_text topic ctx ++ ?R) = true =>
        assert (E : head_text topic ctx ++ R
                    = n ++ (Py.nl ++ context_block ctx ++ R))
          by (unfold head_text; rewrite !app_assoc_s; reflexivity);
        rewrite E
    end.
    apply startswith_app.
  - intros k v Hin. apply contains_app_l. unfold head_text.
    do 5 apply contains_app_r.
    destruct ctx as [|kv ctx]; [done|]. unfold context_block.
    do 3 apply contains_app_r. apply contains_app_l.
    by apply context_lines_contains.
  - apply contains_app_r. unfold requirements_text.
    do 2 apply contains_app_r. unfold requirements_rest.
    do 9 apply contains_app_r. apply contains_app3.
Qed.

(* ===================================================================== *)
(** * The parser on text without markdown headings                        *)
(* ===================================================================== *)

Lemma hash_lower (x : ascii) :
  Ascii.eqb (Py.lower_char "#") (Py.lower_char x) = true -> x = "#"%char.
Proof.
  destruct x as [[] [] [] [] [] [] [] []]; vm_compute; congruence.
Qed.

Lemma cmatch_hash (fl : flags) (x : ascii) :
  Ascii.eqb "#" x = false -> cmatch fl (CChar "#") x = false.
Proof.
  intros H. unfold cmatch. destruct (IGNORECASE fl); [|exact H].
  destruct (Ascii.eqb (Py.lower_char "#") (Py.lower_char x)) eqn:E; [|done].
  apply hash_lower in E. subst x. discriminate.
Qed.

(** A pattern that fails wherever the next character is not [#] has no
    match in a text without [#]. *)
Lemma search_from_no_hash (fl : flags) (r : regex) :
  (forall p, match_at fl r {| before := p; rest := EmptyString |} = None) ->
  (forall p x s, Ascii.eqb "#" x = false ->
     match_at fl r {| before := p; rest := String x s |} = None) ->
  forall s sk p, Py.has_char "#" s = false ->
                 search_from fl r sk p s = None.
Proof.
  intros Hnil Hcons. induction s as [|x s IH]; intros sk p H.
  - cbn [search_from]. by rewrite Hnil.
  - cbn [Py.has_char] in H. apply orb_false_iff in H as [Hx Hs].
    cbn [search_from]. rewrite (Hcons _ _ _ Hx). by apply IH.
Qed.

Lemma title_search_no_hash (s : string) :
  Py.has_char "#" s = false -> search fl_multiline title_pattern s = None.
Proof.
  apply search_from_no_hash.
  - intros p. unfold match_at, title_pattern, seq, chr.
    cbn [fold_right run rest]. by destruct (at_bol _ _).
  - intros p x s' Hx. unfold match_at, title_pattern, seq, chr.
    cbn [fold_right run rest].
    rewrite (cmatch_hash _ _ Hx). by destruct (at_bol _ _).
Qed.

Lemma sources_search_no_hash (s : string) :
  Py.has_char "#" s = false ->
  search fl_dotall_ignorecase sources_section_pattern s = None.
Proof.
  apply search_from_no_hash.
  - intros p. reflexivity.
  - intros p x s' Hx. unfold match_at, sources_section_pattern, seq, chr.
    cbn [fold_right run rest lit chr].
    by rewrite (cmatch_hash _ _ Hx).
Qed.

Lemma headings_no_hash (s : string) :
  Py.has_char "#" s = false ->
  findall2 fl_multiline heading_pattern s = [].
Proof.
  intros H. unfold findall2, matches. cbn [scan before rest].
  rewrite search_from_no_hash; [done| | |exact H].
  - intros p. unfold match_at, heading_pattern, seq, chr.
    cbn [fold_right run rest before rep_greedy Nat.leb].
    by destruct (at_bol _ _).
  - intros p x s' Hx. unfold match_at, heading_pattern, seq, chr.
    cbn [fold_right run rest before rep_greedy Nat.leb].
    rewrite (cmatch_hash _ _ Hx). cbn [andb]. by destruct (at_bol _ _).
Qed.

(** X19.  Text without a [#] goes through the parser as it is: the call
    returns, the body is the input unchanged, there is no title and no
    source, and the structure counts no heading. *)
Theorem parse_plain_text_unchanged (raw : string) :
  Py.has_char "#" raw = false ->
  _parse_response raw
  = Ok {| markdown := raw; sources := []; title := None;
          structure := _analyze_structure raw |}
  /\ dict_get "heading_count" (_analyze_structure raw) = Some (VInt 0)
  /\ dict_get "headings" (_analyze_structure raw) = Some (VList []).
Proof.
  intros H. unfold _parse_response.
  rewrite (title_search_no_hash _ H), (sources_search_no_hash _ H).
  split; [reflexivity|].
  unfold _analyze_structure. rewrite (headings_no_hash _ H).
  split; reflexivity.
Qed.

Lemma parse_plain_text_unchanged_witness :
  exists parsed,
    _parse_response "Solar and wind keep getting cheaper." = Ok parsed
    /\ markdown parsed = "Solar and wind keep getting cheaper."
    /\ sources parsed = [].
Proof.
  eexists. split.
  - apply (proj1 (parse_plain_text_unchanged
                    "Solar and wind keep getting cheaper." eq_refl)).
  - split; reflexivity.
Defined.
